(** * Langpack synchronizer and asset publisher: model and properties

    A shallow embedding of two build scripts of the repository:

    - [build/azure-pipelines/common/createAsset.ts] (module [CreateAsset]):
      the platform-key table, the asset record and the publishing script;
    - [build/lib/locFunc.ts] (module [LocFunc]): the XLIFF routing step, the
      main-catalog update, the descriptor reconciliation and the pruning of
      the sibling language pack.

    Conventions of the model.

    - JavaScript strings are [string]; [`a${x}b`] is [+:+].
    - A JavaScript object used as a dictionary is an association list of
      its own properties in their order (module [JsObject]). Where the
      code reads or writes a property whose name comes from its input (the
      catalogs of the extensions and their keys), the names that every
      object inherits from [Object.prototype] are followed ([inherited],
      [put]); the keys that the main catalog is asked for start with [sql],
      and no inherited name does.
    - A [throw] is the constructor [Throw] of [Result]; a promise that
      rejects is a [Throw] as well.
    - Calls to the outside world (console, blob stores, database, exit) are
      recorded in a trace. *)

From Stdlib Require Import ZArith Ascii String List Bool Lia.
From stdpp Require Import base option list gmap strings.

#[global] Set Warnings "-register-all".
Local Open Scope Z_scope.

(** ** Strings, as the scripts use them *)

Module JsString.

(** [s.startsWith(p)] *)
Fixpoint startsWith (s p : string) {struct p} : bool :=
  match p with
  | EmptyString => true
  | String a p' =>
      match s with
      | EmptyString => false
      | String b s' => Ascii.eqb a b && startsWith s' p'
      end
  end.

(** [s.includes(p)], which is also [/p/.test(s)] for a pattern [p] made of
    plain characters only. *)
Fixpoint includes (s p : string) : bool :=
  startsWith s p ||
  match s with
  | EmptyString => false
  | String _ s' => includes s' p
  end.

(** [s.indexOf(c, from)] for a one-character needle, with [from]
    already clamped to [0 ..]: the position counted from the start of the
    whole string, [-1] when there is none. [pos] is the position of the
    first character of [s] in the whole string. *)
Fixpoint indexOf_at (c : ascii) (s : string) (pos from : Z) : Z :=
  match s with
  | EmptyString => -1
  | String a s' =>
      if (from <=? pos) && Ascii.eqb a c then pos
      else indexOf_at c s' (pos + 1) from
  end.

Definition indexOf (c : ascii) (s : string) (from : Z) : Z :=
  indexOf_at c s 0 (Z.max 0 from).

(** [s.lastIndexOf(c)] for a one-character needle. *)
Fixpoint lastIndexOf_at (c : ascii) (s : string) (pos : Z) : Z :=
  match s with
  | EmptyString => -1
  | String a s' =>
      let r := lastIndexOf_at c s' (pos + 1) in
      if 0 <=? r then r else if Ascii.eqb a c then pos else -1
  end.

Definition lastIndexOf (c : ascii) (s : string) : Z := lastIndexOf_at c s 0.

Fixpoint drop (n : nat) (s : string) : string :=
  match n, s with
  | O, _ => s
  | S n', String _ s' => drop n' s'
  | S _, EmptyString => EmptyString
  end.

Fixpoint take (n : nat) (s : string) : string :=
  match n, s with
  | S n', String a s' => String a (take n' s')
  | _, _ => EmptyString
  end.

Definition strlen (s : string) : Z := Z.of_nat (String.length s).

(** [s.substr(start)] with one argument: a negative [start] counts from
    the end. *)
Definition substr (s : string) (start : Z) : string :=
  let start' := if start <? 0 then Z.max 0 (strlen s + start) else start in
  drop (Z.to_nat start') s.

(** [s.substring(a, b)]: negative bounds are 0, bounds beyond the length
    are the length, and the bounds are swapped when [a > b]. *)
Definition substring (s : string) (a b : Z) : string :=
  let clamp x := Z.min (Z.max 0 x) (strlen s) in
  let lo := Z.min (clamp a) (clamp b) in
  let hi := Z.max (clamp a) (clamp b) in
  take (Z.to_nat (hi - lo)) (drop (Z.to_nat lo) s).

(** [s.replace(pat, rep)] with a string pattern: only the first
    occurrence is replaced. *)
Fixpoint replace (s pat rep : string) : string :=
  if startsWith s pat then rep +:+ drop (String.length pat) s
  else match s with
       | EmptyString => EmptyString
       | String a s' => String a (replace s' pat rep)
       end.

Definition lowerChar (a : ascii) : ascii :=
  let n := N_of_ascii a in
  if ((65 <=? n) && (n <=? 90))%N then ascii_of_N (n + 32) else a.

(** The strings of ASCII characters only. *)
Fixpoint isAscii (s : string) : bool :=
  match s with
  | EmptyString => true
  | String a s' => (N_of_ascii a <? 128)%N && isAscii s'
  end.

(** [s.toLowerCase()] on a string of ASCII characters, where it lowers the
    letters [A] to [Z] and nothing else; the case mapping of the other
    characters is not followed, and [isAscii] is the hypothesis of what is
    proved of it. *)
Fixpoint toLowerCase (s : string) : string :=
  match s with
  | EmptyString => EmptyString
  | String a s' => String (lowerChar a) (toLowerCase s')
  end.

End JsString.

(** ** Objects used as dictionaries *)

Module JsObject.

(** The properties of an object in own-property order: the array indices
    first, in ascending order, then the other names in the order they were
    created. *)
Definition obj (V : Type) : Type := list (string * V).

Fixpoint digitsValue (s : string) (acc : N) : option N :=
  match s with
  | EmptyString => Some acc
  | String c s' =>
      let n := N_of_ascii c in
      if ((48 <=? n) && (n <=? 57))%N
      then digitsValue s' (10 * acc + (n - 48))%N
      else None
  end.

(** The array index a property name stands for, if any: a canonical
    numeric string below [2^32 - 1]. *)
Definition arrayIndex (k : string) : option N :=
  match k with
  | EmptyString => None
  | String c s' =>
      if Ascii.eqb c "0" && negb (String.eqb s' EmptyString) then None
      else match digitsValue k 0 with
           | Some n => if (n <? 4294967295)%N then Some n else None
           | None => None
           end
  end.

(** The names that an object inherits from [Object.prototype]: reading one
    of them on an object that does not have it as an own property gives the
    inherited member, a function or, for [__proto__], the prototype. *)
Definition prototypeMembers : list string := [
  "constructor"; "__defineGetter__"; "__defineSetter__"; "hasOwnProperty";
  "__lookupGetter__"; "__lookupSetter__"; "isPrototypeOf"; "propertyIsEnumerable";
  "toString"; "valueOf"; "__proto__"; "toLocaleString"
].

Definition inherited (k : string) : bool := existsb (String.eqb k) prototypeMembers.

Section Operations.
Context {V : Type}.

(** [o[k]] on own properties; [None] is [undefined]. *)
Fixpoint get (k : string) (o : obj V) : option V :=
  match o with
  | [] => None
  | (k', v) :: o' => if String.eqb k' k then Some v else get k o'
  end.

Definition has (k : string) (o : obj V) : bool :=
  match get k o with Some _ => true | None => false end.

Fixpoint update (k : string) (v : V) (o : obj V) : obj V :=
  match o with
  | [] => []
  | (k', v') :: o' =>
      if String.eqb k' k then (k', v) :: o' else (k', v') :: update k v o'
  end.

(** A new array index goes after the smaller indices. *)
Fixpoint insertIndex (n : N) (k : string) (v : V) (o : obj V) : obj V :=
  match o with
  | [] => [(k, v)]
  | (k', v') :: o' =>
      match arrayIndex k' with
      | Some m => if (m <? n)%N then (k', v') :: insertIndex n k v o'
                  else (k, v) :: o
      | None => (k, v) :: o
      end
  end.

(** [o[k] = v]: an existing property keeps its place. *)
Definition set (k : string) (v : V) (o : obj V) : obj V :=
  if has k o then update k v o
  else match arrayIndex k with
       | Some n => insertIndex n k v o
       | None => o ++ [(k, v)]
       end.

(** [o[k] = v] for an object [v] on an object that inherits from
    [Object.prototype]: the name [__proto__] is the accessor of the
    prototype, and the assignment makes no own property. *)
Definition put (k : string) (v : V) (o : obj V) : obj V :=
  if String.eqb k "__proto__" then o else set k v o.

(** [delete o[k]] *)
Definition delete (k : string) (o : obj V) : obj V :=
  List.filter (fun e => negb (String.eqb (fst e) k)) o.

(** [Object.keys(o)] *)
Definition keys (o : obj V) : list string := List.map fst o.

(** [Object.assign(target, source)], property by property. *)
Definition assign (target source : obj V) : obj V :=
  fold_left (fun o e => set (fst e) (snd e) o) source target.

(** [{ ...a, ...b }]: the copy of [a] lists the properties of [a] in their
    order, and those of [b] are then assigned to it. *)
Definition spread (a b : obj V) : obj V := assign a b.

End Operations.

End JsObject.

(** ** JSON documents and their text *)

Module Json.
Import JsString.

(** The documents of the catalogs: strings, arrays and objects. *)
Inductive json : Type :=
| JString (s : string)
| JArray (l : list json)
| JObject (o : list (string * json)).

Definition LF : string := String (ascii_of_nat 10) EmptyString.
Definition CR : string := String (ascii_of_nat 13) EmptyString.
Definition TAB : string := String (ascii_of_nat 9) EmptyString.
Definition DQUOTE : string := String (ascii_of_nat 34) EmptyString.
Definition BACKSLASH : string := String (ascii_of_nat 92) EmptyString.

Definition hexDigit (n : N) : ascii :=
  if (n <? 10)%N then ascii_of_N (48 + n) else ascii_of_N (87 + n).

(** One character of a string literal of JSON. *)
Definition quoteChar (a : ascii) : string :=
  let n := N_of_ascii a in
  if (n =? 34)%N then BACKSLASH +:+ DQUOTE
  else if (n =? 92)%N then BACKSLASH +:+ BACKSLASH
  else if (n =? 8)%N then "\b"
  else if (n =? 9)%N then "\t"
  else if (n =? 10)%N then "\n"
  else if (n =? 12)%N then "\f"
  else if (n =? 13)%N then "\r"
  else if (n <? 32)%N
       then "\u00" +:+ String (hexDigit (n / 16)) (String (hexDigit (n mod 16)) EmptyString)
  else String a EmptyString.

Fixpoint quoteBody (s : string) : string :=
  match s with
  | EmptyString => EmptyString
  | String a s' => quoteChar a +:+ quoteBody s'
  end.

Definition quote (s : string) : string := DQUOTE +:+ quoteBody s +:+ DQUOTE.

Fixpoint joinWith (sep : string) (l : list string) : string :=
  match l with
  | [] => EmptyString
  | [x] => x
  | x :: l' => x +:+ sep +:+ joinWith sep l'
  end.

(** [JSON.stringify(j, null, gap)] at the indentation [indent]. *)
Fixpoint stringifyAt (gap indent : string) (j : json) : string :=
  match j with
  | JString s => quote s
  | JArray [] => "[]"
  | JArray l =>
      let inner := indent +:+ gap in
      "[" +:+ LF
      +:+ joinWith ("," +:+ LF) (List.map (fun x => inner +:+ stringifyAt gap inner x) l)
      +:+ LF +:+ indent +:+ "]"
  | JObject [] => "{}"
  | JObject o =>
      let inner := indent +:+ gap in
      "{" +:+ LF
      +:+ joinWith ("," +:+ LF)
            (List.map (fun e => inner +:+ quote (fst e) +:+ ": "
                                +:+ stringifyAt gap inner (snd e)) o)
      +:+ LF +:+ indent +:+ "}"
  end.

Definition stringify (j : json) (gap : string) : string := stringifyAt gap EmptyString j.

(** [content.replace(/\n/g, '\r\n')] *)
Fixpoint crlf (s : string) : string :=
  match s with
  | EmptyString => EmptyString
  | String a s' =>
      if Ascii.eqb a (ascii_of_nat 10) then CR +:+ LF +:+ crlf s'
      else String a (crlf s')
  end.

End Json.

(** ** Results of code that may throw *)

Inductive Result (E A : Type) : Type :=
| Ok (a : A)
| Throw (e : E).
Arguments Ok {E A} a.
Arguments Throw {E A} e.

Definition is_ok {E A} (r : Result E A) : bool :=
  match r with Ok _ => true | Throw _ => false end.

Definition is_throw {E A} (r : Result E A) : bool := negb (is_ok r).

(** The value of a result, without the error of a failure. *)
Definition okValue {E A} (r : Result E A) : option A :=
  match r with Ok a => Some a | Throw _ => None end.

(** ** Paths *)

Module NodePath.
Import JsString.

(** The segments of a path between its slashes. *)
Fixpoint segments (s : string) : list string :=
  match s with
  | EmptyString => [EmptyString]
  | String c s' =>
      if Ascii.eqb c "/" then EmptyString :: segments s'
      else match segments s' with
           | seg :: rest => String c seg :: rest
           | [] => [String c EmptyString]
           end
  end.

Definition properSegment (seg : string) : bool :=
  negb (String.eqb seg EmptyString) && negb (String.eqb seg ".").

(** [path.join(...parts)] of the posix flavour, on relative paths without
    [..] and without a separator at the end: the parts are joined with the
    separator, and the empty and [.] segments are dropped. A [..] segment
    is kept where [path.join] resolves it, a separator at the start or at
    the end is dropped where [path.join] keeps it; [normal] and [follows] say
    on which arguments the two agree. *)
Definition properSegments (parts : list string) : list string :=
  List.filter properSegment (List.concat (List.map segments parts)).

Definition join (parts : list string) : string :=
  match properSegments parts with
  | [] => "."
  | segs => Json.joinWith "/" segs
  end.

Fixpoint endsWith (s suffix : string) : bool :=
  String.eqb s suffix ||
  match s with
  | EmptyString => false
  | String _ s' => endsWith s' suffix
  end.

(** [path.basename(p, ext)] *)
Definition basename (p ext : string) : string :=
  let name := List.last (List.filter (fun seg => negb (String.eqb seg EmptyString))
                                     (segments p)) EmptyString in
  if endsWith name ext && negb (String.eqb name ext)
  then take (String.length name - String.length ext) name
  else name.

Definition noDotDot (p : string) : bool :=
  forallb (fun seg => negb (String.eqb seg "..")) (segments p).

(** A relative path as [path.join] gives it: proper segments only, none of
    them [..], and not the current directory. *)
Definition normal (p : string) : bool :=
  String.eqb (join [p]) p && negb (String.eqb p ".") && noDotDot p.

(** What can follow a normal path in a call of [join]: no [..] segment and
    no separator at the end. *)
Definition follows (p : string) : bool :=
  noDotDot p && negb (endsWith p "/").

(** A string without slash is its only segment. *)
Definition plain (seg : string) : Prop := segments seg = [seg].

(** The name of an entry of a directory: one segment, not empty and not
    [.]. *)
Definition entryName (seg : string) : Prop :=
  plain seg /\ properSegment seg = true.

(** The path without its first [n] segments, in the words of the
    specification: [n] leading slash-delimited segments are stripped. *)
Definition stripSegments (n : nat) (p : string) : string :=
  Json.joinWith "/" (List.skipn n (segments p)).

End NodePath.

(** ** locFunc.ts *)

Module LocFunc.
Import JsString Json.

Notation "a === b" := (String.eqb a b) (at level 70, no associativity).

(** *** The data of [i18n.ts] that the functions handle *)

Record ParsedXLF : Type := mkParsedXLF {
  messages : json;
  originalFilePath : string;
  language : string
}.

Record I18nPack : Type := mkI18nPack {
  version : string;
  contents : JsObject.obj json
}.

Record TranslationPath : Type := mkTranslationPath {
  id : string;
  resourceName : string
}.

(** A file of the stream. It is kept as the document it holds; [fileContents]
    is the text of its buffer. *)
Record File : Type := mkFile {
  path : string;
  document : json;
  crlfEndings : bool
}.

Definition fileContents (f : File) : string :=
  let content := stringify (document f) TAB in
  if crlfEndings f then crlf content else content.

(** [contents] of the catalog that a file holds, read the way
    [updateMainI18nFile] reads it from the parsed JSON. *)
Definition catalogContents (f : File) : option (JsObject.obj json) :=
  match document f with
  | JObject o =>
      match JsObject.get "contents" o with
      | Some (JObject c) => Some c
      | _ => None
      end
  | _ => None
  end.

(** An entry of the [translations] of a localization; [others] are the
    properties that the functions never touch. *)
Record Translation : Type := mkTranslation {
  t_id : string;
  t_path : string;
  t_others : list (string * string)
}.

Record Localization : Type := mkLocalization {
  languageId : string;
  languageName : string;
  localizedLanguageName : string;
  transifexId : option string;
  translations : list Translation
}.

(** The [package.json] of a language pack: the fields that are rewritten
    and the localizations. *)
Record PackageJSON : Type := mkPackageJSON {
  name : string;
  displayName : string;
  publisher : string;
  license : string;
  scripts_update : string;
  engines_vscode : string;
  engines_azdata : string;
  repository_url : string;
  localizations : list Localization
}.

(** *** The file system

    A file holds a JSON document, a [package.json] or other bytes. Reading a
    JSON file and parsing it gives back the document that was written. *)
Inductive FileData : Type :=
| JsonFile (j : json)
| ManifestFile (p : PackageJSON)
| OtherFile (bytes : string).

Abbreviation FS := (gmap string FileData).

(** A path is below [dir] when it continues [dir] after a separator. *)
Definition below (dir p : string) : bool := startsWith p (dir +:+ "/").

(** [fs.existsSync(p)], and whether [fs.statSync(p)] returns: [p] is a file,
    or a directory with something in it. *)
Definition existsSync (fs : FS) (p : string) : bool :=
  bool_decide (is_Some (fs !! p))
  || bool_decide (Exists (fun q => below p q = true) (List.map fst (map_to_list fs))).

(** [rimraf.sync(p)]: [p] goes, with all that is below it. *)
Definition rimraf (fs : FS) (p : string) : FS :=
  filter (fun e => e.1 <> p /\ below p e.1 = false) fs.

Inductive Reason : Type :=
| ParseFailure (msg : string)      (* a rejected parse *)
| ReadFailure (file : string)      (* a file that cannot be read as a catalog *)
| TypeError                        (* a property set on [undefined] *)
| Reasons (l : list Reason).       (* the array [errors], thrown as it is *)

Section Langpacks.

(** [i18n.i18nPackVersion] of [i18n.ts] and [process.platform]. *)
Variable i18nPackVersion : string.
Variable processPlatform : string.

Definition header : json :=
  JArray [
    JString "--------------------------------------------------------------------------------------------";
    JString "Copyright (c) Microsoft Corporation. All rights reserved.";
    JString "Licensed under the MIT License. See License.txt in the project root for license information.";
    JString "--------------------------------------------------------------------------------------------";
    JString "Do not edit this file. It is machine generated."
  ].

(** The test of the first loop of [updateMainI18nFile]. *)
Definition stale (messagesContents : JsObject.obj json) (contentKey : string) : bool :=
  startsWith contentKey "sql" && negb (JsObject.has contentKey messagesContents).

(** The first loop of [updateMainI18nFile], over the keys [contentKeys]:
    the SQL strings that are no longer among the messages are deleted. *)
Definition deleteKeys (messagesContents : JsObject.obj json)
    (contentKeys : list string) (objectContents : JsObject.obj json)
  : JsObject.obj json :=
  fold_left
    (fun oc contentKey =>
       if stale messagesContents contentKey
       then JsObject.delete contentKey oc
       else oc)
    contentKeys objectContents.

(** The loop runs over the keys that the object has when it starts. *)
Definition deleteStale (objectContents messagesContents : JsObject.obj json)
  : JsObject.obj json :=
  deleteKeys messagesContents (JsObject.keys objectContents) objectContents.

(** The object that is written: the header, then the properties of the
    pack, [version] and [contents]. *)
Definition catalogObject (messages : I18nPack) : json :=
  JObject
    (JsObject.set "contents" (JObject (contents messages))
       (JsObject.set "version" (JString (version messages))
          (JsObject.set EmptyString header []))).

(** The core strings of the XLF files are combined with the main i18n file
    that is on disk.  The assignment to [messages.contents] is the pack
    that [catalogObject] receives.  The file on disk is followed when it is
    a catalog, an object whose [contents] is an object; a missing file and a
    file of another shape are given as the one failure [ReadFailure],
    whatever the code does with them, and what is proved of the function
    has the catalog, or its absence, as a hypothesis. *)
Definition updateMainI18nFile (fs : FS)
    (existingTranslationFilePath originalFilePath : string) (messages : I18nPack)
  : Result Reason File :=
  let currFilePath := NodePath.join [existingTranslationFilePath +:+ ".i18n.json"] in
  match fs !! currFilePath with
  | Some (JsonFile (JObject currentContentObject)) =>
      match JsObject.get "contents" currentContentObject with
      | Some (JObject objectContents) =>
          let objectContents' := deleteStale objectContents (contents messages) in
          let messages' :=
            mkI18nPack (version messages)
              (JsObject.spread objectContents' (contents messages)) in
          Ok (mkFile (NodePath.join [originalFilePath +:+ ".i18n.json"])
                (catalogObject messages')
                (processPlatform === "win32"))
      | _ => Throw (ReadFailure currFilePath)
      end
  | _ => Throw (ReadFailure currFilePath)
  end.

(** Modelled from the spec: [createI18nFile] of [i18n.ts], which is not
    among the sources. The catalog of an extension is built from the parsed
    data alone, with the same header, indentation and line endings. *)
Definition createI18nFile (originalFilePath : string) (messages : I18nPack) : File :=
  mkFile (NodePath.join [originalFilePath +:+ ".i18n.json"])
    (catalogObject messages) (processPlatform === "win32").

(** An XLF file of the stream, with what its parse settles to; the flag
    [pseudo] only chooses the parser. *)
Record XlfFile : Type := mkXlfFile {
  relative : string;
  parsed : Result Reason (list ParsedXLF)
}.

(** The variables that the two callbacks of [modifyI18nPackFiles] share. *)
Record Packs : Type := mkPacks {
  mainPack : I18nPack;
  extensionsPacks : JsObject.obj I18nPack;
  errors : list Reason
}.

Definition initialPacks : Packs :=
  mkPacks (mkI18nPack i18nPackVersion []) [] [].

(** The body of [resolvedFiles.forEach].  [extensionsPacks[resource]] is
    the own property when there is one; for a name that every object
    inherits it is the inherited member, which is not [undefined] and has no
    [contents], so that no catalog is made and the assignment to
    [extPack.contents[...]] throws. *)
Definition route (resource : string) (st : Packs) (file : ParsedXLF)
  : Result Reason Packs :=
  let path := originalFilePath file in
  let firstSlash := indexOf "/" path 0 in
  if negb (resource === "sql") then
    let secondSlash := indexOf "/" path (firstSlash + 1) in
    let store (extPack : I18nPack) :=
      mkPacks (mainPack st)
        (JsObject.set resource
           (mkI18nPack (version extPack)
              (JsObject.put (substr path (secondSlash + 1)) (messages file)
                 (contents extPack)))
           (extensionsPacks st))
        (errors st) in
    match JsObject.get resource (extensionsPacks st) with
    | Some extPack => Ok (store extPack)
    | None =>
        if JsObject.inherited resource then Throw TypeError
        else Ok (store (mkI18nPack i18nPackVersion []))
    end
  else
    Ok (mkPacks
          (mkI18nPack (version (mainPack st))
             (JsObject.put (substr path (firstSlash + 1)) (messages file)
                (contents (mainPack st))))
          (extensionsPacks st) (errors st)).

Definition resourceOf (xlf : XlfFile) : string :=
  let rawResource := NodePath.basename (relative xlf) ".xlf" in
  substring rawResource 0 (lastIndexOf "." rawResource).

(** [resolvedFiles.forEach(...)]: the files are routed one after the other;
    when the callback throws, the loop stops there, and what was stored
    before stays. *)
Fixpoint forEach (resource : string) (resolvedFiles : list ParsedXLF) (st : Packs)
  : Packs * option Reason :=
  match resolvedFiles with
  | [] => (st, None)
  | file :: resolvedFiles' =>
      match route resource st file with
      | Ok st' => forEach resource resolvedFiles' st'
      | Throw reason => (st, Some reason)
      end
  end.

(** [errors.push(reason)] *)
Definition pushError (st : Packs) (reason : Reason) : Packs :=
  mkPacks (mainPack st) (extensionsPacks st) (errors st ++ [reason]).

(** What the first callback does for one XLF file, once its parse is
    settled: the reason of a rejected parse is pushed to [errors], and so
    is what the routing of a resolved one throws. The files are taken in
    the order their parses settle. *)
Definition through (st : Packs) (xlf : XlfFile) : Packs :=
  match parsed xlf with
  | Ok resolvedFiles =>
      match forEach (resourceOf xlf) resolvedFiles st with
      | (st', None) => st'
      | (st', Some reason) => pushError st' reason
      end
  | Throw reason => pushError st reason
  end.

(** What the stream gives: the queued files with the translation paths
    that were pushed, or an [error] event and nothing queued. *)
Inductive StreamOutput : Type :=
| Queued (files : list File) (resultingTranslationPaths : list TranslationPath)
| ErrorEvent (reason : Reason).

(** The files that reach the next stage of the pipeline. *)
Definition queuedFiles (out : StreamOutput) : list File :=
  match out with
  | Queued files _ => files
  | ErrorEvent _ => []
  end.

Definition firstRejection (xlfs : list XlfFile) : option Reason :=
  match List.find (fun xlf => is_throw (parsed xlf)) xlfs with
  | Some (mkXlfFile _ (Throw reason)) => Some reason
  | _ => None
  end.

(** The second callback, at the end of the input. *)
Definition flush (fs : FS) (existingTranslationFolder : string)
    (resultingTranslationPaths : list TranslationPath)
    (xlfs : list XlfFile) (st : Packs) : StreamOutput :=
  match firstRejection xlfs with
  | Some reason => ErrorEvent reason          (* Promise.all rejects *)
  | None =>
      if negb (Nat.eqb (List.length (errors st)) 0) then ErrorEvent (Reasons (errors st))
      else
        match updateMainI18nFile fs (existingTranslationFolder +:+ "\main") "./main"
                (mainPack st) with
        | Throw reason => ErrorEvent reason
        | Ok translatedMainFile =>
            Queued
              (translatedMainFile
                 :: List.map (fun e => createI18nFile ("extensions/" +:+ fst e) (snd e))
                      (extensionsPacks st))
              (resultingTranslationPaths
                 ++ List.map (fun e => mkTranslationPath (fst e)
                                    ("extensions/" +:+ fst e +:+ ".i18n.json"))
                      (extensionsPacks st))
        end
  end.

Definition modifyI18nPackFiles (fs : FS) (existingTranslationFolder : string)
    (resultingTranslationPaths : list TranslationPath) (xlfs : list XlfFile)
  : StreamOutput :=
  flush fs existingTranslationFolder resultingTranslationPaths xlfs
    (fold_left through xlfs initialPacks).

(** *** [refreshLangpacks] *)

Definition nameText : string := "ads".
Definition displayNameText : string := "Azure Data Studio".
Definition publisherText : string := "Microsoft".
Definition licenseText : string := "SEE MIT License IN LICENSE.txt".
Definition updateText : string := "cd ../vscode && npm run update-localization-extension ".
Definition vscodeVersion : string := "*".
Definition azdataVersion : string := "^1.47.0".
Definition gitUrl : string := "https://github.com/Microsoft/azuredatastudio".

Definition normalizeLangId (langId : string) : string :=
  let langId := if langId === "zh-cn" then "zh-hans" else langId in
  if langId === "zh-tw" then "zh-hant" else langId.

(** The extension fields that are rewritten before the localizations are
    looked at. *)
Definition rewriteManifest (langId : string) (packageJSON : PackageJSON) : PackageJSON :=
  mkPackageJSON
    (toLowerCase (replace (name packageJSON) "vscode" nameText))
    (replace (displayName packageJSON) "Visual Studio Code" displayNameText)
    publisherText
    licenseText
    (updateText +:+ langId)
    vscodeVersion
    azdataVersion
    gitUrl
    (localizations packageJSON).

Definition translation_eqb (a b : Translation) : bool :=
  (t_id a === t_id b) && (t_path a === t_path b)
  && bool_decide (t_others a = t_others b).

(** [translations.indexOf(x)] and [translations.splice(index, 1)] *)
Fixpoint removeFirst (x : Translation) (l : list Translation) : list Translation :=
  match l with
  | [] => []
  | y :: l' => if translation_eqb y x then l' else y :: removeFirst x l'
  end.

(** The entries whose file is no longer in the translations folder are
    collected, and then taken out one by one. *)
Definition removeNonExistant (fs : FS) (translationDataFolder : string)
    (translations : list Translation) : list Translation :=
  let nonExistantExtensions :=
    List.filter
      (fun curr =>
         negb (existsSync fs
                 (NodePath.join [translationDataFolder;
                                 replace (t_path curr) "./translations" EmptyString])))
      translations in
  fold_left (fun trs nonExt => removeFirst nonExt trs) nonExistantExtensions translations.

(** The inner loop over the translations: the first entry with the path
    gets the id. The boolean is [isFound]. *)
Fixpoint setIdAt (finalPath tpId : string) (l : list Translation)
  : list Translation * bool :=
  match l with
  | [] => ([], false)
  | t :: l' =>
      if t_path t === finalPath
      then (mkTranslation tpId (t_path t) (t_others t) :: l', true)
      else let (l'', isFound) := setIdAt finalPath tpId l' in (t :: l'', isFound)
  end.

Definition upsert (translations : list Translation) (tp : TranslationPath)
  : list Translation :=
  let finalPath := "./translations/" +:+ resourceName tp in
  let (translations', isFound) := setIdAt finalPath (id tp) translations in
  if isFound then translations'
  else translations' ++ [mkTranslation (id tp) finalPath []].

Definition reconcile (translations : list Translation)
    (translationPaths : list TranslationPath) : list Translation :=
  fold_left upsert translationPaths translations.

Definition setTranslations (l : Localization) (trs : list Translation) : Localization :=
  mkLocalization (languageId l) (languageName l) (localizedLanguageName l)
    (transifexId l) trs.

Definition setLocalizations (p : PackageJSON) (ls : list Localization) : PackageJSON :=
  mkPackageJSON (name p) (displayName p) (publisher p) (license p) (scripts_update p)
    (engines_vscode p) (engines_azdata p) (repository_url p) ls.

(** The handler of [end], for the localization at position [i] of the
    descriptor; [translationPaths] is [None] when it is [undefined]. *)
Definition onEnd (fs : FS) (locExtFolder translationDataFolder : string)
    (packageJSON : PackageJSON) (i : nat)
    (translationPaths : option (list TranslationPath)) : PackageJSON * FS :=
  match translationPaths, localizations packageJSON !! i with
  | Some translationPaths, Some localization =>
      let pruned := removeNonExistant fs translationDataFolder (translations localization) in
      let translations' := reconcile pruned translationPaths in
      let packageJSON' :=
        setLocalizations packageJSON
          (<[i := setTranslations localization translations']> (localizations packageJSON)) in
      (packageJSON',
       <[NodePath.join [locExtFolder; "package.json"] := ManifestFile packageJSON']> fs)
  | _, _ => (packageJSON, fs)
  end.

(** [vfs.dest(folder)]: the queued files are written below the folder. *)
Definition dest (fs : FS) (folder : string) (files : list File) : FS :=
  fold_left (fun fs f => <[NodePath.join [folder; path f] := JsonFile (document f)]> fs)
    files fs.

(** The pipeline of one localization: the XLF files go through
    [modifyI18nPackFiles] and [vfs.dest]; an [error] event makes
    [translationPaths] undefined before the handler of [end] looks at it. *)
Definition importTranslations (fs : FS) (locExtFolder : string)
    (packageJSON : PackageJSON) (i : nat) (xlfs : list XlfFile) : PackageJSON * FS :=
  let translationDataFolder := NodePath.join [locExtFolder; "translations"] in
  match modifyI18nPackFiles fs translationDataFolder [] xlfs with
  | ErrorEvent _ =>
      onEnd fs locExtFolder translationDataFolder packageJSON i None
  | Queued files translationPaths =>
      onEnd (dest fs translationDataFolder files) locExtFolder translationDataFolder
        packageJSON i (Some translationPaths)
  end.

(** *** [renameVscodeLangpacks] *)

(** The extensions of vscode that are included. *)
Definition VSCODEExtensions : list string := [
  "bat"; "builtin-notebook-renderers"; "configuration-editing"; "docker";
  "git-base"; "github"; "github-authentication"; "ipynb"; "javascript"; "json";
  "json-language-features"; "markdown"; "markdown-language-features";
  "markdown-math"; "media-preview"; "merge-conflict"; "microsoft-authentication";
  "powershell"; "python"; "r"; "search-result"; "simple-browser"; "sql";
  "theme-abyss"; "theme-defaults"; "theme-kimbie-dark"; "theme-monokai";
  "theme-monokai-dimmed"; "theme-quietlight"; "theme-red"; "vscode-theme-seti";
  "theme-solarized-dark"; "theme-solarized-light"; "theme-tomorrow-night-blue";
  "xml"; "yaml"
].

(** [array.indexOf(x)], [-1] when [x] is not there. *)
Fixpoint arrayIndexOf (x : string) (l : list string) (pos : Z) : Z :=
  match l with
  | [] => -1
  | y :: l' => if y === x then pos else arrayIndexOf x l' (pos + 1)
  end.

Definition shortName (extensionFileName : string) : string :=
  replace (replace extensionFileName "ms-vscode." "vscode.") "vscode." EmptyString.

Definition xlfPathOf (langId extensionFileName : string) : string :=
  let xlfFolder := NodePath.join ["."; "resources"; "xlf"] in
  NodePath.join [xlfFolder; langId;
                 replace (shortName extensionFileName) ".i18n.json" ".xlf"].

Definition translationFolderOf (langId : string) : string :=
  let locVSCODEFolder := NodePath.join ["."; "i18n"; "vscode-language-pack-" +:+ langId] in
  NodePath.join [locVSCODEFolder; "translations"].

Definition extensionFilePath (langId extensionFileName : string) : string :=
  NodePath.join [translationFolderOf langId; "extensions"; extensionFileName].

(** The test of the loop, without its negation: the two reasons to keep a
    file. *)
Definition kept (fs : FS) (langId extensionFileName : string) : bool :=
  existsSync fs (xlfPathOf langId extensionFileName)
  || negb (arrayIndexOf
             (replace (shortName extensionFileName) ".i18n.json" EmptyString)
             VSCODEExtensions 0 =? -1).

(** The body of the loop over the extension files. *)
Definition pruneStep (langId : string) (fs : FS) (extensionFileName : string) : FS :=
  if negb (kept fs langId extensionFileName)
  then rimraf fs (extensionFilePath langId extensionFileName)
  else fs.

(** The extension files of the vscode language pack that are not in ADS are
    deleted. [totalExtensions] is what [readdirSync] gave for the folder
    of the extensions, in the order it gave it. When that folder is missing
    [readdirSync] throws and the loop is not reached: the files are then as
    they were, which is also what the loop leaves when no file of the
    listing is there. *)
Definition pruneExtensionFiles (fs : FS) (langId : string)
    (totalExtensions : list string) : FS :=
  if existsSync fs (translationFolderOf langId) then
    fold_left (pruneStep langId) totalExtensions fs
  else fs.

End Langpacks.

End LocFunc.

(** ** createAsset.ts *)

Module CreateAsset.
Import JsString.

(** Strict equality of two strings. *)
Notation "a === b" := (String.eqb a b) (at level 70, no associativity).

Definition unrecognized (product os arch type : string) : string :=
  "Unrecognized: " +:+ product +:+ " " +:+ os +:+ " " +:+ arch +:+ " " +:+ type.

(** The mapping of build details to the product names of the database. *)
Definition getPlatform (product os arch type : string) : Result string string :=
  if os === "win32" then
    if product === "client" then
      let asset := if arch === "ia32" then "win32" else "win32-" +:+ arch in
      if type === "archive" then Ok (asset +:+ "-archive")
      else if type === "setup" then Ok asset
      else if type === "user-setup" then Ok (asset +:+ "-user")
      else Throw (unrecognized product os arch type)
    else if product === "server" then
      if arch === "arm64" then Throw (unrecognized product os arch type)
      else Ok (if arch === "ia32" then "server-win32"
               else "server-win32-" +:+ arch)
    else if product === "web" then
      if arch === "arm64" then Throw (unrecognized product os arch type)
      else Ok (if arch === "ia32" then "server-win32-web"
               else "server-win32-" +:+ arch +:+ "-web")
    else Throw (unrecognized product os arch type)
  else if os === "linux" then
    if type === "snap" then Ok ("linux-snap-" +:+ arch)
    else if type === "archive-unsigned" then
      if product === "client" then Ok ("linux-" +:+ arch)
      else if product === "server" then Ok ("server-linux-" +:+ arch)
      else if product === "web" then
        Ok (if arch === "standalone" then "web-standalone"
            else "server-linux-" +:+ arch +:+ "-web")
      else Throw (unrecognized product os arch type)
    else if type === "deb-package" then Ok ("linux-deb-" +:+ arch)
    else if type === "rpm-package" then Ok ("linux-rpm-" +:+ arch)
    else Throw (unrecognized product os arch type)
  else if os === "darwin" then
    if product === "client" then
      if arch === "x64" then Ok "darwin" else Ok ("darwin-" +:+ arch)
    else if product === "server" then Ok "server-darwin"
    else if product === "web" then
      if negb (arch === "x64") then
        Throw ("What should the platform be?: " +:+ product +:+ " " +:+ os
               +:+ " " +:+ arch +:+ " " +:+ type)
      else Ok "server-darwin-web"
    else Throw (unrecognized product os arch type)
  else Throw (unrecognized product os arch type).

(** The mapping of artifact types to the types of the database. *)
Definition getRealType (type : string) : string :=
  if type === "user-setup" then "setup"
  else if (type === "deb-package") || (type === "rpm-package") then "package"
  else type.

(** *** The decision table, row by row

    The rows of the table that [getPlatform] implements with nested
    switches; a field is a list of accepted values, or a list of refused
    ones. *)

Inductive Pat : Type :=
| OneOf (l : list string)
| NoneOf (l : list string).

Definition Any : Pat := NoneOf [].

Definition pat_matches (p : Pat) (s : string) : bool :=
  match p with
  | OneOf l => existsb (String.eqb s) l
  | NoneOf l => negb (existsb (String.eqb s) l)
  end.

Record Row : Type := mkRow {
  row_os : string;
  row_product : Pat;
  row_arch : Pat;
  row_type : Pat;
  row_platform : string -> string  (* from the arch *)
}.

Definition platformTable : list Row := [
  mkRow "win32" (OneOf ["client"]) (OneOf ["ia32"]) (OneOf ["archive"])
    (fun _ => "win32-archive");
  mkRow "win32" (OneOf ["client"]) (OneOf ["ia32"]) (OneOf ["setup"])
    (fun _ => "win32");
  mkRow "win32" (OneOf ["client"]) (OneOf ["ia32"]) (OneOf ["user-setup"])
    (fun _ => "win32-user");
  mkRow "win32" (OneOf ["client"]) (NoneOf ["ia32"]) (OneOf ["archive"])
    (fun arch => "win32-" +:+ arch +:+ "-archive");
  mkRow "win32" (OneOf ["client"]) (NoneOf ["ia32"]) (OneOf ["setup"])
    (fun arch => "win32-" +:+ arch);
  mkRow "win32" (OneOf ["client"]) (NoneOf ["ia32"]) (OneOf ["user-setup"])
    (fun arch => "win32-" +:+ arch +:+ "-user");
  mkRow "win32" (OneOf ["server"]) (OneOf ["ia32"]) Any
    (fun _ => "server-win32");
  mkRow "win32" (OneOf ["server"]) (NoneOf ["ia32"; "arm64"]) Any
    (fun arch => "server-win32-" +:+ arch);
  mkRow "win32" (OneOf ["web"]) (OneOf ["ia32"]) Any
    (fun _ => "server-win32-web");
  mkRow "win32" (OneOf ["web"]) (NoneOf ["ia32"; "arm64"]) Any
    (fun arch => "server-win32-" +:+ arch +:+ "-web");
  mkRow "linux" Any Any (OneOf ["snap"])
    (fun arch => "linux-snap-" +:+ arch);
  mkRow "linux" (OneOf ["client"]) Any (OneOf ["archive-unsigned"])
    (fun arch => "linux-" +:+ arch);
  mkRow "linux" (OneOf ["server"]) Any (OneOf ["archive-unsigned"])
    (fun arch => "server-linux-" +:+ arch);
  mkRow "linux" (OneOf ["web"]) (OneOf ["standalone"]) (OneOf ["archive-unsigned"])
    (fun _ => "web-standalone");
  mkRow "linux" (OneOf ["web"]) (NoneOf ["standalone"]) (OneOf ["archive-unsigned"])
    (fun arch => "server-linux-" +:+ arch +:+ "-web");
  mkRow "linux" Any Any (OneOf ["deb-package"])
    (fun arch => "linux-deb-" +:+ arch);
  mkRow "linux" Any Any (OneOf ["rpm-package"])
    (fun arch => "linux-rpm-" +:+ arch);
  mkRow "darwin" (OneOf ["client"]) (OneOf ["x64"]) Any
    (fun _ => "darwin");
  mkRow "darwin" (OneOf ["client"]) (NoneOf ["x64"]) Any
    (fun arch => "darwin-" +:+ arch);
  mkRow "darwin" (OneOf ["server"]) Any Any
    (fun _ => "server-darwin");
  mkRow "darwin" (OneOf ["web"]) (OneOf ["x64"]) Any
    (fun _ => "server-darwin-web")
].

Definition row_matches (product os arch type : string) (r : Row) : bool :=
  (os === row_os r) && pat_matches (row_product r) product
  && pat_matches (row_arch r) arch && pat_matches (row_type r) type.

Definition tableLookup (product os arch type : string) : option string :=
  match List.find (row_matches product os arch type) platformTable with
  | Some r => Some (row_platform r arch)
  | None => None
  end.

(** *** The publishing script *)

Record Asset : Type := mkAsset {
  platform : string;
  type : string;
  url : string;
  mooncakeUrl : option string;
  hash : string;
  sha256hash : string;
  size : Z;
  supportsFastUpdate : option bool
}.

(** What the script can throw, or a promise reject with. *)
Inductive Err : Type :=
| ThrownString (s : string)   (* throw `...` *)
| ErrorObject (msg : string)  (* throw new Error(msg) *)
| HostError (what : string).  (* a failure of fs, of a store or of the database *)

Inductive Store : Type := Primary | Mooncake.

Inductive LogArg : Type :=
| LStr (s : string)
| LNum (z : Z)
| LAsset (a : Asset)          (* JSON.stringify(asset, null, '  ') *)
| LErr (e : Err).

(** The calls to the outside world, in the order they are made. The
    existence check is recorded with the answer it got. *)
Inductive Event : Type :=
| ConsoleLog (args : list LogArg)
| ConsoleError (args : list LogArg)
| BlobExists (container blobName : string) (answer : Result Err (option bool))
| UploadFile (s : Store) (container blobName filePath fileName : string)
| ExecuteStoredProcedure (container procedure commit : string) (a : Asset)
| Exit (code : Z).

(** The outside world, as the script sees it. *)
Record Host : Type := mkHost {
  env : gmap string string;                      (* process.env *)
  stat_size : string -> Result Err Z;            (* fs.stat(filePath).size *)
  hashes : string -> Result Err (string * string);  (* sha1 and sha256 of the file *)
  blob_exists : string -> string -> Result Err (option bool);
                                                 (* primary store: container, blob *)
  upload_outcome : Store -> nat -> Result Err unit;  (* by attempt *)
  procedure_outcome : nat -> Result Err unit;    (* by attempt *)
  url_path : string -> option string;            (* url.parse(u).path *)
  retry_limit : nat
}.

(** A computation that may throw and that records its calls. *)
Definition Script (A : Type) : Type := Result Err A * list Event.

Definition ret {A} (a : A) : Script A := (Ok a, []).

Definition bind {A B} (m : Script A) (f : A -> Script B) : Script B :=
  match m with
  | (Ok a, t) => let (r, t') := f a in (r, t ++ t')
  | (Throw e, t) => (Throw e, t)
  end.

Definition emit (e : Event) : Script unit := (Ok tt, [e]).

Definition lift {A} (r : Result Err A) : Script A := (r, []).

Notation "x <- m ;; k" := (bind m (fun x => k))
  (at level 100, m at next level, right associativity).
Notation "m ;;; k" := (bind m (fun _ => k))
  (at level 100, right associativity).

(** Modelled from the spec: [retry] of [./retry], which is not among the
    sources. It runs the operation again when it fails; the number of further
    attempts is a parameter, and the last failure is the one reported. *)
Fixpoint retry_from {A} (further attempt : nat) (op : nat -> Script A) : Script A :=
  match further with
  | O => op attempt
  | S further' =>
      match op attempt with
      | (Ok a, t) => (Ok a, t)
      | (Throw _, t) =>
          let (r, t') := retry_from further' (S attempt) op in (r, t ++ t')
      end
  end.

Definition retry {A} (h : Host) (op : nat -> Script A) : Script A :=
  retry_from (retry_limit h) O op.

Definition getEnv (h : Host) (name : string) : Result Err string :=
  match env h !! name with
  | None => Throw (ErrorObject ("Missing env: " +:+ name))
  | Some result => Ok result
  end.

(** [`${process.env[name]}`] *)
Definition envText (h : Host) (name : string) : string :=
  match env h !! name with
  | None => "undefined"
  | Some v => v
  end.

Definition doesAssetExist (h : Host) (container blobName : string)
  : Script (option bool) :=
  let answer := blob_exists h container blobName in
  emit (BlobExists container blobName answer) ;;; lift answer.

Definition uploadBlob (h : Host) (s : Store) (attempt : nat)
    (container blobName filePath fileName : string) : Script unit :=
  emit (UploadFile s container blobName filePath fileName) ;;;
  lift (upload_outcome h s attempt).

(** [Promise.all] of the two uploads: both are started, and the whole
    fails when one of them fails. *)
Definition uploadBoth (h : Host) (container blobName filePath fileName : string)
    (attempt : nat) : Script unit :=
  let '(r1, t1) := uploadBlob h Primary attempt container blobName filePath fileName in
  let '(r2, t2) := uploadBlob h Mooncake attempt container blobName filePath fileName in
  match r1, r2 with
  | Ok _, Ok _ => (Ok tt, t1 ++ t2)
  | Throw e, _ => (Throw e, t1 ++ t2)
  | Ok _, Throw e => (Throw e, t1 ++ t2)
  end.

Definition truthy (b : option bool) : bool :=
  match b with Some true => true | _ => false end.

(** The record of the artifact, with the flag of the fast updates. *)
Definition buildAsset (platform type assetUrl sha1hash mooncakeUrl sha256hash : string)
    (size : Z) : Asset :=
  let asset := mkAsset platform type assetUrl (Some mooncakeUrl) sha1hash sha256hash
                 size None in
  if includes platform "win32" then
    mkAsset (CreateAsset.platform asset) (CreateAsset.type asset) (url asset)
      (CreateAsset.mooncakeUrl asset) (hash asset) (CreateAsset.sha256hash asset)
      (CreateAsset.size asset) (Some true)
  else asset.

(** The rest of [main], after the early return: what is done when the blob
    is not there yet. The clients of the two stores and of the database are
    built from the environment without a call to the outside. *)
Definition publish (h : Host) (platform type quality commit fileName filePath
                               sha1hash sha256hash : string) (size : Z) : Script unit :=
  let blobName := commit +:+ "/" +:+ fileName in
  emit (ConsoleLog [LStr "Uploading blobs to Azure storage and Mooncake Azure storage..."]) ;;;
  retry h (uploadBoth h quality blobName filePath fileName) ;;;
  emit (ConsoleLog [LStr "Blobs successfully uploaded."]) ;;;
  let assetUrl := envText h "AZURE_CDN_URL" +:+ "/" +:+ quality +:+ "/" +:+ blobName in
  let blobPath := match url_path h assetUrl with Some p => p | None => "null" end in
  let mooncakeUrl := envText h "MOONCAKE_CDN_URL" +:+ blobPath in
  let asset := buildAsset platform type assetUrl sha1hash mooncakeUrl sha256hash size in
  emit (ConsoleLog [LStr "Asset:"; LAsset asset]) ;;;
  retry h (fun attempt =>
             emit (ExecuteStoredProcedure quality "createAsset" commit asset) ;;;
             lift (procedure_outcome h attempt)) ;;;
  emit (ConsoleLog [LStr "  Done ✔️"]).

Definition main (h : Host) (product os arch unprocessedType fileName filePath : string)
  : Script unit :=
  platform <- lift (match getPlatform product os arch unprocessedType with
                    | Ok p => Ok p
                    | Throw s => Throw (ThrownString s)
                    end) ;;
  let type := getRealType unprocessedType in
  quality <- lift (getEnv h "VSCODE_QUALITY") ;;
  commit <- lift (getEnv h "BUILD_SOURCEVERSION") ;;
  emit (ConsoleLog [LStr "Creating asset..."]) ;;;
  size <- lift (stat_size h filePath) ;;
  emit (ConsoleLog [LStr "Size:"; LNum size]) ;;;
  hs <- lift (hashes h filePath) ;;
  let '(sha1hash, sha256hash) := hs in
  emit (ConsoleLog [LStr "SHA1:"; LStr sha1hash]) ;;;
  emit (ConsoleLog [LStr "SHA256:"; LStr sha256hash]) ;;;
  let blobName := commit +:+ "/" +:+ fileName in
  blobExists <- doesAssetExist h quality blobName ;;
  if truthy blobExists then
    emit (ConsoleLog [LStr ("Blob " +:+ quality +:+ ", " +:+ blobName
                            +:+ " already exists, not publishing again.")])
  else
    publish h platform type quality commit fileName filePath sha1hash sha256hash size.

(** The whole script: the check of the arguments, then [main] and the two
    handlers of its promise. The result is the trace, which ends with the
    exit. *)
Definition createAsset (h : Host) (argv : list string) : list Event :=
  match argv with
  | [_; _; product; os; arch; unprocessedType; fileName; filePath] =>
      match main h product os arch unprocessedType fileName filePath with
      | (Ok _, t) => t ++ [ConsoleLog [LStr "Asset successfully created"]; Exit 0]
      | (Throw err, t) => t ++ [ConsoleError [LErr err]; Exit 1]
      end
  | _ =>
      [ConsoleError [LStr "Usage: node createAsset.js PRODUCT OS ARCH TYPE NAME FILE"];
       Exit (-1)]
  end.

(** The status the process exits with: the argument of the first [Exit]. *)
Fixpoint exitCode (t : list Event) : option Z :=
  match t with
  | [] => None
  | Exit c :: _ => Some c
  | _ :: t' => exitCode t'
  end.

Definition isUpload (e : Event) : bool :=
  match e with UploadFile _ _ _ _ _ => true | _ => false end.

Definition isProcedureCall (e : Event) : bool :=
  match e with ExecuteStoredProcedure _ _ _ _ => true | _ => false end.

Definition uploads (t : list Event) : nat := List.length (List.filter isUpload t).

Definition procedureCalls (t : list Event) : nat :=
  List.length (List.filter isProcedureCall t).

(** Predicates on the events of a trace. *)
Definition notExit (e : Event) : bool :=
  match e with Exit _ => false | _ => true end.

Definition notCheck (e : Event) : bool :=
  match e with BlobExists _ _ _ => false | _ => true end.

Definition isConsole (e : Event) : bool :=
  match e with ConsoleLog _ | ConsoleError _ => true | _ => false end.

Definition traceAll (P : Event -> bool) {A} (m : Script A) : Prop :=
  forallb P (snd m) = true.

(** The runs of [main], by the place where it stops. *)
Inductive MainRun (h : Host) (fileName : string) : Script unit -> Prop :=
| StoppedEarly (e : Err) (t : list Event) :
    forallb isConsole t = true ->
    MainRun h fileName (Throw e, t)
| CheckFailed (quality commit : string) (e : Err) (pre : list Event) :
    forallb isConsole pre = true ->
    env h !! "VSCODE_QUALITY" = Some quality ->
    env h !! "BUILD_SOURCEVERSION" = Some commit ->
    blob_exists h quality (commit +:+ "/" +:+ fileName) = Throw e ->
    MainRun h fileName
      (Throw e, pre ++ [BlobExists quality (commit +:+ "/" +:+ fileName) (Throw e)])
| AlreadyPublished (quality commit : string) (answer : option bool) (pre : list Event) :
    forallb isConsole pre = true ->
    env h !! "VSCODE_QUALITY" = Some quality ->
    env h !! "BUILD_SOURCEVERSION" = Some commit ->
    blob_exists h quality (commit +:+ "/" +:+ fileName) = Ok answer ->
    truthy answer = true ->
    MainRun h fileName
      (Ok tt,
       pre ++ [BlobExists quality (commit +:+ "/" +:+ fileName) (Ok answer);
               ConsoleLog [LStr ("Blob " +:+ quality +:+ ", "
                                 +:+ (commit +:+ "/" +:+ fileName)
                                 +:+ " already exists, not publishing again.")]])
| Published (quality commit : string) (answer : option bool) (pre post : list Event)
    (r : Result Err unit) :
    forallb isConsole pre = true ->
    env h !! "VSCODE_QUALITY" = Some quality ->
    env h !! "BUILD_SOURCEVERSION" = Some commit ->
    blob_exists h quality (commit +:+ "/" +:+ fileName) = Ok answer ->
    truthy answer = false ->
    forallb (fun e => notCheck e && notExit e) post = true ->
    MainRun h fileName
      (r, pre ++ BlobExists quality (commit +:+ "/" +:+ fileName) (Ok answer) :: post).

Definition isCheck (e : Event) : bool :=
  match e with BlobExists _ _ _ => true | _ => false end.

Definition checks (t : list Event) : nat := List.length (List.filter isCheck t).

Definition isUploadTo (s : Store) (e : Event) : bool :=
  match e, s with
  | UploadFile Primary _ _ _ _, Primary => true
  | UploadFile Mooncake _ _ _ _, Mooncake => true
  | _, _ => false
  end.

Definition uploadsTo (s : Store) (t : list Event) : nat :=
  List.length (List.filter (isUploadTo s) t).

(** Every event of the trace of a computation has the property. *)
Definition traceHas (P : Event -> Prop) {A} (m : Script A) : Prop := Forall P (snd m).

(** What an outside call of a run is addressed to: the container of the
    quality, the blob of the commit and of the file name, and the record. *)
Definition addressed (quality blobName filePath fileName commit : string)
    (record : Asset -> Prop) (e : Event) : Prop :=
  match e with
  | BlobExists c b _ => c = quality /\ b = blobName
  | UploadFile _ c b fp fn => c = quality /\ b = blobName /\ fp = filePath /\ fn = fileName
  | ExecuteStoredProcedure c procedure cm a =>
      c = quality /\ procedure = "createAsset" /\ cm = commit /\ record a
  | _ => True
  end.

End CreateAsset.

(** ** Sample inputs *)

Module Samples.
Import CreateAsset.

Definition sampleEnv : gmap string string :=
  <["VSCODE_QUALITY" := "insider"]>
    (<["BUILD_SOURCEVERSION" := "0a1b2c"]>
       (<["AZURE_CDN_URL" := "https://cdn.example"]> ∅)).

(** A host whose primary store answers [published] to the existence check,
    and where nothing fails. *)
Definition sampleHost (published : bool) : Host :=
  mkHost sampleEnv
    (fun _ => Ok 1024)
    (fun _ => Ok ("da39a3", "e3b0c4"))
    (fun _ _ => Ok (Some published))
    (fun _ _ => Ok tt)
    (fun _ => Ok tt)
    (fun _ => Some "/insider/0a1b2c/ads.zip")
    2.

Definition sampleArgv : list string :=
  ["node"; "createAsset.js"; "client"; "win32"; "x64"; "archive"; "ads.zip"; "/tmp/ads.zip"].

(** The same call with an operating system that is not in the table. *)
Definition unmappedArgv : list string :=
  ["node"; "createAsset.js"; "client"; "beos"; "x64"; "archive"; "ads.zip"; "/tmp/ads.zip"].

Import Json LocFunc.

(** A main catalog on disk, with a core string that is gone from the
    product ([sql/old]), one that is still there and one of vscode. *)
Definition sampleCatalog : json :=
  JObject [
    (EmptyString, header);
    ("version", JString "1.0.0");
    ("contents",
      JObject [
        ("vs/editor", JObject [("find", JString "Suchen")]);
        ("sql/old", JObject [("gone", JString "Weg")]);
        ("sql/kept", JObject [("open", JString "Offen")])
      ])
  ].

Definition sampleFs : FS :=
  <["i18n/ads-language-pack-de/translations\main.i18n.json" := JsonFile sampleCatalog]> ∅.

Definition sampleMessages : I18nPack :=
  mkI18nPack "1.0.0" [
    ("sql/kept", JObject [("open", JString "Öffnen")]);
    ("sql/new", JObject [("save", JString "Speichern")])
  ].

(** Parsed files of the core and of an extension, and two with a path
    that is shorter than usual. *)
Definition sqlFile : ParsedXLF :=
  mkParsedXLF (JObject [("open", JString "Öffnen")]) "src/sql/base/common" "de".

Definition gitFile : ParsedXLF :=
  mkParsedXLF (JObject [("clone", JString "Klonen")]) "extensions/git/package" "de".

(** A parsed file of an extension whose name every object inherits. *)
Definition constructorFile : ParsedXLF :=
  mkParsedXLF (JObject [("title", JString "Titel")]) "extensions/constructor/package" "de".

Definition shortGitFile : ParsedXLF :=
  mkParsedXLF (JObject [("clone", JString "Klonen")]) "extensions/git" "de".

Definition shortSqlFile : ParsedXLF :=
  mkParsedXLF (JObject [("open", JString "Öffnen")]) "sql" "de".

(** The translations of a descriptor: the main catalog and the catalog of
    an extension, with a property that the reconciliation does not know. *)
Definition sampleTranslations : list Translation := [
  mkTranslation "vscode" "./translations/main.i18n.json" [];
  mkTranslation "old.git" "./translations/extensions/git.i18n.json" [("note", "kept")]
].

(** A batch of XLF files in which one parse is rejected. *)
Definition failingBatch : list XlfFile := [
  mkXlfFile "de/sql.de.xlf" (Ok [sqlFile]);
  mkXlfFile "de/git.de.xlf"
    (Throw (ParseFailure "XLF parsing error: Failed to parse XLIFF string."));
  mkXlfFile "de/notebook.de.xlf" (Ok [gitFile])
].

Definition samplePackageJSON : PackageJSON :=
  mkPackageJSON "ads-language-pack-de" "German Language Pack for Azure Data Studio"
    "Microsoft" "SEE MIT License IN LICENSE.txt"
    "cd ../vscode && npm run update-localization-extension de" "*" "^1.47.0"
    "https://github.com/Microsoft/azuredatastudio"
    [mkLocalization "de" "German" "Deutsch" None sampleTranslations].

(** A batch whose parses all resolve, with an extension whose name every
    object inherits. *)
Definition constructorBatch : list XlfFile := [
  mkXlfFile "de/sql.de.xlf" (Ok [sqlFile]);
  mkXlfFile "de/constructor.de.xlf" (Ok [constructorFile])
].

(** A batch of XLF files whose parses all resolve. *)
Definition successBatch : list XlfFile := [
  mkXlfFile "de/sql.de.xlf" (Ok [sqlFile]);
  mkXlfFile "de/git.de.xlf" (Ok [gitFile])
].

(** A vscode language pack with three extension files: one whose XLF
    source exists, one of an included extension, and one with neither. *)
Definition siblingFs : FS :=
  <["i18n/vscode-language-pack-de/translations/extensions/vscode.git.i18n.json"
    := JsonFile (JObject [])]>
    (<["i18n/vscode-language-pack-de/translations/extensions/vscode.bat.i18n.json"
       := JsonFile (JObject [])]>
       (<["i18n/vscode-language-pack-de/translations/extensions/ms-vscode.js-debug.i18n.json"
          := JsonFile (JObject [])]>
          (<["resources/xlf/de/git.xlf" := OtherFile "<xliff/>"]> ∅))).

(** A vscode language pack with the file of an extension whose XLF source
    is there under the name that the import reads, and the file of an
    extension that is included. *)
Definition sourceFs : FS :=
  <["i18n/vscode-language-pack-de/translations/extensions/vscode.git.i18n.json"
    := JsonFile (JObject [])]>
    (<["i18n/vscode-language-pack-de/translations/extensions/vscode.bat.i18n.json"
       := JsonFile (JObject [])]>
       (<["resources/xlf/de/git.de.xlf" := OtherFile "<xliff/>"]> ∅)).

Definition siblingExtensions : list string :=
  ["vscode.git.i18n.json"; "vscode.bat.i18n.json"; "ms-vscode.js-debug.i18n.json"].

(** A host whose existence check fails. *)
Definition unreachableHost : Host :=
  mkHost sampleEnv
    (fun _ => Ok 1024)
    (fun _ => Ok ("da39a3", "e3b0c4"))
    (fun _ _ => Throw (HostError "ECONNREFUSED"))
    (fun _ _ => Ok tt)
    (fun _ => Ok tt)
    (fun _ => Some "/insider/0a1b2c/ads.zip")
    2.

(** A host without the variables of the build. *)
Definition bareHost : Host :=
  mkHost ∅
    (fun _ => Ok 1024)
    (fun _ => Ok ("da39a3", "e3b0c4"))
    (fun _ _ => Ok (Some false))
    (fun _ _ => Ok tt)
    (fun _ => Ok tt)
    (fun _ => None)
    2.

End Samples.

(** * Properties *)

(** ** The platform key *)

Section PlatformKey.
Import JsString CreateAsset.
#[local] Arguments String.append !s1 s2 : simpl nomatch.
#[local] Arguments Ascii.eqb !a !b : simpl nomatch.

Lemma eqb_cases (a b : string) : (a === b) = true /\ a = b \/ (a === b) = false /\ a <> b.
Proof. destruct (String.eqb_spec a b); auto. Qed.

Ltac split_eqb :=
  repeat match goal with
         | |- context [String.eqb ?a ?b] =>
             lazymatch a with
             | String _ _ => fail
             | EmptyString => fail
             | _ => destruct (eqb_cases a b) as [[-> ->] | [-> ?]]
             end; cbn
         end.

(** The nested switches and the table agree on every input. *)
Lemma getPlatform_tableLookup (product os arch type : string) :
  getPlatform product os arch type =
  match tableLookup product os arch type with
  | Some p => Ok p
  | None =>
      if (os === "darwin") && (product === "web")
      then Throw ("What should the platform be?: " +:+ product +:+ " " +:+ os
                  +:+ " " +:+ arch +:+ " " +:+ type)
      else Throw (unrecognized product os arch type)
  end.
Proof.
  unfold getPlatform, tableLookup, platformTable, row_matches, pat_matches, Any.
  cbn.
  split_eqb; try reflexivity; try congruence.
Qed.

(** C1. The four platform keys of the specification are the ones
    [getPlatform] gives, and outside the decision table [getPlatform] throws:
    it returns a platform string exactly for the rows of the table. *)
Theorem getPlatform_table :
  getPlatform "client" "win32" "ia32" "setup" = Ok "win32" /\
  getPlatform "client" "win32" "x64" "archive" = Ok "win32-x64-archive" /\
  (exists message, getPlatform "server" "win32" "arm64" "setup" = Throw message) /\
  getPlatform "client" "darwin" "x64" "setup" = Ok "darwin" /\
  (forall product os arch type,
      tableLookup product os arch type = None ->
      exists message, getPlatform product os arch type = Throw message) /\
  (forall product os arch type p,
      tableLookup product os arch type = Some p ->
      getPlatform product os arch type = Ok p).
Proof.
  repeat split; try reflexivity.
  - eexists. reflexivity.
  - intros product os arch type H.
    rewrite getPlatform_tableLookup, H.
    destruct ((os === "darwin") && (product === "web")); eexists; reflexivity.
  - intros product os arch type p H.
    rewrite getPlatform_tableLookup, H. reflexivity.
Qed.

Lemma getPlatform_table_witness :
  tableLookup "web" "darwin" "arm64" "archive" = None /\
  exists message, getPlatform "web" "darwin" "arm64" "archive" = Throw message.
Proof.
  split; [reflexivity |].
  apply (proj1 (proj2 (proj2 (proj2 (proj2 getPlatform_table))))).
  reflexivity.
Defined.

(** *** The pattern of the fast updates *)

Lemma startsWith_app_dash (a s : string) :
  startsWith (a +:+ String "-" s) "win32" = startsWith a "win32".
Proof.
  destruct a as [|c1 [|c2 [|c3 [|c4 [|c5 a]]]]]; cbn;
    rewrite ?andb_false_r; reflexivity.
Qed.

Lemma includes_app_dash (a s : string) :
  includes (a +:+ String "-" s) "win32"
  = includes a "win32" || includes (String "-" s) "win32".
Proof.
  induction a as [|c a IH].
  - reflexivity.
  - change (includes (String c a +:+ String "-" s) "win32")
      with (startsWith (String c a +:+ String "-" s) "win32"
            || includes (a +:+ String "-" s) "win32").
    change (includes (String c a) "win32")
      with (startsWith (String c a) "win32" || includes a "win32").
    rewrite startsWith_app_dash, IH, orb_assoc. reflexivity.
Qed.

Lemma includes_web (a : string) :
  includes (a +:+ "-web") "win32" = includes a "win32".
Proof. rewrite includes_app_dash. cbn. apply orb_false_r. Qed.

(** When the architecture does not itself contain [win32], the platform key
    matches the pattern exactly for the Windows builds. *)
Lemma getPlatform_win32 (product os arch type platform : string) :
  includes arch "win32" = false ->
  getPlatform product os arch type = Ok platform ->
  (includes platform "win32" = true <-> os = "win32").
Proof.
  intros Harch. unfold getPlatform.
  split_eqb; intros Hret; try discriminate Hret; injection Hret as <-;
    cbn; rewrite ?includes_web; cbn;
    rewrite ?Harch; split; congruence.
Qed.

(** Every platform key of a Windows build matches the pattern, whatever
    the architecture is. *)
Lemma getPlatform_win32_flagged (product arch type platform : string) :
  getPlatform product "win32" arch type = Ok platform ->
  includes platform "win32" = true.
Proof.
  unfold getPlatform. cbn.
  split_eqb; intros Hret; try discriminate Hret; injection Hret as <-; reflexivity.
Qed.

(** C10, amended. On every input on which [getPlatform] succeeds: when the
    operating system is [win32], the asset record has the flag of the fast
    updates, and it is true; and when the architecture does not contain
    [win32], the record has the flag only when the operating system is
    [win32]. *)
Theorem supportsFastUpdate_iff_win32
    (product os arch type platform : string)
    (realType assetUrl sha1hash mooncakeUrl sha256hash : string) (size : Z) :
  getPlatform product os arch type = Ok platform ->
  (os = "win32" ->
   supportsFastUpdate
     (buildAsset platform realType assetUrl sha1hash mooncakeUrl sha256hash size)
   = Some true
   /\ includes platform "win32" = true)
  /\ (includes arch "win32" = false ->
      (supportsFastUpdate
         (buildAsset platform realType assetUrl sha1hash mooncakeUrl sha256hash size)
       = Some true <-> os = "win32")
      /\ (includes platform "win32" = true <-> os = "win32")).
Proof.
  intros Hp. split.
  - intros ->. pose proof (getPlatform_win32_flagged _ _ _ _ Hp) as Hflag.
    unfold buildAsset. rewrite Hflag. split; reflexivity.
  - intros Harch.
    pose proof (getPlatform_win32 _ _ _ _ _ Harch Hp) as Hiff.
    split; [| exact Hiff].
    unfold buildAsset.
    destruct (includes platform "win32"); cbn; rewrite <- Hiff; split; congruence.
Qed.

Lemma supportsFastUpdate_iff_win32_witness :
  (supportsFastUpdate (buildAsset "win32-win32" "setup" "u" "h1" "m" "h2" 7) = Some true
   /\ includes "win32-win32" "win32" = true)
  /\ (supportsFastUpdate (buildAsset "server-win32-x64-web" "archive" "u" "h1" "m" "h2" 7)
      = Some true <-> "win32" = "win32")
  /\ (includes "server-win32-x64-web" "win32" = true <-> "win32" = "win32")
  /\ (supportsFastUpdate (buildAsset "linux-x64" "archive-unsigned" "u" "h1" "m" "h2" 7)
      = Some true <-> "linux" = "win32").
Proof.
  split; [| split; [| split]].
  - apply (proj1 (supportsFastUpdate_iff_win32 "client" "win32" "win32" "setup"
                    "win32-win32" "setup" "u" "h1" "m" "h2" 7 eq_refl)).
    reflexivity.
  - apply (proj2 (supportsFastUpdate_iff_win32 "web" "win32" "x64" "archive"
                    "server-win32-x64-web" "archive" "u" "h1" "m" "h2" 7 eq_refl)).
    reflexivity.
  - apply (proj2 (supportsFastUpdate_iff_win32 "web" "win32" "x64" "archive"
                    "server-win32-x64-web" "archive" "u" "h1" "m" "h2" 7 eq_refl)).
    reflexivity.
  - apply (proj2 (supportsFastUpdate_iff_win32 "client" "linux" "x64" "archive-unsigned"
                    "linux-x64" "archive-unsigned" "u" "h1" "m" "h2" 7 eq_refl)).
    reflexivity.
Defined.

(** C10 as it is stated fails: a Linux snap whose architecture argument
    contains [win32] gets a key that matches the pattern, and the flag. *)
Lemma supportsFastUpdate_not_only_win32 :
  getPlatform "client" "linux" "win32" "snap" = Ok "linux-snap-win32"
  /\ supportsFastUpdate
       (buildAsset "linux-snap-win32" "snap" "u" "h1" "m" "h2" 7) = Some true
  /\ ~ (forall product os arch type platform,
          getPlatform product os arch type = Ok platform ->
          (includes platform "win32" = true <-> os = "win32")).
Proof.
  split; [reflexivity | split; [reflexivity |]].
  intros H.
  specialize (H "client" "linux" "win32" "snap" "linux-snap-win32" eq_refl).
  destruct H as [H _]. specialize (H eq_refl). discriminate H.
Qed.

End PlatformKey.

(** ** The publishing script *)

Section Publisher.
Import JsString CreateAsset.

Lemma traceAll_bind (P : Event -> bool) {A B} (m : Script A) (f : A -> Script B) :
  traceAll P m -> (forall a, traceAll P (f a)) -> traceAll P (bind m f).
Proof.
  unfold traceAll, bind. intros Hm Hf.
  destruct m as [[a | e] t]; cbn in *; [| exact Hm].
  specialize (Hf a). destruct (f a) as [r t']; cbn in *.
  rewrite forallb_app, Hm, Hf. reflexivity.
Qed.

Lemma traceAll_lift (P : Event -> bool) {A} (r : Result Err A) : traceAll P (lift r).
Proof. reflexivity. Qed.

Lemma traceAll_retry_from (P : Event -> bool) {A} (op : nat -> Script A) :
  (forall attempt, traceAll P (op attempt)) ->
  forall further attempt, traceAll P (retry_from further attempt op).
Proof.
  intros Hop further. induction further as [| further IH]; intros attempt; cbn.
  - apply Hop.
  - pose proof (Hop attempt) as H0. unfold traceAll in *.
    destruct (op attempt) as [[a | e] t]; cbn in *; [exact H0 |].
    specialize (IH (S attempt)).
    destruct (retry_from further (S attempt) op) as [r t']; cbn in *.
    rewrite forallb_app, H0, IH. reflexivity.
Qed.

Lemma traceAll_uploadBoth (P : Event -> bool) h container blobName filePath fileName attempt :
  (forall s, P (UploadFile s container blobName filePath fileName) = true) ->
  traceAll P (uploadBoth h container blobName filePath fileName attempt).
Proof.
  intros HP. unfold traceAll, uploadBoth, uploadBlob, emit, lift, bind; cbn.
  destruct (upload_outcome h Primary attempt), (upload_outcome h Mooncake attempt);
    cbn; rewrite !HP; reflexivity.
Qed.

Lemma traceAll_publish (P : Event -> bool) h platform type quality commit fileName
    filePath sha1hash sha256hash size :
  (forall e, notCheck e && notExit e = true -> P e = true) ->
  traceAll P (publish h platform type quality commit fileName filePath
                sha1hash sha256hash size).
Proof.
  intros HP. unfold publish, retry.
  repeat first
    [ apply traceAll_bind; [| intros ?]
    | apply traceAll_retry_from; intros ?
    | apply traceAll_uploadBoth; intros ?; apply HP; reflexivity
    | apply traceAll_lift
    | unfold traceAll, emit; cbn; rewrite HP by reflexivity; reflexivity ].
Qed.

Lemma main_run h product os arch unprocessedType fileName filePath :
  MainRun h fileName (main h product os arch unprocessedType fileName filePath).
Proof.
  set (pre := fun (size : Z) (sha1hash sha256hash : string) =>
         [ConsoleLog [LStr "Creating asset..."]; ConsoleLog [LStr "Size:"; LNum size];
          ConsoleLog [LStr "SHA1:"; LStr sha1hash];
          ConsoleLog [LStr "SHA256:"; LStr sha256hash]]).
  unfold main, getEnv, doesAssetExist.
  destruct (getPlatform product os arch unprocessedType) as [platform | s];
    [| apply StoppedEarly; reflexivity].
  destruct (env h !! "VSCODE_QUALITY") as [quality |] eqn:Hq;
    [| apply StoppedEarly; reflexivity].
  destruct (env h !! "BUILD_SOURCEVERSION") as [commit |] eqn:Hc;
    [| apply StoppedEarly; reflexivity].
  destruct (stat_size h filePath) as [size | e] eqn:Hs;
    [| apply StoppedEarly; reflexivity].
  destruct (hashes h filePath) as [[sha1hash sha256hash] | e] eqn:Hh;
    [| apply StoppedEarly; reflexivity].
  cbn -[publish].
  destruct (blob_exists h quality (commit +:+ "/" +:+ fileName)) as [answer | e] eqn:Hb.
  - pose proof (traceAll_publish (fun e => notCheck e && notExit e) h platform
                  (getRealType unprocessedType) quality commit fileName filePath
                  sha1hash sha256hash size (fun e He => He)) as Hpost.
    unfold traceAll in Hpost.
    destruct answer as [[|] |]; cbn -[publish].
    + apply (AlreadyPublished h fileName quality commit (Some true)
               (pre size sha1hash sha256hash)); auto.
    + destruct (publish h platform (getRealType unprocessedType) quality commit fileName
                  filePath sha1hash sha256hash size) as [r post]. cbn in *.
      apply (Published h fileName quality commit (Some false)
               (pre size sha1hash sha256hash) post r); auto.
    + destruct (publish h platform (getRealType unprocessedType) quality commit fileName
                  filePath sha1hash sha256hash size) as [r post]. cbn in *.
      apply (Published h fileName quality commit None
               (pre size sha1hash sha256hash) post r); auto.
  - cbn.
    apply (CheckFailed h fileName quality commit e (pre size sha1hash sha256hash)); auto.
Qed.

Lemma uploads_app (t u : list Event) : uploads (t ++ u) = (uploads t + uploads u)%nat.
Proof. unfold uploads. rewrite List.filter_app, length_app. reflexivity. Qed.

Lemma procedureCalls_app (t u : list Event) :
  procedureCalls (t ++ u) = (procedureCalls t + procedureCalls u)%nat.
Proof. unfold procedureCalls. rewrite List.filter_app, length_app. reflexivity. Qed.

Lemma console_only (t : list Event) :
  forallb isConsole t = true ->
  uploads t = 0%nat /\ procedureCalls t = 0%nat /\ forallb notExit t = true
  /\ forallb notCheck t = true.
Proof.
  induction t as [| e t IH]; cbn; [auto |].
  intros H. apply andb_prop in H as [He Ht]. specialize (IH Ht).
  destruct e; try discriminate He; exact IH.
Qed.

Lemma exitCode_app (t u : list Event) :
  forallb notExit t = true -> exitCode (t ++ u) = exitCode u.
Proof.
  induction t as [| e t IH]; cbn; [reflexivity |].
  intros H. apply andb_prop in H as [He Ht].
  destruct e; try discriminate He; auto.
Qed.

Lemma not_in_trace (P : Event -> bool) (e : Event) (t : list Event) :
  forallb P t = true -> P e = false -> ~ In e t.
Proof.
  intros Hall He Hin. rewrite forallb_forall in Hall.
  rewrite (Hall e Hin) in He. discriminate He.
Qed.

Lemma no_check_in (t : list Event) container blobName answer :
  forallb notCheck t = true -> ~ In (BlobExists container blobName answer) t.
Proof. intros Ht. apply (not_in_trace notCheck); [exact Ht | reflexivity]. Qed.

(** The trace of the whole script, from the run of [main]. *)
Lemma createAsset_main h node script product os arch unprocessedType fileName filePath :
  createAsset h [node; script; product; os; arch; unprocessedType; fileName; filePath]
  = match main h product os arch unprocessedType fileName filePath with
    | (Ok _, t) => t ++ [ConsoleLog [LStr "Asset successfully created"]; Exit 0]
    | (Throw err, t) => t ++ [ConsoleError [LErr err]; Exit 1]
    end.
Proof. reflexivity. Qed.

Lemma createAsset_usage h argv :
  List.length argv <> 8%nat ->
  createAsset h argv
  = [ConsoleError [LStr "Usage: node createAsset.js PRODUCT OS ARCH TYPE NAME FILE"];
     Exit (-1)].
Proof.
  intros Hlen.
  do 9 (destruct argv as [| ? argv]; try reflexivity).
  all: cbn in Hlen; try lia.
Qed.

Lemma main_no_exit h product os arch unprocessedType fileName filePath :
  forallb notExit (snd (main h product os arch unprocessedType fileName filePath)) = true.
Proof.
  destruct (main_run h product os arch unprocessedType fileName filePath)
    as [e t Ht | q c e pre Hpre _ _ _ | q c a pre Hpre _ _ _ _
        | q c a pre post r Hpre _ _ _ _ Hpost]; cbn.
  - apply console_only in Ht. tauto.
  - apply console_only in Hpre as (_ & _ & Hpre & _).
    rewrite forallb_app, Hpre. reflexivity.
  - apply console_only in Hpre as (_ & _ & Hpre & _).
    rewrite forallb_app, Hpre. reflexivity.
  - apply console_only in Hpre as (_ & _ & Hpre & _).
    rewrite forallb_app, Hpre. cbn.
    rewrite forallb_forall in Hpost. apply forallb_forall. intros e He.
    specialize (Hpost e He). apply andb_prop in Hpost. tauto.
Qed.

Lemma truthy_true (answer : option bool) : truthy answer = true -> answer = Some true.
Proof. destruct answer as [[|] |]; cbn; congruence. Qed.

(** A check that answered [true] is the check of a run that returned early. *)
Lemma check_true_inv h argv container blobName :
  In (BlobExists container blobName (Ok (Some true))) (createAsset h argv) ->
  exists node script product os arch unprocessedType fileName filePath pre,
    argv = [node; script; product; os; arch; unprocessedType; fileName; filePath]
    /\ forallb isConsole pre = true
    /\ main h product os arch unprocessedType fileName filePath
       = (Ok tt,
          pre ++ [BlobExists container blobName (Ok (Some true));
                  ConsoleLog [LStr ("Blob " +:+ container +:+ ", " +:+ blobName
                                    +:+ " already exists, not publishing again.")]]).
Proof.
  intros Hin.
  destruct (Nat.eq_dec (List.length argv) 8%nat) as [Hlen | Hlen];
    [| rewrite (createAsset_usage h argv Hlen) in Hin; cbn in Hin;
       intuition discriminate].
  destruct argv as [| node [| script [| product [| os [| arch [| type [| fileName
                  [| filePath [| extra argv]]]]]]]]]; try discriminate Hlen.
  rewrite createAsset_main in Hin.
  exists node, script, product, os, arch, type, fileName, filePath.
  destruct (main_run h product os arch type fileName filePath)
    as [e t Ht | q c e pre Hpre _ _ _ | q c a pre Hpre _ _ _ Ha
        | q c a pre post r Hpre _ _ _ Ha Hpost].
  - exfalso. apply console_only in Ht as (_ & _ & _ & Ht).
    apply in_app_or in Hin as [Hin | Hin].
    + exact (no_check_in _ _ _ _ Ht Hin).
    + cbn in Hin. intuition discriminate.
  - exfalso. apply console_only in Hpre as (_ & _ & _ & Hpre).
    rewrite <- app_assoc in Hin. apply in_app_or in Hin as [Hin | Hin].
    + exact (no_check_in _ _ _ _ Hpre Hin).
    + cbn in Hin. intuition discriminate.
  - apply truthy_true in Ha as ->.
    pose proof Hpre as Hpre'. apply console_only in Hpre' as (_ & _ & _ & Hpre').
    rewrite <- app_assoc in Hin. apply in_app_or in Hin as [Hin | Hin].
    + exfalso. exact (no_check_in _ _ _ _ Hpre' Hin).
    + cbn in Hin. destruct Hin as [Hin | [Hin | [Hin | [Hin | []]]]];
        try discriminate Hin.
      injection Hin as <- <-. exists pre. auto.
  - exfalso. apply console_only in Hpre as (_ & _ & _ & Hpre).
    assert (Hin' : In (BlobExists container blobName (Ok (Some true)))
                     (pre ++ BlobExists q (c +:+ "/" +:+ fileName) (Ok a) :: post
                      ++ match r with
                         | Ok _ => [ConsoleLog [LStr "Asset successfully created"]; Exit 0]
                         | Throw err => [ConsoleError [LErr err]; Exit 1]
                         end)).
    { destruct r; rewrite <- app_assoc in Hin; exact Hin. }
    clear Hin. apply in_app_or in Hin' as [Hin | [Hin | Hin]].
    + exact (no_check_in _ _ _ _ Hpre Hin).
    + injection Hin as _ _ ->. discriminate Ha.
    + apply in_app_or in Hin as [Hin | Hin].
      * refine (not_in_trace _ _ _ Hpost _ Hin). reflexivity.
      * destruct r; cbn in Hin; intuition discriminate.
Qed.

(** C9. The contract of the command line: with another number of arguments
    than the six after the program name, the script prints the usage and
    exits at once with -1; with six, it exits with 0 when [main] returns,
    the early return of a published blob included, and with 1, after
    printing the error, when [main] throws. *)
Theorem cli_contract (h : Host) (argv : list string) :
  (List.length argv <> 8%nat ->
   createAsset h argv
   = [ConsoleError [LStr "Usage: node createAsset.js PRODUCT OS ARCH TYPE NAME FILE"];
      Exit (-1)]
   /\ exitCode (createAsset h argv) = Some (-1))
  /\ (forall node script product os arch unprocessedType fileName filePath,
        argv = [node; script; product; os; arch; unprocessedType; fileName; filePath] ->
        match fst (main h product os arch unprocessedType fileName filePath) with
        | Ok _ => exitCode (createAsset h argv) = Some 0
        | Throw err =>
            exitCode (createAsset h argv) = Some 1
            /\ In (ConsoleError [LErr err]) (createAsset h argv)
        end)
  /\ (forall container blobName,
        In (BlobExists container blobName (Ok (Some true))) (createAsset h argv) ->
        exitCode (createAsset h argv) = Some 0).
Proof.
  split; [| split].
  - intros Hlen. rewrite (createAsset_usage h argv Hlen). split; reflexivity.
  - intros node script product os arch unprocessedType fileName filePath ->.
    rewrite createAsset_main.
    pose proof (main_no_exit h product os arch unprocessedType fileName filePath) as Hne.
    destruct (main h product os arch unprocessedType fileName filePath) as [[[] | err] t];
      cbn in *.
    + rewrite (exitCode_app _ _ Hne). reflexivity.
    + rewrite (exitCode_app _ _ Hne). split; [reflexivity |].
      apply in_or_app. right. left. reflexivity.
  - intros container blobName Hin.
    destruct (check_true_inv h argv container blobName Hin)
      as (node & script & product & os & arch & type & fileName & filePath & pre
          & -> & Hpre & Hmain).
    rewrite createAsset_main, Hmain.
    apply console_only in Hpre as (_ & _ & Hpre & _).
    rewrite <- app_assoc, (exitCode_app _ _ Hpre). reflexivity.
Qed.

(** C6. Publishing twice: when the existence check of the blob
    [<commit>/<fileName>] answers [true], the script uploads nothing, calls
    no stored procedure, and exits with 0; uploads and calls of the stored
    procedure are only found in runs whose check answered [false] (or
    [undefined]). *)
Theorem publish_idempotent (h : Host) (argv : list string) :
  (forall container blobName,
      In (BlobExists container blobName (Ok (Some true))) (createAsset h argv) ->
      uploads (createAsset h argv) = 0%nat
      /\ procedureCalls (createAsset h argv) = 0%nat
      /\ exitCode (createAsset h argv) = Some 0)
  /\ (forall node script product os arch unprocessedType fileName filePath quality commit,
        argv = [node; script; product; os; arch; unprocessedType; fileName; filePath] ->
        env h !! "VSCODE_QUALITY" = Some quality ->
        env h !! "BUILD_SOURCEVERSION" = Some commit ->
        blob_exists h quality (commit +:+ "/" +:+ fileName) = Ok (Some true) ->
        uploads (createAsset h argv) = 0%nat
        /\ procedureCalls (createAsset h argv) = 0%nat)
  /\ (uploads (createAsset h argv) <> 0%nat
      \/ procedureCalls (createAsset h argv) <> 0%nat ->
      exists node script product os arch unprocessedType fileName filePath quality commit
             answer,
        argv = [node; script; product; os; arch; unprocessedType; fileName; filePath]
        /\ env h !! "VSCODE_QUALITY" = Some quality
        /\ env h !! "BUILD_SOURCEVERSION" = Some commit
        /\ In (BlobExists quality (commit +:+ "/" +:+ fileName) (Ok answer))
              (createAsset h argv)
        /\ truthy answer = false).
Proof.
  split; [| split].
  - intros container blobName Hin.
    destruct (check_true_inv h argv container blobName Hin)
      as (node & script & product & os & arch & type & fileName & filePath & pre
          & -> & Hpre & Hmain).
    rewrite createAsset_main, Hmain.
    apply console_only in Hpre as (Hup & Hcalls & Hpre & _).
    rewrite <- app_assoc, uploads_app, procedureCalls_app, Hup, Hcalls,
      (exitCode_app _ _ Hpre).
    repeat split; reflexivity.
  - intros node script product os arch type fileName filePath quality commit
      -> Hq Hc Hb.
    rewrite createAsset_main.
    destruct (main_run h product os arch type fileName filePath)
      as [e t Ht | q c e pre Hpre Hq' Hc' Hb' | q c a pre Hpre Hq' Hc' Hb' Ha
          | q c a pre post r Hpre Hq' Hc' Hb' Ha Hpost].
    + apply console_only in Ht as (Hup & Hcalls & _).
      rewrite uploads_app, procedureCalls_app, Hup, Hcalls. split; reflexivity.
    + apply console_only in Hpre as (Hup & Hcalls & _).
      rewrite <- app_assoc, uploads_app, procedureCalls_app, Hup, Hcalls.
      split; reflexivity.
    + apply console_only in Hpre as (Hup & Hcalls & _).
      rewrite <- app_assoc, uploads_app, procedureCalls_app, Hup, Hcalls.
      split; reflexivity.
    + exfalso. rewrite Hq in Hq'. rewrite Hc in Hc'.
      injection Hq' as <-. injection Hc' as <-.
      rewrite Hb in Hb'. injection Hb' as <-. discriminate Ha.
  - intros Hsome.
    destruct (Nat.eq_dec (List.length argv) 8%nat) as [Hlen | Hlen];
      [| rewrite (createAsset_usage h argv Hlen) in Hsome; cbn in Hsome;
         exfalso; destruct Hsome as [Hsome | Hsome]; apply Hsome; reflexivity].
    destruct argv as [| node [| script [| product [| os [| arch [| type [| fileName
                    [| filePath [| extra argv]]]]]]]]]; try discriminate Hlen.
    rewrite createAsset_main in *.
    destruct (main_run h product os arch type fileName filePath)
      as [e t Ht | q c e pre Hpre Hq' Hc' Hb' | q c a pre Hpre Hq' Hc' Hb' Ha
          | q c a pre post r Hpre Hq' Hc' Hb' Ha Hpost].
    + exfalso. apply console_only in Ht as (Hup & Hcalls & _).
      rewrite uploads_app, procedureCalls_app, Hup, Hcalls in Hsome.
      cbn in Hsome. destruct Hsome as [Hsome | Hsome]; apply Hsome; reflexivity.
    + exfalso. apply console_only in Hpre as (Hup & Hcalls & _).
      rewrite <- app_assoc, uploads_app, procedureCalls_app, Hup, Hcalls in Hsome.
      cbn in Hsome. destruct Hsome as [Hsome | Hsome]; apply Hsome; reflexivity.
    + exfalso. apply console_only in Hpre as (Hup & Hcalls & _).
      rewrite <- app_assoc, uploads_app, procedureCalls_app, Hup, Hcalls in Hsome.
      cbn in Hsome. destruct Hsome as [Hsome | Hsome]; apply Hsome; reflexivity.
    + exists node, script, product, os, arch, type, fileName, filePath, q, c, a.
      repeat split; auto.
      destruct r; rewrite <- app_assoc; apply in_or_app; right; left; reflexivity.
Qed.

Lemma cli_contract_witness :
  exitCode (createAsset (Samples.sampleHost false) ["node"; "createAsset.js"]) = Some (-1)
  /\ exitCode (createAsset (Samples.sampleHost false) Samples.sampleArgv) = Some 0
  /\ exitCode (createAsset (Samples.sampleHost false) Samples.unmappedArgv) = Some 1
  /\ exitCode (createAsset (Samples.sampleHost true) Samples.sampleArgv) = Some 0.
Proof.
  split; [| split; [| split]].
  - apply (proj1 (cli_contract (Samples.sampleHost false) ["node"; "createAsset.js"])).
    cbn. lia.
  - exact (proj1 (proj2 (cli_contract (Samples.sampleHost false) Samples.sampleArgv))
             "node" "createAsset.js" "client" "win32" "x64" "archive" "ads.zip"
             "/tmp/ads.zip" eq_refl).
  - exact (proj1
             (proj1 (proj2 (cli_contract (Samples.sampleHost false) Samples.unmappedArgv))
                "node" "createAsset.js" "client" "beos" "x64" "archive" "ads.zip"
                "/tmp/ads.zip" eq_refl)).
  - apply (proj2 (proj2 (cli_contract (Samples.sampleHost true) Samples.sampleArgv))
             "insider" "0a1b2c/ads.zip").
    vm_compute. do 4 right. left. reflexivity.
Defined.

Lemma publish_idempotent_witness :
  (uploads (createAsset (Samples.sampleHost true) Samples.sampleArgv) = 0%nat
   /\ procedureCalls (createAsset (Samples.sampleHost true) Samples.sampleArgv) = 0%nat
   /\ exitCode (createAsset (Samples.sampleHost true) Samples.sampleArgv) = Some 0)
  /\ (uploads (createAsset (Samples.sampleHost true) Samples.sampleArgv) = 0%nat
      /\ procedureCalls (createAsset (Samples.sampleHost true) Samples.sampleArgv) = 0%nat)
  /\ exists node script product os arch unprocessedType fileName filePath quality commit
            answer,
      Samples.sampleArgv
      = [node; script; product; os; arch; unprocessedType; fileName; filePath]
      /\ env (Samples.sampleHost false) !! "VSCODE_QUALITY" = Some quality
      /\ env (Samples.sampleHost false) !! "BUILD_SOURCEVERSION" = Some commit
      /\ In (BlobExists quality (commit +:+ "/" +:+ fileName) (Ok answer))
            (createAsset (Samples.sampleHost false) Samples.sampleArgv)
      /\ truthy answer = false.
Proof.
  split; [| split].
  - apply (proj1 (publish_idempotent (Samples.sampleHost true) Samples.sampleArgv)
             "insider" "0a1b2c/ads.zip").
    vm_compute. do 4 right. left. reflexivity.
  - apply (proj1 (proj2 (publish_idempotent (Samples.sampleHost true) Samples.sampleArgv))
             "node" "createAsset.js" "client" "win32" "x64" "archive" "ads.zip"
             "/tmp/ads.zip" "insider" "0a1b2c"); reflexivity.
  - apply (proj2 (proj2 (publish_idempotent (Samples.sampleHost false) Samples.sampleArgv))).
    left. vm_compute. discriminate.
Defined.

End Publisher.

(** ** Objects *)

Section ObjectFacts.
Import JsObject.
Context {V : Type}.
Implicit Types (o a b : obj V) (k : string) (v : V).

Lemma get_keys k o : get k o = None <-> ~ In k (keys o).
Proof.
  induction o as [| [k' v'] o IH]; cbn; [tauto |].
  destruct (String.eqb_spec k' k) as [-> | Hne].
  - split; [discriminate | intros H; exfalso; apply H; auto].
  - rewrite IH. split; [intros H [?|?]; [congruence | tauto] | tauto].
Qed.

Lemma get_Some_keys k v o : get k o = Some v -> In k (keys o).
Proof.
  intros H. destruct (in_dec String.string_dec k (keys o)) as [Hin | Hnin]; [exact Hin |].
  apply get_keys in Hnin. congruence.
Qed.

Lemma get_In k v o : get k o = Some v -> In (k, v) o.
Proof.
  induction o as [| [k' v'] o IH]; cbn; [discriminate |].
  destruct (String.eqb_spec k' k) as [-> | Hne].
  - intros [= ->]. auto.
  - auto.
Qed.

Lemma has_keys k o : has k o = true <-> In k (keys o).
Proof.
  unfold has. destruct (get k o) as [v |] eqn:H.
  - split; [intros _; exact (get_Some_keys _ _ _ H) | reflexivity].
  - split; [discriminate | intros Hin; apply get_keys in H; contradiction].
Qed.

Lemma get_update_eq k v o : has k o = true -> get k (update k v o) = Some v.
Proof.
  unfold has. induction o as [| [k' v'] o IH]; cbn; [discriminate |].
  destruct (String.eqb_spec k' k) as [-> | Hne]; cbn.
  - rewrite String.eqb_refl. reflexivity.
  - intros H. apply String.eqb_neq in Hne. rewrite Hne. auto.
Qed.

Lemma get_update_ne k k' v o : k <> k' -> get k' (update k v o) = get k' o.
Proof.
  intros Hne. induction o as [| [k0 v0] o IH]; cbn; [reflexivity |].
  destruct (String.eqb_spec k0 k) as [-> | Hne0]; cbn.
  - apply String.eqb_neq in Hne. rewrite Hne. reflexivity.
  - rewrite IH. reflexivity.
Qed.

Lemma keys_update k v o : keys (update k v o) = keys o.
Proof.
  unfold keys. induction o as [| [k0 v0] o IH]; cbn; [reflexivity |].
  destruct (String.eqb k0 k); cbn; [reflexivity | rewrite IH; reflexivity].
Qed.

Lemma update_same k v o : get k o = Some v -> update k v o = o.
Proof.
  induction o as [| [k0 v0] o IH]; cbn; [reflexivity |].
  destruct (String.eqb k0 k).
  - intros [= ->]. reflexivity.
  - intros H. rewrite (IH H). reflexivity.
Qed.

Lemma get_insertIndex_eq n k v o :
  get k o = None -> get k (insertIndex n k v o) = Some v.
Proof.
  induction o as [| [k0 v0] o IH]; cbn.
  - rewrite String.eqb_refl. reflexivity.
  - destruct (String.eqb k0 k) eqn:Hk0; [discriminate |]. intros Hnone.
    destruct (arrayIndex k0) as [m |]; [destruct (m <? n)%N |]; cbn;
      rewrite ?Hk0, ?String.eqb_refl; auto.
Qed.

Lemma get_insertIndex_ne n k k' v o :
  k <> k' -> get k' (insertIndex n k v o) = get k' o.
Proof.
  intros Hne. apply String.eqb_neq in Hne.
  induction o as [| [k0 v0] o IH]; cbn.
  - rewrite Hne. reflexivity.
  - destruct (arrayIndex k0) as [m |]; [destruct (m <? n)%N |]; cbn;
      rewrite ?Hne, ?IH; reflexivity.
Qed.

Lemma In_insertIndex n k v o e :
  In e (insertIndex n k v o) <-> e = (k, v) \/ In e o.
Proof.
  induction o as [| [k0 v0] o IH]; cbn; [intuition congruence |].
  destruct (arrayIndex k0) as [m |]; [destruct (m <? n)%N |]; cbn;
    rewrite ?IH; intuition congruence.
Qed.

Lemma get_app_end k k' v o :
  get k' (o ++ [(k, v)])
  = match get k' o with
    | Some w => Some w
    | None => if String.eqb k k' then Some v else None
    end.
Proof.
  induction o as [| [k0 v0] o IH]; cbn; [reflexivity |].
  destruct (String.eqb k0 k'); [reflexivity | exact IH].
Qed.

Lemma put_set k v o : k <> "__proto__" -> put k v o = set k v o.
Proof. intros Hk. unfold put. apply String.eqb_neq in Hk. rewrite Hk. reflexivity. Qed.

Lemma get_set_eq k v o : get k (set k v o) = Some v.
Proof.
  unfold set. destruct (has k o) eqn:Hhas.
  - apply get_update_eq, Hhas.
  - assert (Hnone : get k o = None).
    { unfold has in Hhas. destruct (get k o); [discriminate | reflexivity]. }
    destruct (arrayIndex k) as [n |].
    + apply get_insertIndex_eq, Hnone.
    + rewrite get_app_end, String.eqb_refl, Hnone. reflexivity.
Qed.

Lemma get_set_ne k k' v o : k <> k' -> get k' (set k v o) = get k' o.
Proof.
  intros Hne. unfold set. destruct (has k o).
  - apply get_update_ne, Hne.
  - destruct (arrayIndex k) as [n |].
    + apply get_insertIndex_ne, Hne.
    + apply String.eqb_neq in Hne.
      rewrite get_app_end, Hne. destruct (get k' o); reflexivity.
Qed.

Lemma keys_set k v o k' : In k' (keys (set k v o)) <-> k' = k \/ In k' (keys o).
Proof.
  unfold set. destruct (has k o) eqn:Hhas; cbv iota.
  - rewrite keys_update. apply has_keys in Hhas.
    split; [auto | intros [-> | H]; assumption].
  - destruct (arrayIndex k) as [n |]; unfold keys.
    + rewrite !in_map_iff. split.
      * intros ([k0 v0] & <- & Hin). apply In_insertIndex in Hin as [[= -> ->] | Hin];
          [left; reflexivity | right; exists (k0, v0); auto].
      * intros [-> | ([k0 v0] & <- & Hin)].
        -- exists (k, v). split; [reflexivity | apply In_insertIndex; auto].
        -- exists (k0, v0). split; [reflexivity | apply In_insertIndex; auto].
    + rewrite map_app, in_app_iff. cbn. intuition congruence.
Qed.

Lemma set_same k v o : get k o = Some v -> set k v o = o.
Proof.
  intros H. unfold set, has. rewrite H. apply update_same, H.
Qed.

Lemma get_assign_notin k a b : ~ In k (keys b) -> get k (assign a b) = get k a.
Proof.
  unfold assign. revert a. induction b as [| [k0 v0] b IH]; intros a Hnin; cbn;
    [reflexivity |].
  cbn in Hnin. rewrite IH by tauto. apply get_set_ne. intros ->. tauto.
Qed.

Lemma get_assign_in k v a b :
  List.NoDup (keys b) -> In (k, v) b -> get k (assign a b) = Some v.
Proof.
  unfold assign. revert a. induction b as [| [k0 v0] b IH]; intros a Hnd Hin; cbn;
    [destruct Hin |].
  cbn in Hnd. apply List.NoDup_cons_iff in Hnd as [Hk0 Hnd].
  destruct Hin as [[= -> ->] | Hin].
  - fold (assign (set k v a) b). rewrite get_assign_notin by exact Hk0.
    apply get_set_eq.
  - apply IH; assumption.
Qed.

Lemma keys_assign k a b :
  In k (keys (assign a b)) <-> In k (keys a) \/ In k (keys b).
Proof.
  unfold assign. revert a. induction b as [| [k0 v0] b IH]; intros a;
    cbn [fold_left fst snd]; [cbn; tauto |].
  rewrite IH, keys_set. cbn. intuition congruence.
Qed.

Lemma assign_same a b :
  (forall k v, In (k, v) b -> get k a = Some v) -> assign a b = a.
Proof.
  unfold assign. induction b as [| [k0 v0] b IH]; intros H; cbn; [reflexivity |].
  rewrite set_same by (apply H; left; reflexivity).
  apply IH. intros k v Hin. apply H. right. exact Hin.
Qed.

Lemma get_delete k k' o :
  get k' (delete k o) = if String.eqb k k' then None else get k' o.
Proof.
  unfold delete. induction o as [| [k0 v0] o IH]; cbn.
  - destruct (String.eqb k k'); reflexivity.
  - destruct (String.eqb_spec k0 k) as [-> | Hne]; cbn.
    + rewrite IH. destruct (String.eqb k k'); reflexivity.
    + rewrite IH. destruct (String.eqb_spec k k') as [-> | Hne'].
      * apply String.eqb_neq in Hne. rewrite Hne. reflexivity.
      * reflexivity.
Qed.

End ObjectFacts.

(** ** The main catalog *)

Section MainCatalog.
Import JsString JsObject Json LocFunc.
Implicit Types (oc mc : obj json) (k : string).

Lemma get_deleteKeys mc ks oc k :
  get k (deleteKeys mc ks oc)
  = if stale mc k && existsb (String.eqb k) ks then None else get k oc.
Proof.
  unfold deleteKeys. revert oc.
  induction ks as [| k0 ks IH]; intros oc; cbn [fold_left existsb].
  - rewrite andb_false_r. reflexivity.
  - rewrite IH. destruct (String.eqb_spec k k0) as [-> | Hne]; cbn [orb].
    + destruct (stale mc k0) eqn:Hst; cbn [andb].
      * rewrite get_delete, String.eqb_refl. destruct (existsb _ ks); reflexivity.
      * reflexivity.
    + destruct (stale mc k && existsb (String.eqb k) ks); [reflexivity |].
      destruct (stale mc k0); [| reflexivity].
      rewrite get_delete. apply not_eq_sym, String.eqb_neq in Hne. rewrite Hne.
      reflexivity.
Qed.

Lemma deleteKeys_none mc ks oc :
  (forall k, In k ks -> stale mc k = false) -> deleteKeys mc ks oc = oc.
Proof.
  unfold deleteKeys. revert oc. induction ks as [| k0 ks IH]; intros oc H; cbn;
    [reflexivity |].
  rewrite (H k0) by (left; reflexivity). apply IH. intros k Hk. apply H. right. exact Hk.
Qed.

Lemma existsb_keys k oc : existsb (String.eqb k) (keys oc) = true <-> In k (keys oc).
Proof.
  rewrite existsb_exists. split.
  - intros (x & Hx & Heq). apply String.eqb_eq in Heq. subst. exact Hx.
  - intros H. exists k. split; [exact H | apply String.eqb_refl].
Qed.

(** What the first loop leaves: a property is gone exactly when it is
    stale. *)
Lemma get_deleteStale mc oc k :
  get k (deleteStale oc mc) = if stale mc k then None else get k oc.
Proof.
  unfold deleteStale. rewrite get_deleteKeys.
  destruct (stale mc k); cbn [andb]; [| reflexivity].
  destruct (existsb (String.eqb k) (keys oc)) eqn:Hex; [reflexivity |].
  apply get_keys. intros Hin. apply existsb_keys in Hin. congruence.
Qed.

Lemma catalogObject_eq (messages : I18nPack) :
  catalogObject messages
  = JObject [(EmptyString, header); ("version", JString (version messages));
             ("contents", JObject (contents messages))].
Proof. reflexivity. Qed.

Lemma updateMainI18nFile_ok processPlatform (fs : FS) existing original
    (messages : I18nPack) current oc :
  fs !! NodePath.join [existing +:+ ".i18n.json"] = Some (JsonFile (JObject current)) ->
  get "contents" current = Some (JObject oc) ->
  updateMainI18nFile processPlatform fs existing original messages
  = Ok (mkFile (NodePath.join [original +:+ ".i18n.json"])
          (catalogObject
             (mkI18nPack (version messages)
                (spread (deleteStale oc (contents messages)) (contents messages))))
          (String.eqb processPlatform "win32")).
Proof. intros Hfs Hc. unfold updateMainI18nFile. rewrite Hfs, Hc. reflexivity. Qed.

(** C2. The pruning of the main catalog: a key of the catalog on disk that
    starts with [sql] and has no entry among the new messages is not in the
    catalog that is written; a key that does not start with [sql] is never
    removed, and keeps its value unless the new messages have the key. *)
Theorem prune_correctness processPlatform (fs : FS) existing original
    (messages : I18nPack) current oc :
  fs !! NodePath.join [existing +:+ ".i18n.json"] = Some (JsonFile (JObject current)) ->
  get "contents" current = Some (JObject oc) ->
  exists file out,
    updateMainI18nFile processPlatform fs existing original messages = Ok file
    /\ catalogContents file = Some out
    /\ (forall k, In k (keys oc) -> startsWith k "sql" = true ->
                  get k (contents messages) = None ->
                  get k out = None /\ ~ In k (keys out))
    /\ (forall k, In k (keys oc) -> startsWith k "sql" = false -> In k (keys out))
    /\ (forall k, startsWith k "sql" = false -> get k (contents messages) = None ->
                  get k out = get k oc)
    /\ (forall k v, List.NoDup (keys (contents messages)) ->
                    In (k, v) (contents messages) -> get k out = Some v).
Proof.
  intros Hfs Hc.
  eexists _, (spread (deleteStale oc (contents messages)) (contents messages)).
  split; [apply (updateMainI18nFile_ok _ _ _ _ _ _ _ Hfs Hc) |].
  split; [reflexivity |].
  unfold spread.
  split; [| split; [| split]].
  - intros k _ Hsql Hnone.
    assert (Hgone : get k (assign (deleteStale oc (contents messages)) (contents messages))
                    = None).
    { rewrite get_assign_notin by (apply get_keys; exact Hnone).
      rewrite get_deleteStale. unfold stale, has. rewrite Hsql, Hnone. reflexivity. }
    split; [exact Hgone | apply get_keys, Hgone].
  - intros k Hin Hsql. apply keys_assign. left.
    destruct (get k (deleteStale oc (contents messages))) as [v |] eqn:Hget;
      [exact (get_Some_keys _ _ _ Hget) |].
    rewrite get_deleteStale in Hget. unfold stale in Hget. rewrite Hsql in Hget.
    cbn in Hget. apply get_keys in Hget. contradiction.
  - intros k Hsql Hnone.
    rewrite get_assign_notin by (apply get_keys; exact Hnone).
    rewrite get_deleteStale. unfold stale. rewrite Hsql. reflexivity.
  - intros k v Hnd Hin. apply get_assign_in; assumption.
Qed.

Lemma prune_correctness_witness :
  exists file out,
    updateMainI18nFile "win32" Samples.sampleFs
      "i18n/ads-language-pack-de/translations\main" "./main" Samples.sampleMessages
    = Ok file
    /\ catalogContents file = Some out
    /\ (forall k,
          In k ["vs/editor"; "sql/old"; "sql/kept"] -> startsWith k "sql" = true ->
          get k (contents Samples.sampleMessages) = None ->
          get k out = None /\ ~ In k (keys out))
    /\ (forall k,
          In k ["vs/editor"; "sql/old"; "sql/kept"] -> startsWith k "sql" = false ->
          In k (keys out))
    /\ (forall k, startsWith k "sql" = false ->
                  get k (contents Samples.sampleMessages) = None ->
                  get k out
                  = get k [("vs/editor", JObject [("find", JString "Suchen")]);
                           ("sql/old", JObject [("gone", JString "Weg")]);
                           ("sql/kept", JObject [("open", JString "Offen")])])
    /\ (forall k v, List.NoDup (keys (contents Samples.sampleMessages)) ->
                    In (k, v) (contents Samples.sampleMessages) -> get k out = Some v).
Proof.
  exact (prune_correctness "win32" Samples.sampleFs
           "i18n/ads-language-pack-de/translations\main" "./main" Samples.sampleMessages
           _ _ eq_refl eq_refl).
Defined.

(** Once the catalog is merged, no key of it is stale and every message is
    already in it. *)
Lemma merge_fixpoint oc mc :
  List.NoDup (keys mc) ->
  spread (deleteStale (spread (deleteStale oc mc) mc) mc) mc
  = spread (deleteStale oc mc) mc.
Proof.
  intros Hnd. set (c1 := spread (deleteStale oc mc) mc).
  assert (Hstale : deleteStale c1 mc = c1).
  { apply deleteKeys_none. intros k Hin.
    apply keys_assign in Hin as [Hin | Hin].
    - destruct (get k (deleteStale oc mc)) as [v |] eqn:Hget;
        [| apply get_keys in Hget; contradiction].
      rewrite get_deleteStale in Hget.
      destruct (stale mc k); [discriminate | reflexivity].
    - unfold stale. apply has_keys in Hin. rewrite Hin. apply andb_false_r. }
  rewrite Hstale. apply assign_same. intros k v Hin.
  apply get_assign_in; assumption.
Qed.

(** C7. The merge of the main catalog is idempotent: a second run with the
    same parsed messages, which finds on disk what the first run wrote,
    writes a file with byte for byte the same contents. *)
Theorem catalog_merge_idempotent processPlatform (fs fs2 : FS) existing original
    (messages : I18nPack) (file1 : File) :
  List.NoDup (keys (contents messages)) ->
  updateMainI18nFile processPlatform fs existing original messages = Ok file1 ->
  fs2 !! NodePath.join [existing +:+ ".i18n.json"] = Some (JsonFile (document file1)) ->
  exists file2,
    updateMainI18nFile processPlatform fs2 existing original messages = Ok file2
    /\ fileContents file2 = fileContents file1
    /\ path file2 = path file1.
Proof.
  intros Hnd Hrun1 Hdisk.
  unfold updateMainI18nFile in Hrun1.
  destruct (fs !! NodePath.join [existing +:+ ".i18n.json"]) as [[[| | current] | |] |];
    try discriminate Hrun1.
  destruct (get "contents" current) as [[| | oc] |]; try discriminate Hrun1.
  injection Hrun1 as <-. cbn [document] in Hdisk.
  rewrite catalogObject_eq in Hdisk. cbn [version contents] in Hdisk.
  eexists. split.
  - eapply updateMainI18nFile_ok; [exact Hdisk | reflexivity].
  - cbn [version]. rewrite (merge_fixpoint oc (contents messages) Hnd).
    split; reflexivity.
Qed.

Lemma catalog_merge_idempotent_witness :
  exists file2,
    updateMainI18nFile "win32"
      (<["i18n/ads-language-pack-de/translations\main.i18n.json"
         := JsonFile
              (catalogObject
                 (mkI18nPack "1.0.0"
                    [("vs/editor", JObject [("find", JString "Suchen")]);
                     ("sql/kept", JObject [("open", JString "Öffnen")]);
                     ("sql/new", JObject [("save", JString "Speichern")])]))]> ∅)
      "i18n/ads-language-pack-de/translations\main" "./main" Samples.sampleMessages
    = Ok file2
    /\ fileContents file2
       = fileContents
           (mkFile "main.i18n.json"
              (catalogObject
                 (mkI18nPack "1.0.0"
                    [("vs/editor", JObject [("find", JString "Suchen")]);
                     ("sql/kept", JObject [("open", JString "Öffnen")]);
                     ("sql/new", JObject [("save", JString "Speichern")])]))
              true)
    /\ path file2 = "main.i18n.json".
Proof.
  apply (catalog_merge_idempotent "win32" Samples.sampleFs _
           "i18n/ads-language-pack-de/translations\main" "./main" Samples.sampleMessages
           (mkFile "main.i18n.json"
              (catalogObject
                 (mkI18nPack "1.0.0"
                    [("vs/editor", JObject [("find", JString "Suchen")]);
                     ("sql/kept", JObject [("open", JString "Öffnen")]);
                     ("sql/new", JObject [("save", JString "Speichern")])]))
              true)).
  - repeat constructor; cbn; intuition discriminate.
  - reflexivity.
  - reflexivity.
Defined.

End MainCatalog.

(** ** The routing of the parsed files *)

Section Routing.
Import JsString JsObject Json NodePath LocFunc.
#[local] Arguments String.append !s1 s2 : simpl nomatch.

Lemma append_assoc (a b c : string) : (a +:+ b) +:+ c = a +:+ (b +:+ c).
Proof. induction a as [| x a IH]; cbn; [reflexivity | rewrite IH; reflexivity]. Qed.

Lemma length_append (a b : string) :
  String.length (a +:+ b) = (String.length a + String.length b)%nat.
Proof. induction a as [| x a IH]; cbn; [reflexivity | rewrite IH; reflexivity]. Qed.

Lemma append_inj_r (a k k' : string) : a +:+ k = a +:+ k' -> k = k'.
Proof. induction a as [| c a IH]; cbn; [auto | intros [= H]; auto]. Qed.

Lemma segments_nonempty (s : string) : segments s <> [].
Proof.
  destruct s as [| c s]; cbn; [discriminate |].
  destruct (Ascii.eqb c "/"); [discriminate |].
  destruct (segments s); discriminate.
Qed.

Lemma joinWith_cons_char (c : ascii) (seg : string) (l : list string) :
  joinWith "/" (String c seg :: l) = String c (joinWith "/" (seg :: l)).
Proof. destruct l; reflexivity. Qed.

Lemma join_segments (s : string) : joinWith "/" (segments s) = s.
Proof.
  induction s as [| c s IH]; [reflexivity |].
  cbn [segments]. destruct (Ascii.eqb_spec c "/") as [-> | Hc]; cbv iota.
  - pose proof (segments_nonempty s) as Hne.
    destruct (segments s) as [| seg l]; [contradiction |].
    cbn [joinWith]. rewrite <- IH. reflexivity.
  - pose proof (segments_nonempty s) as Hne.
    destruct (segments s) as [| seg l]; [contradiction |].
    rewrite joinWith_cons_char, IH. reflexivity.
Qed.

(** A path of at least two segments is its first segment, a slash and the
    rest; the slash is the first one of the path. *)
Lemma first_slash (s a b : string) (rest : list string) :
  segments s = a :: b :: rest ->
  exists s', s = a +:+ String "/" s' /\ segments s' = b :: rest
             /\ forall pos from, from <= pos ->
                  indexOf_at "/" s pos from = pos + strlen a.
Proof.
  revert a. induction s as [| c s IH]; intros a; cbn [segments]; [discriminate |].
  destruct (Ascii.eqb_spec c "/") as [-> | Hc]; cbv iota.
  - intros [= <- Hs]. exists s. repeat split; [exact Hs |].
    intros pos from Hle. cbn. apply Z.leb_le in Hle. rewrite Hle. cbn.
    unfold strlen. cbn. lia.
  - destruct (segments s) as [| seg l] eqn:Hseg; [discriminate |].
    intros [= <- ->]. destruct (IH seg eq_refl) as (s' & -> & Hs' & Hidx).
    exists s'. repeat split; [exact Hs' |].
    intros pos from Hle. cbn [indexOf_at].
    apply Ascii.eqb_neq in Hc. rewrite Hc, andb_false_r.
    rewrite Hidx by lia. unfold strlen. cbn [String.length]. lia.
Qed.

Lemma no_slash (s a : string) :
  segments s = [a] -> forall pos from, indexOf_at "/" s pos from = -1.
Proof.
  revert a. induction s as [| c s IH]; intros a; cbn [segments]; [reflexivity |].
  destruct (Ascii.eqb_spec c "/") as [-> | Hc]; cbv iota.
  - intros [= _ Hs]. exfalso. exact (segments_nonempty s Hs).
  - pose proof (segments_nonempty s) as Hne.
    destruct (segments s) as [| seg l] eqn:Hseg; [contradiction |].
    intros [= _ ->] pos from. cbn [indexOf_at].
    apply Ascii.eqb_neq in Hc. rewrite Hc, andb_false_r. apply (IH seg eq_refl).
Qed.

Lemma indexOf_at_skip (c : ascii) (a s : string) (pos from : Z) :
  pos + strlen a <= from ->
  indexOf_at c (a +:+ s) pos from = indexOf_at c s (pos + strlen a) from.
Proof.
  revert pos. induction a as [| x a IH]; intros pos Hle.
  - unfold strlen. cbn. f_equal. lia.
  - unfold strlen in *. cbn [String.length] in Hle. cbn [String.append indexOf_at].
    assert (Hlt : (from <=? pos) = false) by (apply Z.leb_gt; lia).
    rewrite Hlt. cbn [andb]. rewrite IH by lia. f_equal. cbn [String.length]. lia.
Qed.

Lemma drop_app (a s : string) : drop (String.length a) (a +:+ s) = s.
Proof. induction a as [| x a IH]; [reflexivity | exact IH]. Qed.

Lemma substr_after (a s : string) :
  substr (a +:+ String "/" s) (strlen a + 1) = s.
Proof.
  unfold substr, strlen.
  assert (Hpos : (Z.of_nat (String.length a) + 1 <? 0) = false) by (apply Z.ltb_ge; lia).
  rewrite Hpos.
  replace (Z.to_nat (Z.of_nat (String.length a) + 1)) with (S (String.length a)) by lia.
  clear Hpos. induction a as [| x a IH]; [reflexivity | exact IH].
Qed.

(** With a slash in the path, [substr] after the first slash strips one
    segment. *)
Lemma strip_one (p : string) :
  (2 <= List.length (segments p))%nat ->
  substr p (indexOf "/" p 0 + 1) = stripSegments 1 p.
Proof.
  intros Hlen. unfold stripSegments.
  destruct (segments p) as [| a [| b rest]] eqn:Hseg; cbn in Hlen; try lia.
  destruct (first_slash p a b rest Hseg) as (s' & -> & Hs' & Hidx).
  unfold indexOf. rewrite Hidx by reflexivity.
  rewrite Z.add_0_l, substr_after. cbn [skipn]. rewrite <- Hs'. symmetry.
  apply join_segments.
Qed.

(** With two slashes, [substr] after the second slash strips two. *)
Lemma strip_two (p : string) :
  (3 <= List.length (segments p))%nat ->
  substr p (indexOf "/" p (indexOf "/" p 0 + 1) + 1) = stripSegments 2 p.
Proof.
  intros Hlen. unfold stripSegments.
  destruct (segments p) as [| a [| b [| c rest]]] eqn:Hseg; cbn in Hlen; try lia.
  destruct (first_slash p a b (c :: rest) Hseg) as (s' & -> & Hs' & Hidx).
  destruct (first_slash s' b c rest Hs') as (s'' & -> & Hs'' & Hidx').
  set (p := a +:+ String "/" (b +:+ String "/" s'')) in *.
  assert (Hp2 : p = (a +:+ "/") +:+ (b +:+ String "/" s''))
    by (unfold p; rewrite append_assoc; reflexivity).
  assert (Hp3 : p = ((a +:+ "/") +:+ b) +:+ String "/" s'')
    by (unfold p; rewrite !append_assoc; reflexivity).
  assert (Hlen' : strlen (a +:+ "/") = strlen a + 1).
  { unfold strlen. rewrite length_append. cbn. lia. }
  assert (Hlen'' : strlen ((a +:+ "/") +:+ b) = strlen a + 1 + strlen b).
  { unfold strlen in *. rewrite length_append. lia. }
  assert (Hnn : 0 <= strlen a) by (unfold strlen; lia).
  assert (H1 : indexOf "/" p 0 = strlen a).
  { unfold indexOf. rewrite Hidx by reflexivity. lia. }
  assert (H2 : indexOf "/" p (strlen a + 1) = strlen a + 1 + strlen b).
  { unfold indexOf. rewrite Z.max_r by lia. rewrite Hp2.
    rewrite indexOf_at_skip by lia. rewrite Hidx' by lia. lia. }
  rewrite H1, H2, Hp3, <- Hlen'', substr_after.
  cbn [skipn]. rewrite <- Hs''. symmetry. apply join_segments.
Qed.

(** C3, amended. The routing of a parsed file: when the resource is [sql]
    and the path has a slash, the messages go into the main catalog under
    the path without its first segment, and the catalogs of the extensions
    are left alone; for another resource, which is not a name that every
    object inherits, and a path with two slashes, they go into the catalog
    of that resource under the path without its first two segments, and the
    main catalog is left alone. The key is not [__proto__]. For a resource
    that every object inherits the routing throws. *)
Theorem routing_correctness (i18nPackVersion resource : string) (st : Packs)
    (file : ParsedXLF) :
  (resource = "sql" ->
   (2 <= List.length (segments (originalFilePath file)))%nat ->
   stripSegments 1 (originalFilePath file) <> "__proto__" ->
   exists st',
     route i18nPackVersion resource st file = Ok st'
     /\ contents (mainPack st')
        = set (stripSegments 1 (originalFilePath file)) (messages file)
            (contents (mainPack st))
     /\ get (stripSegments 1 (originalFilePath file)) (contents (mainPack st'))
        = Some (messages file)
     /\ extensionsPacks st' = extensionsPacks st
     /\ errors st' = errors st)
  /\ (resource <> "sql" ->
      (3 <= List.length (segments (originalFilePath file)))%nat ->
      stripSegments 2 (originalFilePath file) <> "__proto__" ->
      inherited resource = false ->
      exists st' extPack',
        route i18nPackVersion resource st file = Ok st'
        /\ get resource (extensionsPacks st') = Some extPack'
        /\ contents extPack'
           = set (stripSegments 2 (originalFilePath file)) (messages file)
               (contents (match get resource (extensionsPacks st) with
                          | Some extPack => extPack
                          | None => mkI18nPack i18nPackVersion []
                          end))
        /\ get (stripSegments 2 (originalFilePath file)) (contents extPack')
           = Some (messages file)
        /\ (forall other, other <> resource ->
                          get other (extensionsPacks st') = get other (extensionsPacks st))
        /\ mainPack st' = mainPack st
        /\ errors st' = errors st)
  /\ (resource <> "sql" ->
      inherited resource = true ->
      get resource (extensionsPacks st) = None ->
      route i18nPackVersion resource st file = Throw TypeError).
Proof.
  split; [| split].
  - intros -> Hlen Hkey. unfold route.
    change ("sql" === "sql") with true. cbn [negb].
    eexists. split; [reflexivity |]. cbn [mainPack extensionsPacks contents errors].
    rewrite (strip_one _ Hlen), (put_set _ _ _ Hkey). repeat split. apply get_set_eq.
  - intros Hne Hlen Hkey Hown. unfold route. apply String.eqb_neq in Hne. rewrite Hne.
    cbn [negb]. rewrite (strip_two _ Hlen), Hown.
    destruct (get resource (extensionsPacks st)) as [extPack |];
      (eexists; eexists; split; [reflexivity |];
       cbn [mainPack extensionsPacks errors];
       split; [apply get_set_eq |];
       cbn [contents]; rewrite (put_set _ _ _ Hkey);
       split; [reflexivity |]; split; [apply get_set_eq |];
       split; [intros other Hother; apply get_set_ne; congruence | split; reflexivity]).
  - intros Hne Hin Hnone. unfold route. apply String.eqb_neq in Hne. rewrite Hne.
    cbn [negb]. rewrite Hnone, Hin. reflexivity.
Qed.

Lemma routing_correctness_witness :
  (exists st',
      route "1.0.0" "sql" (initialPacks "1.0.0") Samples.sqlFile = Ok st'
      /\ contents (mainPack st') = set "sql/base/common" (messages Samples.sqlFile) []
      /\ get "sql/base/common" (contents (mainPack st')) = Some (messages Samples.sqlFile)
      /\ extensionsPacks st' = []
      /\ errors st' = [])
  /\ (exists st' extPack',
         route "1.0.0" "git" (initialPacks "1.0.0") Samples.gitFile = Ok st'
         /\ get "git" (extensionsPacks st') = Some extPack'
         /\ contents extPack' = set "package" (messages Samples.gitFile) []
         /\ get "package" (contents extPack') = Some (messages Samples.gitFile)
         /\ (forall other, other <> "git" -> get other (extensionsPacks st') = None)
         /\ mainPack st' = mainPack (initialPacks "1.0.0")
         /\ errors st' = [])
  /\ route "1.0.0" "constructor" (initialPacks "1.0.0") Samples.constructorFile
     = Throw TypeError.
Proof.
  split; [| split].
  - apply (proj1 (routing_correctness "1.0.0" "sql" (initialPacks "1.0.0") Samples.sqlFile));
      [reflexivity | cbn; lia | discriminate].
  - apply (proj1 (proj2 (routing_correctness "1.0.0" "git" (initialPacks "1.0.0")
                           Samples.gitFile)));
      [discriminate | cbn; lia | discriminate | reflexivity].
  - apply (proj2 (proj2 (routing_correctness "1.0.0" "constructor" (initialPacks "1.0.0")
                           Samples.constructorFile)));
      [discriminate | reflexivity | reflexivity].
Defined.

(** C3 as it is stated fails on short paths: with fewer slashes than
    segments to strip, the whole path is the key. It fails as well for a
    resource with a name that every object inherits: nothing is stored. *)
Lemma routing_short_path :
  stripSegments 2 "extensions/git" = EmptyString
  /\ (exists st',
         route "1.0.0" "git" (initialPacks "1.0.0") Samples.shortGitFile = Ok st'
         /\ List.map (fun e => (fst e, keys (contents (snd e)))) (extensionsPacks st')
            = [("git", ["extensions/git"])])
  /\ stripSegments 1 "sql" = EmptyString
  /\ (exists st',
         route "1.0.0" "sql" (initialPacks "1.0.0") Samples.shortSqlFile = Ok st'
         /\ keys (contents (mainPack st')) = ["sql"])
  /\ route "1.0.0" "constructor" (initialPacks "1.0.0") Samples.constructorFile
     = Throw TypeError
  /\ ~ (forall resource st file,
          resource <> "sql" ->
          exists st' extPack',
            route "1.0.0" resource st file = Ok st'
            /\ get resource (extensionsPacks st') = Some extPack'
            /\ get (stripSegments 2 (originalFilePath file)) (contents extPack')
               = Some (messages file))
  /\ ~ (forall st file,
          exists st',
            route "1.0.0" "sql" st file = Ok st'
            /\ get (stripSegments 1 (originalFilePath file)) (contents (mainPack st'))
               = Some (messages file)).
Proof.
  split; [reflexivity |].
  split; [eexists; split; reflexivity |].
  split; [reflexivity |].
  split; [eexists; split; reflexivity |].
  split; [reflexivity |].
  split.
  - intros H.
    destruct (H "git" (initialPacks "1.0.0") Samples.shortGitFile)
      as (st' & extPack' & Hroute & Hget & Hkey); [discriminate |].
    vm_compute in Hroute. injection Hroute as <-.
    vm_compute in Hget. injection Hget as <-. vm_compute in Hkey. discriminate Hkey.
  - intros H.
    destruct (H (initialPacks "1.0.0") Samples.shortSqlFile) as (st' & Hroute & Hkey).
    vm_compute in Hroute. injection Hroute as <-.
    vm_compute in Hkey. discriminate Hkey.
Qed.

End Routing.

(** ** The translations of the descriptor *)

Section Upsert.
Import LocFunc.
Implicit Types (l translations : list Translation) (t : Translation).

Lemma setIdAt_paths finalPath tpId l :
  List.map t_path (fst (setIdAt finalPath tpId l)) = List.map t_path l.
Proof.
  induction l as [| t l IH]; cbn; [reflexivity |].
  destruct (String.eqb (t_path t) finalPath); cbn; [reflexivity |].
  destruct (setIdAt finalPath tpId l) as [l' isFound]. cbn in *. rewrite IH. reflexivity.
Qed.

Lemma setIdAt_notfound finalPath tpId l :
  (forall t, In t l -> t_path t <> finalPath) ->
  setIdAt finalPath tpId l = (l, false).
Proof.
  induction l as [| t l IH]; intros H; cbn; [reflexivity |].
  assert (Ht : String.eqb (t_path t) finalPath = false)
    by (apply String.eqb_neq, H; left; reflexivity).
  rewrite Ht, IH; [reflexivity |]. intros t' Hin. apply H. right. exact Hin.
Qed.

(** The loop stops at the first entry with the path, and changes its id. *)
Lemma setIdAt_found finalPath tpId l (i : nat) t :
  l !! i = Some t ->
  t_path t = finalPath ->
  (forall (j : nat) t', (j < i)%nat -> l !! j = Some t' -> t_path t' <> finalPath) ->
  setIdAt finalPath tpId l
  = (<[i := mkTranslation tpId (t_path t) (t_others t)]> l, true).
Proof.
  revert i. induction l as [| t0 l IH]; intros i Hi Hpath Hfirst; [discriminate Hi |].
  destruct i as [| i]; cbn in Hi |- *.
  - injection Hi as ->. rewrite Hpath, String.eqb_refl. reflexivity.
  - assert (Ht0 : String.eqb (t_path t0) finalPath = false).
    { apply String.eqb_neq. apply (Hfirst 0%nat t0); [lia | reflexivity]. }
    rewrite Ht0, (IH i Hi Hpath); [reflexivity |].
    intros j t' Hj Hl. apply (Hfirst (S j) t'); [lia | exact Hl].
Qed.

Lemma setIdAt_flag finalPath tpId l :
  snd (setIdAt finalPath tpId l) = false -> ~ In finalPath (List.map t_path l).
Proof.
  induction l as [| t l IH]; cbn; [tauto |].
  destruct (String.eqb_spec (t_path t) finalPath) as [Heq | Hne]; cbn; [discriminate |].
  destruct (setIdAt finalPath tpId l) as [l' isFound]. cbn in *.
  intros H [Heq | Hin]; [contradiction | exact (IH H Hin)].
Qed.

Lemma upsert_nodup translations (tp : TranslationPath) :
  List.NoDup (List.map t_path translations) ->
  List.NoDup (List.map t_path (upsert translations tp)).
Proof.
  intros Hnd. unfold upsert.
  pose proof (setIdAt_paths ("./translations/" +:+ resourceName tp) (id tp) translations)
    as Hpaths.
  pose proof (setIdAt_flag ("./translations/" +:+ resourceName tp) (id tp) translations)
    as Hflag.
  destruct (setIdAt ("./translations/" +:+ resourceName tp) (id tp) translations)
    as [translations' isFound].
  cbn in *. destruct isFound.
  - rewrite Hpaths. exact Hnd.
  - rewrite map_app, Hpaths. cbn.
    apply List.NoDup_app; [exact Hnd | repeat constructor; cbn; tauto |].
    intros x Hin [<- | []]. exact (Hflag eq_refl Hin).
Qed.

Lemma reconcile_nodup translations (translationPaths : list TranslationPath) :
  List.NoDup (List.map t_path translations) ->
  List.NoDup (List.map t_path (reconcile translations translationPaths)).
Proof.
  unfold reconcile. revert translations.
  induction translationPaths as [| tp tps IH]; intros translations Hnd; cbn;
    [exact Hnd |].
  apply IH, upsert_nodup, Hnd.
Qed.

Lemma nodup_lookup_first l (i j : nat) t t' :
  List.NoDup (List.map t_path l) ->
  l !! i = Some t -> l !! j = Some t' -> t_path t = t_path t' -> i = j.
Proof.
  revert i j. induction l as [| t0 l IH]; intros i j Hnd Hi Hj Heq; [discriminate Hi |].
  cbn in Hnd. apply List.NoDup_cons_iff in Hnd as [Hnin Hnd].
  assert (Hmem : forall (n : nat) x, l !! n = Some x -> In (t_path x) (List.map t_path l)).
  { intros n x Hx. apply in_map. apply list_elem_of_In.
    apply list_elem_of_lookup. eauto. }
  destruct i as [| i], j as [| j]; cbn in Hi, Hj.
  - reflexivity.
  - injection Hi as ->. exfalso. apply Hnin. rewrite Heq. exact (Hmem j t' Hj).
  - injection Hj as ->. exfalso. apply Hnin. rewrite <- Heq. exact (Hmem i t Hi).
  - f_equal. exact (IH i j Hnd Hi Hj Heq).
Qed.

Lemma setIdAt_others finalPath tpId l :
  List.map t_others (fst (setIdAt finalPath tpId l)) = List.map t_others l.
Proof.
  induction l as [| t l IH]; cbn; [reflexivity |].
  destruct (String.eqb (t_path t) finalPath); cbn; [reflexivity |].
  destruct (setIdAt finalPath tpId l) as [l' isFound]. cbn in *. rewrite IH. reflexivity.
Qed.

Lemma setIdAt_untouched finalPath tpId l t :
  In t l -> t_path t <> finalPath -> In t (fst (setIdAt finalPath tpId l)).
Proof.
  induction l as [| t0 l IH]; cbn; [tauto |].
  intros Hin Hne. destruct (String.eqb_spec (t_path t0) finalPath) as [Heq | Hne0]; cbn.
  - destruct Hin as [-> | Hin]; [contradiction | right; exact Hin].
  - destruct (setIdAt finalPath tpId l) as [l' isFound]. cbn in *.
    destruct Hin as [-> | Hin]; [left; reflexivity | right; auto].
Qed.

Lemma setIdAt_found_path finalPath tpId l :
  snd (setIdAt finalPath tpId l) = true -> In finalPath (List.map t_path l).
Proof.
  induction l as [| t l IH]; cbn; [discriminate |].
  destruct (String.eqb_spec (t_path t) finalPath) as [Heq | Hne]; cbn; [auto |].
  destruct (setIdAt finalPath tpId l) as [l' isFound]. cbn in *. auto.
Qed.

(** One record: the paths and the other properties of the entries stay
    where they are, and at most one entry, without other properties, is
    added at the end. *)
Lemma upsert_step translations (tp : TranslationPath) :
  exists added,
    List.map t_path (upsert translations tp) = List.map t_path translations ++ added
    /\ List.map t_others (upsert translations tp)
       = List.map t_others translations ++ List.map (fun _ => []) added
    /\ (List.length added <= 1)%nat
    /\ In ("./translations/" +:+ resourceName tp) (List.map t_path translations ++ added).
Proof.
  unfold upsert.
  pose proof (setIdAt_paths ("./translations/" +:+ resourceName tp) (id tp) translations)
    as Hpaths.
  pose proof (setIdAt_others ("./translations/" +:+ resourceName tp) (id tp) translations)
    as Hothers.
  pose proof (setIdAt_found_path ("./translations/" +:+ resourceName tp) (id tp) translations)
    as Hfound.
  destruct (setIdAt ("./translations/" +:+ resourceName tp) (id tp) translations)
    as [translations' isFound].
  cbn [fst snd] in *. destruct isFound.
  - exists []. cbn [List.map]. rewrite !app_nil_r. auto.
  - exists ["./translations/" +:+ resourceName tp].
    rewrite !map_app, Hpaths, Hothers. cbn. repeat split; auto.
    apply in_or_app. right. left. reflexivity.
Qed.

Lemma upsert_untouched translations (tp : TranslationPath) t :
  In t translations -> t_path t <> "./translations/" +:+ resourceName tp ->
  In t (upsert translations tp).
Proof.
  intros Hin Hne. unfold upsert.
  pose proof (setIdAt_untouched ("./translations/" +:+ resourceName tp) (id tp)
                translations t Hin Hne) as Hun.
  destruct (setIdAt ("./translations/" +:+ resourceName tp) (id tp) translations)
    as [translations' isFound].
  cbn [fst] in Hun. destruct isFound; [exact Hun | apply in_or_app; left; exact Hun].
Qed.

Lemma reconcile_shape translations (translationPaths : list TranslationPath) :
  exists added,
    List.map t_path (reconcile translations translationPaths)
    = List.map t_path translations ++ added
    /\ List.map t_others (reconcile translations translationPaths)
       = List.map t_others translations ++ List.map (fun _ => []) added
    /\ (List.length added <= List.length translationPaths)%nat
    /\ (forall p, In p added ->
                  exists tp, In tp translationPaths
                             /\ p = "./translations/" +:+ resourceName tp).
Proof.
  unfold reconcile. revert translations.
  induction translationPaths as [| tp tps IH]; intros translations; cbn [fold_left].
  - exists []. cbn. rewrite !app_nil_r. repeat split; auto. intros p [].
  - destruct (IH (upsert translations tp)) as (added2 & Hp2 & Ho2 & Hl2 & Hfrom2).
    destruct (upsert_step translations tp) as (added1 & Hp1 & Ho1 & Hl1 & Hin1).
    exists (added1 ++ added2).
    rewrite Hp2, Ho2, Hp1, Ho1, map_app, !length_app, <- !app_assoc. cbn [List.length].
    repeat split; [lia |].
    intros p Hin. apply in_app_or in Hin as [Hin | Hin].
    + exists tp. split; [left; reflexivity |].
      destruct added1 as [| p1 [| p2 added1]]; [destruct Hin | | cbn in Hl1; lia].
      destruct Hin as [<- | []].
      pose proof (f_equal (@List.length string) Hp1) as Hlen.
      rewrite length_app, !length_map in Hlen. cbn in Hlen.
      unfold upsert in Hp1, Hlen.
      pose proof (setIdAt_paths ("./translations/" +:+ resourceName tp) (id tp)
                    translations) as Hpaths.
      destruct (setIdAt ("./translations/" +:+ resourceName tp) (id tp) translations)
        as [translations' isFound].
      cbn [fst] in Hpaths. destruct isFound.
      * apply (f_equal (@List.length string)) in Hpaths. rewrite !length_map in Hpaths. lia.
      * rewrite map_app, Hpaths in Hp1. apply app_inv_head in Hp1.
        cbn in Hp1. injection Hp1 as <-. reflexivity.
    + destruct (Hfrom2 p Hin) as (tp' & Hin' & ->). exists tp'. split; [right |]; auto.
Qed.

Lemma reconcile_present translations (translationPaths : list TranslationPath) tp :
  In tp translationPaths ->
  In ("./translations/" +:+ resourceName tp)
     (List.map t_path (reconcile translations translationPaths)).
Proof.
  unfold reconcile. revert translations.
  induction translationPaths as [| tp0 tps IH]; intros translations; cbn [fold_left];
    [intros [] |].
  intros [<- | Hin]; [| exact (IH _ Hin)].
  destruct (reconcile_shape (upsert translations tp0) tps) as (added2 & Hp2 & _).
  destruct (upsert_step translations tp0) as (added1 & Hp1 & _ & _ & Hin1).
  unfold reconcile in Hp2. rewrite Hp2, Hp1. apply in_or_app. left. exact Hin1.
Qed.

Lemma reconcile_untouched translations (translationPaths : list TranslationPath) t :
  In t translations ->
  (forall tp, In tp translationPaths ->
              t_path t <> "./translations/" +:+ resourceName tp) ->
  In t (reconcile translations translationPaths).
Proof.
  unfold reconcile. revert translations.
  induction translationPaths as [| tp tps IH]; intros translations Hin Hne;
    cbn [fold_left]; [exact Hin |].
  apply IH.
  - apply upsert_untouched; [exact Hin | apply Hne; left; reflexivity].
  - intros tp' Hin'. apply Hne. right. exact Hin'.
Qed.

Lemma setIdAt_sets finalPath tpId l :
  snd (setIdAt finalPath tpId l) = true ->
  exists t, In t (fst (setIdAt finalPath tpId l)) /\ t_path t = finalPath /\ t_id t = tpId.
Proof.
  induction l as [| t0 l IH]; cbn; [discriminate |].
  destruct (String.eqb_spec (t_path t0) finalPath) as [Heq | Hne]; cbn.
  - intros _. eexists. split; [left; reflexivity |]. cbn. auto.
  - destruct (setIdAt finalPath tpId l) as [l' isFound]. cbn in *.
    intros H. destruct (IH H) as (t & Hin & Ht). exists t. auto.
Qed.

(** After a record is taken, an entry has its path and its id. *)
Lemma upsert_has_id translations (tp : TranslationPath) :
  exists t,
    In t (upsert translations tp)
    /\ t_path t = "./translations/" +:+ resourceName tp
    /\ t_id t = id tp.
Proof.
  unfold upsert.
  pose proof (setIdAt_sets ("./translations/" +:+ resourceName tp) (id tp) translations)
    as Hsets.
  destruct (setIdAt ("./translations/" +:+ resourceName tp) (id tp) translations)
    as [translations' isFound].
  cbn [fst snd] in Hsets. destruct isFound.
  - exact (Hsets eq_refl).
  - eexists. split; [apply in_or_app; right; left; reflexivity |]. cbn. auto.
Qed.

(** After the loop, every record has an entry with its path and its id,
    when no two records have the same resource name. *)
Lemma reconcile_id translations (translationPaths : list TranslationPath) tp :
  List.NoDup (List.map resourceName translationPaths) ->
  In tp translationPaths ->
  exists t,
    In t (reconcile translations translationPaths)
    /\ t_path t = "./translations/" +:+ resourceName tp
    /\ t_id t = id tp.
Proof.
  unfold reconcile. revert translations.
  induction translationPaths as [| tp0 tps IH]; intros translations Hnd; cbn [fold_left];
    [intros [] |].
  cbn [List.map] in Hnd. apply List.NoDup_cons_iff in Hnd as [Hfresh Hnd].
  intros [<- | Hin]; [| exact (IH _ Hnd Hin)].
  destruct (upsert_has_id translations tp0) as (t & Hin & Hpath & Hid).
  exists t. split; [| auto].
  apply (reconcile_untouched (upsert translations tp0) tps t Hin).
  intros tp' Hin' Heq. rewrite Hpath in Heq. apply append_inj_r in Heq.
  apply Hfresh. rewrite Heq. apply in_map. exact Hin'.
Qed.

(** C4. The reconciliation of the translation paths. One record: when its
    path is already in the list, the first entry with that path, which is
    the only one when the paths are pairwise distinct, gets the id of the
    record where it stands, and nothing else changes; for a new path, the
    entry is appended at the end. The loop: every record is taken in its
    turn, on the list that the records before it left; the entries that
    were there keep their place, their path and their other properties, an
    entry whose path no record has is left as it is, at most one entry is
    added for a record, at the end, and afterwards every record has an entry
    with its path, and with its id when the records have different resource
    names. Pairwise distinct paths stay pairwise distinct. *)
Theorem upsert_correctness translations (tp : TranslationPath) :
  (forall (i : nat) t,
      translations !! i = Some t ->
      t_path t = "./translations/" +:+ resourceName tp ->
      (forall (j : nat) t', (j < i)%nat -> translations !! j = Some t' ->
                            t_path t' <> "./translations/" +:+ resourceName tp) ->
      upsert translations tp
      = <[i := mkTranslation (id tp) (t_path t) (t_others t)]> translations)
  /\ (List.NoDup (List.map t_path translations) ->
      forall (i : nat) t,
        translations !! i = Some t ->
        t_path t = "./translations/" +:+ resourceName tp ->
        upsert translations tp
        = <[i := mkTranslation (id tp) (t_path t) (t_others t)]> translations)
  /\ ((forall t, In t translations ->
                 t_path t <> "./translations/" +:+ resourceName tp) ->
      upsert translations tp
      = translations
        ++ [mkTranslation (id tp) ("./translations/" +:+ resourceName tp) []])
  /\ (List.NoDup (List.map t_path translations) ->
      forall translationPaths,
        List.NoDup (List.map t_path (reconcile translations translationPaths)))
  /\ (reconcile translations [] = translations
      /\ forall translationPaths,
          reconcile translations (tp :: translationPaths)
          = reconcile (upsert translations tp) translationPaths)
  /\ (forall translationPaths,
        (exists added,
            List.map t_path (reconcile translations translationPaths)
            = List.map t_path translations ++ added
            /\ List.map t_others (reconcile translations translationPaths)
               = List.map t_others translations ++ List.map (fun _ => []) added
            /\ (List.length added <= List.length translationPaths)%nat
            /\ (forall p, In p added ->
                          exists tp', In tp' translationPaths
                                      /\ p = "./translations/" +:+ resourceName tp'))
        /\ (forall tp', In tp' translationPaths ->
                        In ("./translations/" +:+ resourceName tp')
                           (List.map t_path (reconcile translations translationPaths)))
        /\ (forall t, In t translations ->
                      (forall tp', In tp' translationPaths ->
                                   t_path t <> "./translations/" +:+ resourceName tp') ->
                      In t (reconcile translations translationPaths)))
  /\ (forall translationPaths tp',
        List.NoDup (List.map resourceName translationPaths) ->
        In tp' translationPaths ->
        exists t,
          In t (reconcile translations translationPaths)
          /\ t_path t = "./translations/" +:+ resourceName tp'
          /\ t_id t = id tp').
Proof.
  assert (Hfirst : forall (i : nat) t,
             translations !! i = Some t ->
             t_path t = "./translations/" +:+ resourceName tp ->
             (forall (j : nat) t', (j < i)%nat -> translations !! j = Some t' ->
                                   t_path t' <> "./translations/" +:+ resourceName tp) ->
             upsert translations tp
             = <[i := mkTranslation (id tp) (t_path t) (t_others t)]> translations).
  { intros i t Hi Hpath Hbefore. unfold upsert.
    rewrite (setIdAt_found _ _ _ i t Hi Hpath Hbefore). reflexivity. }
  split; [exact Hfirst | split; [| split; [| split; [| split; [| split]]]]].
  - intros Hnd i t Hi Hpath. apply Hfirst; [exact Hi | exact Hpath |].
    intros j t' Hj Hl Heq.
    assert (i = j) by (apply (nodup_lookup_first translations i j t t' Hnd Hi Hl); congruence).
    lia.
  - intros Hnone. unfold upsert. rewrite (setIdAt_notfound _ _ _ Hnone). reflexivity.
  - intros Hnd translationPaths. apply reconcile_nodup, Hnd.
  - split; [reflexivity | intros translationPaths; reflexivity].
  - intros translationPaths. split; [apply reconcile_shape |].
    split; [intros tp'; apply reconcile_present | intros t; apply reconcile_untouched].
  - intros translationPaths tp'. apply reconcile_id.
Qed.

Lemma upsert_correctness_witness :
  upsert Samples.sampleTranslations
    (mkTranslationPath "vscode.git" "extensions/git.i18n.json")
  = <[1%nat := mkTranslation "vscode.git" "./translations/extensions/git.i18n.json"
                 [("note", "kept")]]> Samples.sampleTranslations
  /\ upsert Samples.sampleTranslations
       (mkTranslationPath "vscode.git" "extensions/git.i18n.json")
     = <[1%nat := mkTranslation "vscode.git" "./translations/extensions/git.i18n.json"
                    [("note", "kept")]]> Samples.sampleTranslations
  /\ upsert Samples.sampleTranslations
       (mkTranslationPath "Microsoft.notebook" "extensions/notebook.i18n.json")
     = Samples.sampleTranslations
       ++ [mkTranslation "Microsoft.notebook"
             "./translations/extensions/notebook.i18n.json" []]
  /\ List.NoDup
       (List.map t_path
          (reconcile Samples.sampleTranslations
             [mkTranslationPath "vscode.git" "extensions/git.i18n.json";
              mkTranslationPath "Microsoft.notebook" "extensions/notebook.i18n.json"]))
  /\ exists t,
       In t (reconcile Samples.sampleTranslations
               [mkTranslationPath "vscode.git" "extensions/git.i18n.json";
                mkTranslationPath "Microsoft.notebook" "extensions/notebook.i18n.json"])
       /\ t_path t = "./translations/extensions/notebook.i18n.json"
       /\ t_id t = "Microsoft.notebook".
Proof.
  assert (Hnd : List.NoDup (List.map t_path Samples.sampleTranslations))
    by (repeat constructor; cbn; intuition discriminate).
  split; [| split; [| split; [| split]]].
  - apply (proj1 (upsert_correctness Samples.sampleTranslations
                    (mkTranslationPath "vscode.git" "extensions/git.i18n.json"))
             1%nat (mkTranslation "old.git" "./translations/extensions/git.i18n.json"
                      [("note", "kept")]));
      [reflexivity | reflexivity |].
    intros [| j] t' Hj Hl; [| lia]. injection Hl as <-. discriminate.
  - apply (proj1 (proj2 (upsert_correctness Samples.sampleTranslations
                           (mkTranslationPath "vscode.git" "extensions/git.i18n.json")))
             Hnd 1%nat (mkTranslation "old.git" "./translations/extensions/git.i18n.json"
                          [("note", "kept")]));
      reflexivity.
  - apply (proj1 (proj2 (proj2 (upsert_correctness Samples.sampleTranslations
                                  (mkTranslationPath "Microsoft.notebook"
                                     "extensions/notebook.i18n.json"))))).
    intros t [<- | [<- | []]]; discriminate.
  - apply (proj1 (proj2 (proj2 (proj2 (upsert_correctness Samples.sampleTranslations
                                         (mkTranslationPath "vscode.git"
                                            "extensions/git.i18n.json"))))) Hnd).
  - apply (proj2 (proj2 (proj2 (proj2 (proj2 (proj2
             (upsert_correctness Samples.sampleTranslations
                (mkTranslationPath "vscode.git" "extensions/git.i18n.json")))))))
             [mkTranslationPath "vscode.git" "extensions/git.i18n.json";
              mkTranslationPath "Microsoft.notebook" "extensions/notebook.i18n.json"]
             (mkTranslationPath "Microsoft.notebook" "extensions/notebook.i18n.json")).
    + repeat constructor; cbn; intuition discriminate.
    + right. left. reflexivity.
Defined.

End Upsert.

(** ** A merge that fails *)

Section MergeFailure.
Import JsObject Json LocFunc.
Variables i18nPackVersion processPlatform : string.

Lemma errors_route resource (st st' : Packs) (file : ParsedXLF) :
  route i18nPackVersion resource st file = Ok st' -> errors st' = errors st.
Proof.
  unfold route. destruct (negb (String.eqb resource "sql")).
  - destruct (get resource (extensionsPacks st)) as [extPack |];
      [| destruct (inherited resource); [discriminate |]]; intros [= <-]; reflexivity.
  - intros [= <-]. reflexivity.
Qed.

(** The routing throws nothing but the error of the assignment. *)
Lemma route_throws resource (st : Packs) (file : ParsedXLF) reason :
  route i18nPackVersion resource st file = Throw reason -> reason = TypeError.
Proof.
  unfold route. destruct (negb (String.eqb resource "sql")); [| discriminate].
  destruct (get resource (extensionsPacks st)) as [extPack |]; [discriminate |].
  destruct (inherited resource); [| discriminate]. intros [= <-]. reflexivity.
Qed.

Lemma errors_forEach resource (files : list ParsedXLF) (st : Packs) :
  errors (fst (forEach i18nPackVersion resource files st)) = errors st.
Proof.
  revert st. induction files as [| file files IH]; intros st; cbn [forEach];
    [reflexivity |].
  destruct (route i18nPackVersion resource st file) as [st' |] eqn:Hroute;
    [| reflexivity].
  rewrite IH. exact (errors_route _ _ _ _ Hroute).
Qed.

Lemma forEach_throws resource (files : list ParsedXLF) (st : Packs) reason :
  snd (forEach i18nPackVersion resource files st) = Some reason -> reason = TypeError.
Proof.
  revert st. induction files as [| file files IH]; intros st; cbn [forEach];
    [discriminate |].
  destruct (route i18nPackVersion resource st file) as [st' | r] eqn:Hroute;
    [apply IH |].
  intros [= <-]. exact (route_throws _ _ _ _ Hroute).
Qed.

(** What one XLF file adds to the array [errors]: the reason of its parse
    when it was rejected, what the routing threw when it was resolved. *)
Lemma errors_through_one (st : Packs) (xlf : XlfFile) :
  errors (through i18nPackVersion st xlf)
  = errors st
    ++ match parsed xlf with
       | Ok resolvedFiles =>
           match snd (forEach i18nPackVersion (resourceOf xlf) resolvedFiles st) with
           | Some reason => [reason]
           | None => []
           end
       | Throw reason => [reason]
       end.
Proof.
  unfold through. destruct (parsed xlf) as [files | reason]; [| reflexivity].
  pose proof (errors_forEach (resourceOf xlf) files st) as Herr.
  destruct (forEach i18nPackVersion (resourceOf xlf) files st) as [st' [reason |]];
    cbn [fst snd pushError errors] in *; rewrite Herr, ?app_nil_r; reflexivity.
Qed.

(** The array [errors] only grows. *)
Lemma errors_through (xlfs : list XlfFile) (st : Packs) :
  exists more, errors (fold_left (through i18nPackVersion) xlfs st) = errors st ++ more.
Proof.
  revert st. induction xlfs as [| xlf xlfs IH]; intros st; cbn [fold_left].
  - exists []. rewrite app_nil_r. reflexivity.
  - destruct (IH (through i18nPackVersion st xlf)) as [more ->].
    rewrite errors_through_one, <- app_assoc. eauto.
Qed.

(** The reason of a rejected parse is in the array [errors]. *)
Lemma errors_rejected (xlfs : list XlfFile) (st : Packs) (xlf : XlfFile) reason :
  In xlf xlfs -> parsed xlf = Throw reason ->
  In reason (errors (fold_left (through i18nPackVersion) xlfs st)).
Proof.
  revert st. induction xlfs as [| x xlfs IH]; intros st; [intros [] |].
  cbn [fold_left]. intros [<- | Hin] Hx; [| exact (IH _ Hin Hx)].
  destruct (errors_through xlfs (through i18nPackVersion st x)) as [more ->].
  rewrite errors_through_one, Hx. apply in_or_app. left. apply in_or_app. right.
  left. reflexivity.
Qed.

(** When every parse resolved, the array [errors] gets nothing but what
    the routing threw. *)
Lemma errors_resolved (xlfs : list XlfFile) (st : Packs) :
  Forall (fun x => is_ok (parsed x) = true) xlfs ->
  exists more,
    errors (fold_left (through i18nPackVersion) xlfs st) = errors st ++ more
    /\ Forall (fun reason => reason = TypeError) more.
Proof.
  intros Hall. revert st. induction Hall as [| x xlfs Hx _ IH]; intros st; cbn [fold_left].
  - exists []. rewrite app_nil_r. auto.
  - destruct (IH (through i18nPackVersion st x)) as (more & -> & Hmore).
    rewrite errors_through_one. destruct (parsed x) as [files | reason];
      [| discriminate Hx].
    destruct (snd (forEach i18nPackVersion (resourceOf x) files st)) as [reason |] eqn:Hsnd.
    + exists (reason :: more). rewrite <- app_assoc. split; [reflexivity |].
      constructor; [exact (forEach_throws _ _ _ _ Hsnd) | exact Hmore].
    + exists more. rewrite app_nil_r. auto.
Qed.

Lemma flush_errors (fs : FS) folder tps (xlfs : list XlfFile) (st : Packs) :
  errors st <> [] ->
  exists reason,
    flush processPlatform fs folder tps xlfs st = ErrorEvent reason.
Proof.
  intros Herr. unfold flush.
  destruct (firstRejection xlfs) as [reason |]; [eauto |].
  destruct (errors st) as [| e es]; [contradiction |]. cbn. eauto.
Qed.

Lemma onEnd_undefined (fs : FS) locExtFolder translationDataFolder
    (packageJSON : PackageJSON) (i : nat) :
  onEnd fs locExtFolder translationDataFolder packageJSON i None = (packageJSON, fs).
Proof. reflexivity. Qed.

(** C5. When a parse of the batch fails, the array of the errors is not
    empty once the parses are settled, the stream gives an error and queues
    no file, and the pipeline of that localization changes neither the
    descriptor nor anything else on disk: the entries are not pruned, no
    translation path is added, and [package.json] is not written. *)
Theorem merge_failure_atomic (fs : FS) (locExtFolder : string)
    (packageJSON : PackageJSON) (i : nat) (xlfs : list XlfFile) :
  (exists xlf, In xlf xlfs /\ is_throw (parsed xlf) = true) ->
  errors (fold_left (through i18nPackVersion) xlfs (initialPacks i18nPackVersion)) <> []
  /\ (forall folder tps,
        (exists reason,
            modifyI18nPackFiles i18nPackVersion processPlatform fs folder tps xlfs
            = ErrorEvent reason)
        /\ queuedFiles
             (modifyI18nPackFiles i18nPackVersion processPlatform fs folder tps xlfs)
           = [])
  /\ (forall folder tps st,
        errors st <> [] ->
        queuedFiles (flush processPlatform fs folder tps xlfs st) = [])
  /\ importTranslations i18nPackVersion processPlatform fs locExtFolder packageJSON i xlfs
     = (packageJSON, fs)
  /\ fs !! NodePath.join [locExtFolder; "package.json"]
     = (snd (importTranslations i18nPackVersion processPlatform fs locExtFolder
               packageJSON i xlfs))
       !! NodePath.join [locExtFolder; "package.json"].
Proof.
  intros Hfail.
  assert (Herrors :
    errors (fold_left (through i18nPackVersion) xlfs (initialPacks i18nPackVersion)) <> []).
  { destruct Hfail as (xlf & Hin & Hthrow).
    destruct (parsed xlf) as [files | reason] eqn:Hxlf; [discriminate Hthrow |].
    pose proof (errors_rejected xlfs (initialPacks i18nPackVersion) xlf reason Hin Hxlf)
      as Hreason.
    intros Hnil. rewrite Hnil in Hreason. destruct Hreason. }
  assert (Hstream : forall folder tps,
    exists reason,
      modifyI18nPackFiles i18nPackVersion processPlatform fs folder tps xlfs
      = ErrorEvent reason).
  { intros folder tps. unfold modifyI18nPackFiles. apply flush_errors, Herrors. }
  assert (Himport :
    importTranslations i18nPackVersion processPlatform fs locExtFolder packageJSON i xlfs
    = (packageJSON, fs)).
  { unfold importTranslations.
    destruct (Hstream (NodePath.join [locExtFolder; "translations"]) []) as [reason ->].
    apply onEnd_undefined. }
  split; [exact Herrors |].
  split; [| split; [| split]].
  - intros folder tps. split; [apply Hstream |].
    destruct (Hstream folder tps) as [reason ->]. reflexivity.
  - intros folder tps st Hst.
    destruct (flush_errors fs folder tps xlfs st Hst) as [reason ->]. reflexivity.
  - exact Himport.
  - rewrite Himport. reflexivity.
Qed.

End MergeFailure.

Lemma merge_failure_atomic_witness :
  LocFunc.errors (fold_left (LocFunc.through "1.0.0") Samples.failingBatch (LocFunc.initialPacks "1.0.0"))
  <> []
  /\ (forall folder tps,
        (exists reason,
            LocFunc.modifyI18nPackFiles "1.0.0" "win32" Samples.sampleFs folder tps
              Samples.failingBatch
            = LocFunc.ErrorEvent reason)
        /\ LocFunc.queuedFiles
             (LocFunc.modifyI18nPackFiles "1.0.0" "win32" Samples.sampleFs folder tps
                Samples.failingBatch)
           = [])
  /\ (forall folder tps st,
        LocFunc.errors st <> [] ->
        LocFunc.queuedFiles
          (LocFunc.flush "win32" Samples.sampleFs folder tps Samples.failingBatch st) = [])
  /\ LocFunc.importTranslations "1.0.0" "win32" Samples.sampleFs
       "i18n/ads-language-pack-de" Samples.samplePackageJSON 0 Samples.failingBatch
     = (Samples.samplePackageJSON, Samples.sampleFs)
  /\ Samples.sampleFs !! NodePath.join ["i18n/ads-language-pack-de"; "package.json"]
     = (snd (LocFunc.importTranslations "1.0.0" "win32" Samples.sampleFs
               "i18n/ads-language-pack-de" Samples.samplePackageJSON 0
               Samples.failingBatch))
       !! NodePath.join ["i18n/ads-language-pack-de"; "package.json"].
Proof.
  apply (merge_failure_atomic "1.0.0" "win32" Samples.sampleFs
           "i18n/ads-language-pack-de" Samples.samplePackageJSON 0 Samples.failingBatch).
  exists (LocFunc.mkXlfFile "de/git.de.xlf"
            (Throw (LocFunc.ParseFailure "XLF parsing error: Failed to parse XLIFF string."))).
  split; [right; left; reflexivity | reflexivity].
Defined.

(** ** Paths that are joined *)

Section Paths.
Import JsString Json NodePath.
#[local] Arguments String.append !s1 s2 : simpl nomatch.

Lemma plain_cons (c : ascii) (a : string) :
  plain (String c a) -> c <> "/"%char /\ plain a.
Proof.
  unfold plain. cbn [segments].
  destruct (Ascii.eqb_spec c "/") as [-> | Hc]; cbv iota; [discriminate |].
  pose proof (segments_nonempty a) as Hne.
  destruct (segments a) as [| h r]; [contradiction |].
  intros [= -> ->]. auto.
Qed.

Lemma segments_plain (s seg : string) : In seg (segments s) -> plain seg.
Proof.
  revert seg. induction s as [| c s IH]; intros seg; cbn [segments].
  - intros [<- | []]. reflexivity.
  - destruct (Ascii.eqb_spec c "/") as [-> | Hc]; cbv iota.
    + intros [<- | Hin]; [reflexivity | exact (IH seg Hin)].
    + pose proof (segments_nonempty s) as Hne.
      destruct (segments s) as [| h r]; [contradiction |].
      intros [<- | Hin]; [| apply IH; right; exact Hin].
      unfold plain. cbn [segments]. apply Ascii.eqb_neq in Hc. rewrite Hc.
      rewrite (IH h (or_introl eq_refl)). reflexivity.
Qed.

Lemma segments_app_slash (a s : string) :
  plain a -> segments (a +:+ String "/" s) = a :: segments s.
Proof.
  induction a as [| c a IH]; intros Ha; [reflexivity |].
  apply plain_cons in Ha as [Hc Ha]. cbn [String.append segments].
  apply Ascii.eqb_neq in Hc. rewrite Hc, (IH Ha). reflexivity.
Qed.

Lemma segments_joinWith (l : list string) :
  l <> [] -> Forall plain l -> segments (joinWith "/" l) = l.
Proof.
  induction l as [| x [| y l] IH]; intros Hne Hall; [contradiction | |].
  - apply Forall_inv in Hall. exact Hall.
  - change (joinWith "/" (x :: y :: l)) with (x +:+ String "/" (joinWith "/" (y :: l))).
    rewrite segments_app_slash by (apply Forall_inv in Hall; exact Hall).
    rewrite IH; [reflexivity | discriminate | apply Forall_inv_tail in Hall; exact Hall].
Qed.

Lemma properSegments_plain (parts : list string) : Forall plain (properSegments parts).
Proof.
  unfold properSegments. apply List.Forall_forall. intros seg Hin.
  apply filter_In in Hin as [Hin _]. apply in_concat in Hin as (l & Hl & Hin).
  apply in_map_iff in Hl as (s & <- & _). exact (segments_plain s seg Hin).
Qed.

Lemma filter_idem {A} (f : A -> bool) (l : list A) :
  List.filter f (List.filter f l) = List.filter f l.
Proof.
  induction l as [| x l IH]; cbn; [reflexivity |].
  destruct (f x) eqn:Hx; cbn; rewrite ?Hx, IH; reflexivity.
Qed.

(** Joining a joined path with more parts joins all the parts. *)
Lemma properSegments_join (parts more : list string) :
  properSegments (join parts :: more) = properSegments parts ++ properSegments more.
Proof.
  unfold properSegments at 1. cbn [List.map List.concat].
  rewrite List.filter_app. fold (properSegments more). f_equal.
  unfold join. pose proof (properSegments_plain parts) as Hplain.
  destruct (properSegments parts) as [| seg segs] eqn:Hsegs; [reflexivity |].
  rewrite segments_joinWith by (discriminate || exact Hplain).
  rewrite <- Hsegs. apply filter_idem.
Qed.

Lemma joinWith_snoc (l : list string) (x : string) :
  l <> [] -> joinWith "/" (l ++ [x]) = joinWith "/" l +:+ "/" +:+ x.
Proof.
  induction l as [| y [| z l] IH]; intros Hne; [contradiction | reflexivity |].
  change (joinWith "/" ((y :: z :: l) ++ [x]))
    with (y +:+ "/" +:+ joinWith "/" ((z :: l) ++ [x])).
  rewrite IH by discriminate.
  change (joinWith "/" (y :: z :: l)) with (y +:+ "/" +:+ joinWith "/" (z :: l)).
  rewrite !append_assoc. reflexivity.
Qed.

End Paths.

(** ** The files of the sibling language pack *)

Section Pruning.
Import JsString Json NodePath LocFunc.
#[local] Arguments String.append !s1 s2 : simpl nomatch.
Implicit Types (fs : FS) (p q k : string).

Lemma existsSync_iff fs p :
  existsSync fs p = true <-> exists k, is_Some (fs !! k) /\ (k = p \/ below p k = true).
Proof.
  unfold existsSync. rewrite orb_true_iff, !bool_decide_eq_true, Exists_exists. split.
  - intros [Hp | (k & Hk & Hbelow)]; [exists p; auto |].
    exists k. split; [| auto].
    apply list_elem_of_In, in_map_iff in Hk as ([k' x] & <- & Hin).
    apply list_elem_of_In, elem_of_map_to_list in Hin. cbn. eauto.
  - intros (k & [x Hx] & [-> | Hbelow]); [left; eauto |].
    right. exists k. split; [| exact Hbelow].
    apply list_elem_of_In, in_map_iff. exists (k, x). split; [reflexivity |].
    apply list_elem_of_In, elem_of_map_to_list. exact Hx.
Qed.

Lemma lookup_rimraf_gone fs p k : k = p \/ below p k = true -> rimraf fs p !! k = None.
Proof.
  intros Hk. unfold rimraf. apply map_lookup_filter_None. right.
  intros x _ [Hne Hbelow]. cbn in *. destruct Hk; congruence.
Qed.

Lemma lookup_rimraf_other fs p k :
  k <> p -> below p k = false -> rimraf fs p !! k = fs !! k.
Proof.
  intros Hne Hbelow. unfold rimraf.
  destruct (fs !! k) as [x |] eqn:Hk.
  - apply map_lookup_filter_Some. auto.
  - apply map_lookup_filter_None. auto.
Qed.

Lemma rimraf_subseteq fs p : rimraf fs p ⊆ fs.
Proof. apply map_filter_subseteq. Qed.

Lemma existsSync_mono fs fs' p :
  fs ⊆ fs' -> existsSync fs p = true -> existsSync fs' p = true.
Proof.
  intros Hsub. rewrite !existsSync_iff. intros (k & [x Hx] & Hk).
  exists k. split; [| exact Hk]. exists x. exact (lookup_weaken _ _ _ _ Hx Hsub).
Qed.

Lemma existsSync_rimraf fs p : existsSync (rimraf fs p) p = false.
Proof.
  apply not_true_is_false. rewrite existsSync_iff. intros (k & [x Hx] & Hk).
  rewrite (lookup_rimraf_gone fs p k Hk) in Hx. discriminate Hx.
Qed.

Lemma existsSync_lookup fs p : existsSync fs p = false -> fs !! p = None.
Proof.
  intros H. destruct (fs !! p) as [x |] eqn:Hp; [| reflexivity].
  assert (existsSync fs p = true) by (apply existsSync_iff; exists p; eauto).
  congruence.
Qed.

Lemma pruneStep_subseteq langId fs n : pruneStep langId fs n ⊆ fs.
Proof.
  unfold pruneStep. destruct (negb (kept fs langId n)); [apply rimraf_subseteq | reflexivity].
Qed.

Lemma pruneLoop_subseteq langId names fs : fold_left (pruneStep langId) names fs ⊆ fs.
Proof.
  revert fs. induction names as [| n names IH]; intros fs; cbn; [reflexivity |].
  etrans; [apply IH | apply pruneStep_subseteq].
Qed.

Lemma kept_mono langId fs fs' n :
  fs ⊆ fs' -> kept fs langId n = true -> kept fs' langId n = true.
Proof.
  intros Hsub. unfold kept. rewrite !orb_true_iff.
  intros [Hx | Hl]; [left; exact (existsSync_mono _ _ _ Hsub Hx) | right; exact Hl].
Qed.

(** A file that has neither reason to stay is gone after the loop. *)
Lemma pruneLoop_deleted langId names fs n :
  In n names -> kept fs langId n = false ->
  existsSync (fold_left (pruneStep langId) names fs) (extensionFilePath langId n) = false.
Proof.
  revert fs. induction names as [| n0 names IH]; intros fs Hin Hkept; [destruct Hin |].
  cbn [fold_left]. destruct Hin as [-> | Hin].
  - apply not_true_is_false. intros Hex.
    apply (existsSync_mono _ _ _ (pruneLoop_subseteq langId names _)) in Hex.
    unfold pruneStep in Hex. rewrite Hkept in Hex. cbn in Hex.
    rewrite existsSync_rimraf in Hex. discriminate Hex.
  - apply IH; [exact Hin |]. apply not_true_is_false. intros Hk.
    apply (kept_mono _ _ _ _ (pruneStep_subseteq langId fs n0)) in Hk. congruence.
Qed.

Lemma startsWith_cons k (c : ascii) p :
  startsWith k (String c p) = true -> exists k0, k = String c k0 /\ startsWith k0 p = true.
Proof.
  destruct k as [| b k0]; cbn; [discriminate |].
  intros H. apply andb_prop in H as [Hc Hp]. apply Ascii.eqb_eq in Hc as ->. eauto.
Qed.

Lemma startsWith_inv k p : startsWith k p = true -> exists rest, k = p +:+ rest.
Proof.
  revert k. induction p as [| c p IH]; intros k H; [exists k; reflexivity |].
  apply startsWith_cons in H as (k0 & -> & H). destruct (IH k0 H) as [rest ->].
  exists rest. reflexivity.
Qed.

Lemma startsWith_app (a k p : string) : startsWith (a +:+ k) (a +:+ p) = startsWith k p.
Proof.
  induction a as [| c a IH]; [reflexivity |].
  cbn [String.append startsWith]. rewrite Ascii.eqb_refl, IH. reflexivity.
Qed.

Lemma startsWith_refl_app (a k : string) : startsWith (a +:+ k) a = true.
Proof.
  induction a as [| c a IH]; [reflexivity |].
  cbn [String.append startsWith]. rewrite Ascii.eqb_refl, IH. reflexivity.
Qed.

(** Two paths that start with different letters have nothing in common. *)
Lemma heads_apart p q k :
  startsWith p "i" = true -> startsWith q "r" = true ->
  (k = q \/ below q k = true) -> (k = p \/ below p k = true) -> False.
Proof.
  intros Hp Hq Hkq Hkp.
  apply startsWith_cons in Hp as (p0 & -> & _).
  apply startsWith_cons in Hq as (q0 & -> & _).
  assert (Hr : exists k0, k = String "r" k0).
  { destruct Hkq as [-> | Hb]; [eauto |].
    unfold below in Hb. cbn [String.append] in Hb.
    apply startsWith_cons in Hb as (k0 & -> & _). eauto. }
  destruct Hr as [k0 ->].
  destruct Hkp as [Heq | Hb]; [discriminate Heq |].
  unfold below in Hb. cbn [String.append] in Hb.
  apply startsWith_cons in Hb as (k1 & Heq & _). discriminate Heq.
Qed.

Lemma existsSync_rimraf_apart fs p q :
  startsWith p "i" = true -> startsWith q "r" = true ->
  existsSync (rimraf fs p) q = existsSync fs q.
Proof.
  intros Hp Hq. apply eq_true_iff_eq. split.
  - apply existsSync_mono, rimraf_subseteq.
  - rewrite !existsSync_iff. intros (k & Hk & Hkq). exists k. split; [| exact Hkq].
    rewrite lookup_rimraf_other; [exact Hk | |].
    + intros ->. exact (heads_apart p q p Hp Hq Hkq (or_introl eq_refl)).
    + apply not_true_is_false. intros Hb.
      exact (heads_apart p q k Hp Hq Hkq (or_intror Hb)).
Qed.

Lemma properSegments_cons_entry (n : string) (more : list string) :
  entryName n -> properSegments (n :: more) = n :: properSegments more.
Proof.
  intros [Hplain Hproper]. unfold properSegments. cbn [List.map List.concat].
  rewrite Hplain. cbn [app List.filter]. rewrite Hproper. reflexivity.
Qed.

(** The folders of the language pack, as lists of segments. *)
Lemma translationFolderOf_segments langId :
  exists segs,
    (forall more,
        properSegments (translationFolderOf langId :: more)
        = ("i18n" :: segs) ++ properSegments more)
    /\ translationFolderOf langId = joinWith "/" ("i18n" :: segs).
Proof.
  unfold translationFolderOf.
  exists (properSegments ["vscode-language-pack-" +:+ langId] ++ ["translations"]).
  assert (Hsegs : properSegments [join ["."; "i18n"; "vscode-language-pack-" +:+ langId];
                                  "translations"]
                  = "i18n" :: properSegments ["vscode-language-pack-" +:+ langId]
                            ++ ["translations"]).
  { rewrite properSegments_join. reflexivity. }
  split.
  - intros more. rewrite properSegments_join, Hsegs. reflexivity.
  - unfold join at 1. rewrite Hsegs. reflexivity.
Qed.

(** The path of an extension file is the folder of the translations,
    [extensions] and the name of the file. *)
Lemma extensionFilePath_eq langId n :
  entryName n ->
  extensionFilePath langId n = translationFolderOf langId +:+ "/extensions/" +:+ n.
Proof.
  intros Hn. destruct (translationFolderOf_segments langId) as (segs & Hsegs & Hfolder).
  unfold extensionFilePath, join. rewrite Hsegs.
  change (properSegments ["extensions"; n]) with (properSegments ("extensions" :: [n])).
  assert (Hext : properSegments ("extensions" :: [n]) = ["extensions"; n]).
  { unfold properSegments. cbn [List.map List.concat].
    destruct Hn as [Hplain Hproper]. rewrite Hplain. cbn. rewrite Hproper. reflexivity. }
  rewrite Hext, Hfolder. cbn [app].
  replace ("i18n" :: segs ++ ["extensions"; n])
    with ((("i18n" :: segs) ++ ["extensions"]) ++ [n])
    by (rewrite <- app_assoc; reflexivity).
  rewrite !joinWith_snoc by discriminate.
  rewrite !append_assoc. reflexivity.
Qed.

Lemma translationFolderOf_head langId : startsWith (translationFolderOf langId) "i" = true.
Proof.
  destruct (translationFolderOf_segments langId) as (segs & _ & ->).
  destruct segs; reflexivity.
Qed.

Lemma extensionFilePath_head langId n :
  entryName n -> startsWith (extensionFilePath langId n) "i" = true.
Proof.
  intros Hn. rewrite extensionFilePath_eq by exact Hn.
  pose proof (translationFolderOf_head langId) as H.
  apply startsWith_cons in H as (k0 & -> & _). reflexivity.
Qed.

Lemma xlfPathOf_head langId n : startsWith (xlfPathOf langId n) "r" = true.
Proof.
  unfold xlfPathOf, join at 1. rewrite properSegments_join.
  change (properSegments ["."; "resources"; "xlf"]) with ["resources"; "xlf"].
  reflexivity.
Qed.

Lemma kept_pruneStep langId fs n' n :
  entryName n' -> kept (pruneStep langId fs n') langId n = kept fs langId n.
Proof.
  intros Hn'. unfold pruneStep. destruct (negb (kept fs langId n')); [| reflexivity].
  unfold kept. f_equal.
  apply existsSync_rimraf_apart;
    [apply extensionFilePath_head, Hn' | apply xlfPathOf_head].
Qed.

Lemma lookup_pruneStep_other langId fs n' n :
  entryName n -> entryName n' -> n' <> n ->
  pruneStep langId fs n' !! extensionFilePath langId n
  = fs !! extensionFilePath langId n.
Proof.
  intros Hn Hn' Hne. unfold pruneStep.
  destruct (negb (kept fs langId n')); [| reflexivity].
  rewrite !extensionFilePath_eq by assumption.
  apply lookup_rimraf_other.
  - intros Heq. apply append_inj_r, append_inj_r in Heq. congruence.
  - unfold below. rewrite !append_assoc, !startsWith_app.
    apply not_true_is_false. intros Hstart.
    apply startsWith_inv in Hstart as [rest ->].
    destruct Hn as [Hplain _], Hn' as [Hplain' _]. unfold plain in Hplain.
    rewrite append_assoc in Hplain.
    change ("/" +:+ rest) with (String "/" rest) in Hplain.
    rewrite segments_app_slash in Hplain by exact Hplain'.
    pose proof (segments_nonempty rest) as Hrest.
    destruct (segments rest); [contradiction | discriminate Hplain].
Qed.

(** A file that has a reason to stay is as before after the loop. *)
Lemma pruneLoop_kept langId names fs n :
  Forall entryName names -> entryName n -> kept fs langId n = true ->
  fold_left (pruneStep langId) names fs !! extensionFilePath langId n
  = fs !! extensionFilePath langId n.
Proof.
  intros Hnames Hn. revert fs.
  induction names as [| n0 names IH]; intros fs Hkept; [reflexivity |].
  cbn [fold_left]. pose proof (Forall_inv Hnames) as Hn0.
  rewrite IH.
  - destruct (String.eqb_spec n0 n) as [-> | Hne].
    + unfold pruneStep. rewrite Hkept. reflexivity.
    + apply lookup_pruneStep_other; assumption.
  - exact (Forall_inv_tail Hnames).
  - rewrite kept_pruneStep by exact Hn0. exact Hkept.
Qed.

Lemma arrayIndexOf_In (x : string) (l : list string) (pos : Z) :
  0 <= pos -> (arrayIndexOf x l pos =? -1) = false <-> In x l.
Proof.
  revert pos. induction l as [| y l IH]; intros pos Hpos; cbn.
  - split; [discriminate | tauto].
  - destruct (String.eqb_spec y x) as [-> | Hne].
    + split; [auto | intros _; apply Z.eqb_neq; lia].
    + rewrite IH by lia. split; [auto | intros [? | ?]; [contradiction | assumption]].
Qed.

(** C8. The XLF source of an extension is not what the loop looks for.
    The import reads the sources as [<resource>.<lang>.xlf], and
    [git.de.xlf] is the source of [git] for [de]; the loop looks for
    [<short name>.xlf], here [resources/xlf/de/git.xlf], finds nothing, and
    deletes [vscode.git.i18n.json], which is not on the list of the included
    extensions, although its source exists. With a file of the name that
    the loop looks for, or with a short name that is on the list, the file
    stays. *)
Theorem xlf_source_not_found :
  resourceOf (mkXlfFile "de/git.de.xlf" (Ok [])) = "git"
  /\ existsSync Samples.sourceFs "resources/xlf/de/git.de.xlf" = true
  /\ shortName "vscode.git.i18n.json" = "git.i18n.json"
  /\ xlfPathOf "de" "vscode.git.i18n.json" = "resources/xlf/de/git.xlf"
  /\ existsSync Samples.sourceFs (xlfPathOf "de" "vscode.git.i18n.json") = false
  /\ ~ In "git" VSCODEExtensions
  /\ kept Samples.sourceFs "de" "vscode.git.i18n.json" = false
  /\ is_Some (Samples.sourceFs !! extensionFilePath "de" "vscode.git.i18n.json")
  /\ pruneExtensionFiles Samples.sourceFs "de" ["vscode.bat.i18n.json"; "vscode.git.i18n.json"]
       !! extensionFilePath "de" "vscode.git.i18n.json"
     = None
  /\ pruneExtensionFiles Samples.sourceFs "de" ["vscode.bat.i18n.json"; "vscode.git.i18n.json"]
       !! extensionFilePath "de" "vscode.bat.i18n.json"
     = Samples.sourceFs !! extensionFilePath "de" "vscode.bat.i18n.json"
  /\ existsSync Samples.siblingFs "resources/xlf/de/git.xlf" = true
  /\ pruneExtensionFiles Samples.siblingFs "de" Samples.siblingExtensions
       !! extensionFilePath "de" "vscode.git.i18n.json"
     = Samples.siblingFs !! extensionFilePath "de" "vscode.git.i18n.json".
Proof.
  split; [reflexivity |]. split; [vm_compute; reflexivity |].
  split; [reflexivity |]. split; [reflexivity |]. split; [vm_compute; reflexivity |].
  split; [cbn; intuition discriminate |].
  repeat split; try (vm_compute; reflexivity). eexists. vm_compute. reflexivity.
Qed.

End Pruning.

(** ** The functions on the sample inputs *)

Section Examples.
Import JsString JsObject Json NodePath LocFunc CreateAsset.

Example getRealType_examples :
  getRealType "user-setup" = "setup"
  /\ getRealType "deb-package" = "package"
  /\ getRealType "rpm-package" = "package"
  /\ getRealType "archive" = "archive".
Proof. repeat split. Qed.

(** The own-property order: the array indices first, then the other names
    as they were created. *)
Example set_order :
  keys (set "2" 1%nat (set "b" 2%nat (set "10" 3%nat (set "a" 4%nat (set "01" 5%nat [])))))
  = ["2"; "10"; "01"; "a"; "b"].
Proof. reflexivity. Qed.

Example resourceOf_examples :
  resourceOf (mkXlfFile "de/sql.de.xlf" (Ok [])) = "sql"
  /\ resourceOf (mkXlfFile "de/git-base.de.xlf" (Ok [])) = "git-base".
Proof. split; reflexivity. Qed.

Example shortName_examples :
  shortName "vscode.git.i18n.json" = "git.i18n.json"
  /\ shortName "ms-vscode.js-debug.i18n.json" = "js-debug.i18n.json"
  /\ xlfPathOf "de" "vscode.git.i18n.json" = "resources/xlf/de/git.xlf"
  /\ extensionFilePath "de" "vscode.git.i18n.json"
     = "i18n/vscode-language-pack-de/translations/extensions/vscode.git.i18n.json".
Proof. repeat split. Qed.

Example kept_examples :
  List.map (kept Samples.siblingFs "de") Samples.siblingExtensions = [true; true; false].
Proof. vm_compute. reflexivity. Qed.

(** A batch without failure: the catalogs are written, the entry of the
    extension gets the new id where it stands, and [package.json] is
    written. *)
Example importTranslations_success :
  let batch := [mkXlfFile "de/sql.de.xlf" (Ok [Samples.sqlFile]);
                mkXlfFile "de/git.de.xlf" (Ok [Samples.gitFile])] in
  let result := importTranslations "1.0.0" "linux" Samples.sampleFs
                  "i18n/ads-language-pack-de" Samples.samplePackageJSON 0 batch in
  List.map translations (localizations (fst result))
  = [[mkTranslation "vscode" "./translations/main.i18n.json" [];
      mkTranslation "git" "./translations/extensions/git.i18n.json" [("note", "kept")]]]
  /\ snd result !! "i18n/ads-language-pack-de/package.json"
     = Some (ManifestFile (fst result))
  /\ is_Some (snd result !! "i18n/ads-language-pack-de/translations/main.i18n.json")
  /\ is_Some (snd result
                !! "i18n/ads-language-pack-de/translations/extensions/git.i18n.json").
Proof. vm_compute. repeat split; eexists; reflexivity. Qed.

End Examples.

(** * Further properties *)

(** ** The platform key and the type *)

Section PlatformMore.
Import JsString CreateAsset.

Ltac case_eqb :=
  repeat match goal with
         | |- context [String.eqb ?a ?b] =>
             lazymatch a with
             | String _ _ => fail
             | EmptyString => fail
             | _ => destruct (eqb_cases a b) as [[-> ->] | [-> ?]]
             end; cbn
         end.

(** X1. The types of the database are canonical: mapping a type twice is
    mapping it once, the three subtypes are never returned, and every other
    type is returned as it is. *)
Theorem getRealType_canonical (type : string) :
  getRealType (getRealType type) = getRealType type
  /\ getRealType type <> "user-setup"
  /\ getRealType type <> "deb-package"
  /\ getRealType type <> "rpm-package"
  /\ (getRealType type = type
      \/ type = "user-setup" \/ type = "deb-package" \/ type = "rpm-package").
Proof.
  unfold getRealType.
  destruct (eqb_cases type "user-setup") as [[E1 ->] | [E1 N1]]; rewrite ?E1;
    [cbn; repeat split; try discriminate; auto |].
  destruct (eqb_cases type "deb-package") as [[E2 ->] | [E2 N2]]; rewrite ?E2;
    [cbn; repeat split; try discriminate; auto |].
  destruct (eqb_cases type "rpm-package") as [[E3 ->] | [E3 N3]]; rewrite ?E3;
    [cbn; repeat split; try discriminate; auto |].
  cbn. rewrite E1, E2, E3. cbn. repeat split; auto.
Qed.

(** X2. The arguments that the platform key does not look at: for the
    server and web products on Windows and macOS the type makes no
    difference to the key, and for the snap, deb and rpm types on Linux
    the product makes none. *)
Theorem getPlatform_ignored_arguments (arch : string) :
  (forall type1 type2,
      okValue (getPlatform "server" "win32" arch type1)
      = okValue (getPlatform "server" "win32" arch type2)
      /\ okValue (getPlatform "web" "win32" arch type1)
         = okValue (getPlatform "web" "win32" arch type2)
      /\ okValue (getPlatform "server" "darwin" arch type1)
         = okValue (getPlatform "server" "darwin" arch type2)
      /\ okValue (getPlatform "web" "darwin" arch type1)
         = okValue (getPlatform "web" "darwin" arch type2))
  /\ (forall product1 product2,
        getPlatform product1 "linux" arch "snap" = getPlatform product2 "linux" arch "snap"
        /\ getPlatform product1 "linux" arch "deb-package"
           = getPlatform product2 "linux" arch "deb-package"
        /\ getPlatform product1 "linux" arch "rpm-package"
           = getPlatform product2 "linux" arch "rpm-package").
Proof.
  split.
  - intros type1 type2. unfold getPlatform. cbn. case_eqb; repeat split.
  - intros product1 product2. repeat split.
Qed.

End PlatformMore.

(** ** The runs of the publishing script *)

Section PublisherMore.
Import JsString CreateAsset.
#[local] Arguments retry : simpl never.

Lemma checks_app (t u : list Event) : checks (t ++ u) = (checks t + checks u)%nat.
Proof. unfold checks. rewrite List.filter_app, length_app. reflexivity. Qed.

Lemma uploadsTo_app (s : Store) (t u : list Event) :
  uploadsTo s (t ++ u) = (uploadsTo s t + uploadsTo s u)%nat.
Proof. unfold uploadsTo. rewrite List.filter_app, length_app. reflexivity. Qed.

Lemma checks_none (t : list Event) : forallb notCheck t = true -> checks t = 0%nat.
Proof.
  induction t as [| e t IH]; cbn; [reflexivity |].
  intros H. apply andb_prop in H as [He Ht]. specialize (IH Ht).
  destruct e; try discriminate He; exact IH.
Qed.

Lemma forallb_weaken (P Q : Event -> bool) (t : list Event) :
  (forall e, P e = true -> Q e = true) -> forallb P t = true -> forallb Q t = true.
Proof.
  intros HPQ. rewrite !forallb_forall. intros H e He. apply HPQ, H, He.
Qed.

(** X3. The script fails before any call to the outside when the build is
    not in the table or when a variable of the build is missing: the error
    is printed and the exit status is 1, with nothing else in the trace. *)
Theorem fail_fast (h : Host)
    (node script product os arch unprocessedType fileName filePath : string) :
  (forall message,
      getPlatform product os arch unprocessedType = Throw message ->
      createAsset h [node; script; product; os; arch; unprocessedType; fileName; filePath]
      = [ConsoleError [LErr (ThrownString message)]; Exit 1])
  /\ (forall platform,
        getPlatform product os arch unprocessedType = Ok platform ->
        env h !! "VSCODE_QUALITY" = None ->
        createAsset h [node; script; product; os; arch; unprocessedType; fileName; filePath]
        = [ConsoleError [LErr (ErrorObject "Missing env: VSCODE_QUALITY")]; Exit 1])
  /\ (forall platform quality,
        getPlatform product os arch unprocessedType = Ok platform ->
        env h !! "VSCODE_QUALITY" = Some quality ->
        env h !! "BUILD_SOURCEVERSION" = None ->
        createAsset h [node; script; product; os; arch; unprocessedType; fileName; filePath]
        = [ConsoleError [LErr (ErrorObject "Missing env: BUILD_SOURCEVERSION")]; Exit 1]).
Proof.
  split; [| split].
  - intros message Hp. rewrite createAsset_main. unfold main. rewrite Hp. reflexivity.
  - intros platform Hp Hq. rewrite createAsset_main. unfold main, getEnv.
    rewrite Hp, Hq. reflexivity.
  - intros platform quality Hp Hq Hc. rewrite createAsset_main. unfold main, getEnv.
    rewrite Hp, Hq, Hc. reflexivity.
Qed.

Lemma fail_fast_witness :
  createAsset Samples.bareHost Samples.unmappedArgv
  = [ConsoleError [LErr (ThrownString "Unrecognized: client beos x64 archive")]; Exit 1]
  /\ createAsset Samples.bareHost Samples.sampleArgv
     = [ConsoleError [LErr (ErrorObject "Missing env: VSCODE_QUALITY")]; Exit 1]
  /\ createAsset
       (mkHost (<["VSCODE_QUALITY" := "insider"]> ∅) (fun _ => Ok 1024)
          (fun _ => Ok ("da39a3", "e3b0c4")) (fun _ _ => Ok (Some false))
          (fun _ _ => Ok tt) (fun _ => Ok tt) (fun _ => None) 2)
       Samples.sampleArgv
     = [ConsoleError [LErr (ErrorObject "Missing env: BUILD_SOURCEVERSION")]; Exit 1].
Proof.
  split; [| split].
  - apply (proj1 (fail_fast Samples.bareHost "node" "createAsset.js" "client" "beos"
                    "x64" "archive" "ads.zip" "/tmp/ads.zip")).
    reflexivity.
  - apply (proj1 (proj2 (fail_fast Samples.bareHost "node" "createAsset.js" "client"
                           "win32" "x64" "archive" "ads.zip" "/tmp/ads.zip"))
             "win32-x64-archive"); reflexivity.
  - apply (proj2 (proj2 (fail_fast
                           (mkHost (<["VSCODE_QUALITY" := "insider"]> ∅) (fun _ => Ok 1024)
                              (fun _ => Ok ("da39a3", "e3b0c4")) (fun _ _ => Ok (Some false))
                              (fun _ _ => Ok tt) (fun _ => Ok tt) (fun _ => None) 2)
                           "node" "createAsset.js" "client" "win32" "x64" "archive"
                           "ads.zip" "/tmp/ads.zip"))
             "win32-x64-archive" "insider"); reflexivity.
Defined.

(** X4. The existence check is made at most once in a run, and it is not
    tried again: when it fails, nothing is uploaded, no stored procedure is
    called, its error is printed and the exit status is 1. *)
Theorem existence_check_once (h : Host) (argv : list string) :
  (checks (createAsset h argv) <= 1)%nat
  /\ (forall container blobName e,
        In (BlobExists container blobName (Throw e)) (createAsset h argv) ->
        uploads (createAsset h argv) = 0%nat
        /\ procedureCalls (createAsset h argv) = 0%nat
        /\ exitCode (createAsset h argv) = Some 1
        /\ In (ConsoleError [LErr e]) (createAsset h argv)).
Proof.
  destruct (Nat.eq_dec (List.length argv) 8%nat) as [Hlen | Hlen];
    [| rewrite (createAsset_usage h argv Hlen); split;
       [cbn; lia | intros c b e Hin; cbn in Hin; intuition discriminate]].
  destruct argv as [| node [| script [| product [| os [| arch [| type [| fileName
                  [| filePath [| extra argv]]]]]]]]]; try discriminate Hlen.
  rewrite createAsset_main.
  destruct (main_run h product os arch type fileName filePath)
    as [e t Ht | q c e pre Hpre Hq Hc Hb | q c a pre Hpre Hq Hc Hb Ha
        | q c a pre post r Hpre Hq Hc Hb Ha Hpost].
  - apply console_only in Ht as (_ & _ & _ & Ht). split.
    + rewrite checks_app, (checks_none _ Ht). cbn. lia.
    + intros c b e' Hin. exfalso. apply in_app_or in Hin as [Hin | Hin].
      * exact (no_check_in _ _ _ _ Ht Hin).
      * cbn in Hin. intuition discriminate.
  - pose proof Hpre as Hpre'.
    apply console_only in Hpre' as (Hup & Hcalls & Hne & Hnc). split.
    + rewrite <- app_assoc, checks_app, (checks_none _ Hnc). cbn. lia.
    + intros c' b e' Hin. rewrite <- app_assoc in Hin |- *.
      apply in_app_or in Hin as [Hin | Hin];
        [exfalso; exact (no_check_in _ _ _ _ Hnc Hin) |].
      cbn in Hin. destruct Hin as [Hin | [Hin | [Hin | []]]]; try discriminate Hin.
      injection Hin as _ _ <-.
      rewrite uploads_app, procedureCalls_app, Hup, Hcalls, (exitCode_app _ _ Hne).
      repeat split. apply in_or_app. right. right. left. reflexivity.
  - pose proof Hpre as Hpre'.
    apply console_only in Hpre' as (_ & _ & _ & Hnc). split.
    + rewrite <- app_assoc, checks_app, (checks_none _ Hnc). cbn. lia.
    + intros c' b e' Hin. exfalso. rewrite <- app_assoc in Hin.
      apply in_app_or in Hin as [Hin | Hin]; [exact (no_check_in _ _ _ _ Hnc Hin) |].
      cbn in Hin. intuition discriminate.
  - pose proof Hpre as Hpre'.
    apply console_only in Hpre' as (_ & _ & _ & Hnc).
    assert (Hpost' : forallb notCheck post = true).
    { apply (forallb_weaken _ _ _ (fun e He => proj1 (andb_prop _ _ He)) Hpost). }
    assert (Hshape :
      (let (r0, t) := (r, pre ++ BlobExists q (c +:+ "/" +:+ fileName) (Ok a) :: post) in
       match r0 with
       | Ok _ => t ++ [ConsoleLog [LStr "Asset successfully created"]; Exit 0]
       | Throw err => t ++ [ConsoleError [LErr err]; Exit 1]
       end)
      = pre ++ BlobExists q (c +:+ "/" +:+ fileName) (Ok a) :: post
        ++ match r with
           | Ok _ => [ConsoleLog [LStr "Asset successfully created"]; Exit 0]
           | Throw err => [ConsoleError [LErr err]; Exit 1]
           end).
    { destruct r; rewrite <- app_assoc; reflexivity. }
    rewrite Hshape. split.
    + rewrite checks_app, (checks_none _ Hnc). cbn [checks List.filter isCheck List.length].
      fold (checks (post ++ match r with
                            | Ok _ => [ConsoleLog [LStr "Asset successfully created"]; Exit 0]
                            | Throw err => [ConsoleError [LErr err]; Exit 1]
                            end)).
      rewrite checks_app, (checks_none _ Hpost'). destruct r; cbn; lia.
    + intros c' b e' Hin. exfalso.
      apply in_app_or in Hin as [Hin | [Hin | Hin]].
      * exact (no_check_in _ _ _ _ Hnc Hin).
      * discriminate Hin.
      * apply in_app_or in Hin as [Hin | Hin].
        -- exact (no_check_in _ _ _ _ Hpost' Hin).
        -- destruct r; cbn in Hin; intuition discriminate.
Qed.

Lemma existence_check_once_witness :
  uploads (createAsset Samples.unreachableHost Samples.sampleArgv) = 0%nat
  /\ procedureCalls (createAsset Samples.unreachableHost Samples.sampleArgv) = 0%nat
  /\ exitCode (createAsset Samples.unreachableHost Samples.sampleArgv) = Some 1
  /\ In (ConsoleError [LErr (HostError "ECONNREFUSED")])
        (createAsset Samples.unreachableHost Samples.sampleArgv).
Proof.
  apply (proj2 (existence_check_once Samples.unreachableHost Samples.sampleArgv)
           "insider" "0a1b2c/ads.zip").
  vm_compute. do 4 right. left. reflexivity.
Defined.

(** *** What is published *)

Lemma traceHas_bind (P : Event -> Prop) {A B} (m : Script A) (f : A -> Script B) :
  traceHas P m -> (forall a, fst m = Ok a -> traceHas P (f a)) -> traceHas P (bind m f).
Proof.
  unfold traceHas, bind. intros Hm Hf.
  destruct m as [[a | e] t]; cbn in *; [| exact Hm].
  specialize (Hf a eq_refl). destruct (f a) as [r t']; cbn in *.
  apply Forall_app. split; assumption.
Qed.

Lemma traceHas_retry_from (P : Event -> Prop) {A} (op : nat -> Script A) :
  (forall attempt, traceHas P (op attempt)) ->
  forall further attempt, traceHas P (retry_from further attempt op).
Proof.
  intros Hop further. induction further as [| further IH]; intros attempt; cbn.
  - apply Hop.
  - pose proof (Hop attempt) as H0. unfold traceHas in *.
    destruct (op attempt) as [[a | e] t]; cbn in *; [exact H0 |].
    specialize (IH (S attempt)).
    destruct (retry_from further (S attempt) op) as [r t']; cbn in *.
    apply Forall_app. split; assumption.
Qed.

(** A retry that returns has an attempt that returned. *)
Lemma retry_from_ok {A} (op : nat -> Script A) (further attempt : nat) (a : A)
    (t : list Event) :
  retry_from further attempt op = (Ok a, t) ->
  exists attempt' t', op attempt' = (Ok a, t').
Proof.
  revert attempt t. induction further as [| further IH]; intros attempt t; cbn.
  - eauto.
  - destruct (op attempt) as [[a' | e] t0] eqn:Hop.
    + intros [= -> ->]. eauto.
    + destruct (retry_from further (S attempt) op) as [r t'] eqn:Hrest.
      intros [= -> _]. exact (IH _ _ Hrest).
Qed.

Lemma uploadBoth_ok h container blobName filePath fileName attempt (t : list Event) :
  uploadBoth h container blobName filePath fileName attempt = (Ok tt, t) ->
  upload_outcome h Primary attempt = Ok tt /\ upload_outcome h Mooncake attempt = Ok tt.
Proof.
  unfold uploadBoth, uploadBlob, bind, emit, lift. cbn.
  destruct (upload_outcome h Primary attempt) as [[] | e1],
           (upload_outcome h Mooncake attempt) as [[] | e2]; cbn;
    intros H; try discriminate H; auto.
Qed.

(** Each attempt starts one upload to each store. *)
Lemma uploadBoth_trace h container blobName filePath fileName attempt :
  snd (uploadBoth h container blobName filePath fileName attempt)
  = [UploadFile Primary container blobName filePath fileName;
     UploadFile Mooncake container blobName filePath fileName].
Proof.
  unfold uploadBoth, uploadBlob, bind, emit, lift. cbn.
  destruct (upload_outcome h Primary attempt), (upload_outcome h Mooncake attempt);
    reflexivity.
Qed.

Lemma retry_uploads h container blobName filePath fileName further attempt :
  let t := snd (retry_from further attempt
                  (uploadBoth h container blobName filePath fileName)) in
  uploadsTo Primary t = uploadsTo Mooncake t
  /\ (1 <= uploadsTo Primary t)%nat
  /\ procedureCalls t = 0%nat.
Proof.
  cbv zeta. revert attempt.
  induction further as [| further IH]; intros attempt; cbn [retry_from].
  - rewrite uploadBoth_trace. cbn. lia.
  - pose proof (uploadBoth_trace h container blobName filePath fileName attempt) as Ht.
    destruct (uploadBoth h container blobName filePath fileName attempt) as [[a | e] t0];
      cbn [snd] in Ht; subst t0; [cbn; lia |].
    specialize (IH (S attempt)).
    destruct (retry_from further (S attempt)
                (uploadBoth h container blobName filePath fileName)) as [r t'].
    cbn [snd] in IH |- *. rewrite !uploadsTo_app, procedureCalls_app. cbn. lia.
Qed.

Lemma retry_from_no_upload {A} (s : Store) (op : nat -> Script A) :
  (forall attempt, uploadsTo s (snd (op attempt)) = 0%nat) ->
  forall further attempt, uploadsTo s (snd (retry_from further attempt op)) = 0%nat.
Proof.
  intros Hop further. induction further as [| further IH]; intros attempt;
    cbn [retry_from]; [apply Hop |].
  pose proof (Hop attempt) as H0.
  destruct (op attempt) as [[a | e] t0]; cbn [snd] in *; [exact H0 |].
  specialize (IH (S attempt)).
  destruct (retry_from further (S attempt) op) as [r t']. cbn [snd] in *.
  rewrite uploadsTo_app, H0, IH. reflexivity.
Qed.

(** The two outcomes of [publish]: the uploads fail for good and nothing
    else is done, or they succeed and the record is written after them. *)
Lemma publish_cases h platform type quality commit fileName filePath sha1hash sha256hash
    size :
  exists r1 uploaded,
    retry h (uploadBoth h quality (commit +:+ "/" +:+ fileName) filePath fileName)
    = (r1, uploaded)
    /\ match r1 with
       | Throw e =>
           publish h platform type quality commit fileName filePath sha1hash sha256hash size
           = (Throw e,
              ConsoleLog [LStr "Uploading blobs to Azure storage and Mooncake Azure storage..."]
              :: uploaded)
       | Ok _ =>
           exists r2 recorded,
             publish h platform type quality commit fileName filePath sha1hash sha256hash
               size
             = (r2,
                (ConsoleLog
                   [LStr "Uploading blobs to Azure storage and Mooncake Azure storage..."]
                 :: uploaded) ++ recorded)
             /\ uploadsTo Primary recorded = 0%nat
             /\ uploadsTo Mooncake recorded = 0%nat
       end.
Proof.
  unfold publish, retry. cbv zeta.
  destruct (retry_from (retry_limit h) 0
              (uploadBoth h quality (commit +:+ "/" +:+ fileName) filePath fileName))
    as [[[] | e] uploaded] eqn:Hup.
  - exists (Ok tt), uploaded. split; [reflexivity |].
    cbn -[retry_from buildAsset envText].
    match goal with
    | |- context [retry_from (retry_limit h) 0%nat ?op] =>
        assert (Hrec : forall s,
                   uploadsTo s (snd (retry_from (retry_limit h) 0%nat op)) = 0%nat)
          by (intros s; apply retry_from_no_upload; intros attempt;
              destruct (procedure_outcome h attempt), s; reflexivity);
        destruct (retry_from (retry_limit h) 0%nat op) as [[[] | e2] recorded]
    end; cbn [snd] in Hrec;
      pose proof (Hrec Primary) as HrecP; pose proof (Hrec Mooncake) as HrecM.
    + eexists (Ok tt), _. split; [cbn; reflexivity |].
      unfold uploadsTo in *. cbn.
      rewrite !List.filter_app, !length_app, HrecP, HrecM. split; reflexivity.
    + eexists (Throw e2), _. split; [cbn; reflexivity |].
      unfold uploadsTo in *. cbn. rewrite HrecP, HrecM. split; reflexivity.
  - exists (Throw e), uploaded. split; reflexivity.
Qed.

Lemma retry_from_first {A} (op : nat -> Script A) (further attempt : nat) (a : A)
    (t : list Event) :
  op attempt = (Ok a, t) -> retry_from further attempt op = (Ok a, t).
Proof. intros Hop. destruct further; cbn; rewrite Hop; reflexivity. Qed.

(** [main], by the place where it stops. *)
Lemma main_eq h product os arch unprocessedType fileName filePath :
  main h product os arch unprocessedType fileName filePath
  = match getPlatform product os arch unprocessedType with
    | Throw message => (Throw (ThrownString message), [])
    | Ok platform =>
    match env h !! "VSCODE_QUALITY" with
    | None => (Throw (ErrorObject "Missing env: VSCODE_QUALITY"), [])
    | Some quality =>
    match env h !! "BUILD_SOURCEVERSION" with
    | None => (Throw (ErrorObject "Missing env: BUILD_SOURCEVERSION"), [])
    | Some commit =>
    match stat_size h filePath with
    | Throw e => (Throw e, [ConsoleLog [LStr "Creating asset..."]])
    | Ok size =>
    match hashes h filePath with
    | Throw e => (Throw e, [ConsoleLog [LStr "Creating asset..."];
                            ConsoleLog [LStr "Size:"; LNum size]])
    | Ok (sha1hash, sha256hash) =>
        let pre := [ConsoleLog [LStr "Creating asset..."];
                    ConsoleLog [LStr "Size:"; LNum size];
                    ConsoleLog [LStr "SHA1:"; LStr sha1hash];
                    ConsoleLog [LStr "SHA256:"; LStr sha256hash]] in
        let blobName := commit +:+ "/" +:+ fileName in
        match blob_exists h quality blobName with
        | Throw e => (Throw e, pre ++ [BlobExists quality blobName (Throw e)])
        | Ok answer =>
            if truthy answer then
              (Ok tt,
               pre ++ [BlobExists quality blobName (Ok answer);
                       ConsoleLog [LStr ("Blob " +:+ quality +:+ ", " +:+ blobName
                                         +:+ " already exists, not publishing again.")]])
            else
              (fst (publish h platform (getRealType unprocessedType) quality commit
                      fileName filePath sha1hash sha256hash size),
               pre ++ BlobExists quality blobName (Ok answer)
                   :: snd (publish h platform (getRealType unprocessedType) quality commit
                             fileName filePath sha1hash sha256hash size))
        end
    end end end end end.
Proof.
  unfold main, getEnv, doesAssetExist.
  destruct (getPlatform product os arch unprocessedType) as [platform | s]; [| reflexivity].
  destruct (env h !! "VSCODE_QUALITY") as [quality |]; [| reflexivity].
  destruct (env h !! "BUILD_SOURCEVERSION") as [commit |]; [| reflexivity].
  destruct (stat_size h filePath) as [size | e]; [| reflexivity].
  destruct (hashes h filePath) as [[sha1hash sha256hash] | e]; [| reflexivity].
  cbn -[publish].
  destruct (blob_exists h quality (commit +:+ "/" +:+ fileName)) as [answer | e];
    [| reflexivity].
  destruct answer as [[|] |]; cbn -[publish]; try reflexivity.
  all: destruct (publish h platform (getRealType unprocessedType) quality commit fileName
                   filePath sha1hash sha256hash size); reflexivity.
Qed.

Lemma buildAsset_fields (platform type assetUrl sha1hash mooncakeUrl sha256hash : string)
    (size : Z) :
  CreateAsset.platform
    (buildAsset platform type assetUrl sha1hash mooncakeUrl sha256hash size) = platform
  /\ CreateAsset.type
       (buildAsset platform type assetUrl sha1hash mooncakeUrl sha256hash size) = type
  /\ url (buildAsset platform type assetUrl sha1hash mooncakeUrl sha256hash size) = assetUrl
  /\ hash (buildAsset platform type assetUrl sha1hash mooncakeUrl sha256hash size) = sha1hash
  /\ CreateAsset.sha256hash
       (buildAsset platform type assetUrl sha1hash mooncakeUrl sha256hash size) = sha256hash
  /\ CreateAsset.size
       (buildAsset platform type assetUrl sha1hash mooncakeUrl sha256hash size) = size
  /\ CreateAsset.mooncakeUrl
       (buildAsset platform type assetUrl sha1hash mooncakeUrl sha256hash size)
     = Some mooncakeUrl.
Proof. unfold buildAsset. destruct (includes platform "win32"); repeat split. Qed.

Lemma publish_addressed h platform type quality commit fileName filePath sha1hash
    sha256hash size (record : Asset -> Prop) :
  (forall mooncakeUrl,
      record (buildAsset platform type
                (envText h "AZURE_CDN_URL" +:+ "/" +:+ quality +:+ "/"
                 +:+ (commit +:+ "/" +:+ fileName))
                sha1hash mooncakeUrl sha256hash size)) ->
  traceHas (addressed quality (commit +:+ "/" +:+ fileName) filePath fileName commit record)
    (publish h platform type quality commit fileName filePath sha1hash sha256hash size).
Proof.
  intros Hrecord. unfold publish, retry. cbv zeta.
  repeat first
    [ apply traceHas_bind; [| intros ? _]
    | apply traceHas_retry_from; intros ?
    | unfold traceHas; rewrite uploadBoth_trace; repeat constructor
    | unfold traceHas, emit, lift; cbn [snd]; repeat constructor; apply Hrecord ].
Qed.

(** X5. The outside calls of a run all concern the same artifact: the check
    and the uploads name the container of the quality and the blob
    [<commit>/<fileName>], the uploads send the file of the command line,
    and the stored procedure [createAsset] gets the commit and a record
    with the platform of [getPlatform], the canonical type, the URL of the
    blob, and the size and hashes that were read from the file. *)
Theorem calls_well_addressed (h : Host)
    (node script product os arch unprocessedType fileName filePath quality commit : string) :
  env h !! "VSCODE_QUALITY" = Some quality ->
  env h !! "BUILD_SOURCEVERSION" = Some commit ->
  Forall
    (addressed quality (commit +:+ "/" +:+ fileName) filePath fileName commit
       (fun a =>
          getPlatform product os arch unprocessedType = Ok (platform a)
          /\ CreateAsset.type a = getRealType unprocessedType
          /\ url a = envText h "AZURE_CDN_URL" +:+ "/" +:+ quality +:+ "/"
                     +:+ (commit +:+ "/" +:+ fileName)
          /\ stat_size h filePath = Ok (size a)
          /\ hashes h filePath = Ok (hash a, sha256hash a)))
    (createAsset h [node; script; product; os; arch; unprocessedType; fileName; filePath]).
Proof.
  intros Hq Hc. rewrite createAsset_main, main_eq, Hq, Hc.
  destruct (getPlatform product os arch unprocessedType) as [platform | message] eqn:Hp;
    [| repeat constructor].
  destruct (stat_size h filePath) as [size | e] eqn:Hs; [| repeat constructor].
  destruct (hashes h filePath) as [[sha1hash sha256hash] | e] eqn:Hh;
    [| repeat constructor].
  cbv zeta.
  destruct (blob_exists h quality (commit +:+ "/" +:+ fileName)) as [answer | e];
    [| repeat constructor].
  destruct (truthy answer); [repeat constructor |].
  match goal with
  | |- Forall (addressed _ _ _ _ _ ?record) _ =>
      pose proof (publish_addressed h platform (getRealType unprocessedType) quality commit
                    fileName filePath sha1hash sha256hash size record) as Hpub
  end.
  unfold traceHas in Hpub.
  destruct (publish h platform (getRealType unprocessedType) quality commit fileName
              filePath sha1hash sha256hash size) as [r post].
  cbn [fst snd] in *.
  lapply Hpub.
  - intros Hpost.
    destruct r; (apply Forall_app; split; [| repeat constructor]);
      repeat (apply Forall_cons; split; [cbn; auto |]); exact Hpost.
  - intros mooncakeUrl.
    destruct (buildAsset_fields platform (getRealType unprocessedType)
                (envText h "AZURE_CDN_URL" +:+ "/" +:+ quality +:+ "/"
                 +:+ (commit +:+ "/" +:+ fileName))
                sha1hash mooncakeUrl sha256hash size)
      as (-> & -> & -> & -> & -> & -> & _).
    repeat split.
Qed.

Lemma calls_well_addressed_witness :
  Forall
    (addressed "insider" "0a1b2c/ads.zip" "/tmp/ads.zip" "ads.zip" "0a1b2c"
       (fun a =>
          getPlatform "client" "win32" "x64" "archive" = Ok (platform a)
          /\ CreateAsset.type a = getRealType "archive"
          /\ url a = envText (Samples.sampleHost false) "AZURE_CDN_URL" +:+ "/"
                     +:+ "insider" +:+ "/" +:+ ("0a1b2c" +:+ "/" +:+ "ads.zip")
          /\ stat_size (Samples.sampleHost false) "/tmp/ads.zip" = Ok (size a)
          /\ hashes (Samples.sampleHost false) "/tmp/ads.zip"
             = Ok (hash a, sha256hash a)))
    (createAsset (Samples.sampleHost false) Samples.sampleArgv).
Proof.
  apply (calls_well_addressed (Samples.sampleHost false) "node" "createAsset.js" "client"
           "win32" "x64" "archive" "ads.zip" "/tmp/ads.zip" "insider" "0a1b2c");
    reflexivity.
Defined.

Lemma not_in_no_calls (t : list Event) container procedure commit (a : Asset) :
  procedureCalls t = 0%nat -> ~ In (ExecuteStoredProcedure container procedure commit a) t.
Proof.
  induction t as [| e t IH]; cbn; [tauto |].
  intros H [-> | Hin]; [discriminate H |].
  apply IH; [| exact Hin]. destruct e; cbn in H; try discriminate H; exact H.
Qed.

Lemma app_split_first (front back pre post : list Event) (x : Event) :
  front ++ back = pre ++ x :: post -> ~ In x front -> exists rest, pre = front ++ rest.
Proof.
  revert pre. induction front as [| e front IH]; intros pre Heq Hnin; [eauto |].
  destruct pre as [| e' pre]; cbn in Heq; injection Heq as -> Heq.
  - exfalso. apply Hnin. left. reflexivity.
  - destruct (IH pre Heq) as [rest ->]; [intros Hin; apply Hnin; right; exact Hin |].
    exists rest. reflexivity.
Qed.

(** The trace of a run, up to the end of the uploads, when there is a call
    of the stored procedure in it. *)
Lemma recorded_run h argv container procedure commit (a : Asset) :
  In (ExecuteStoredProcedure container procedure commit a) (createAsset h argv) ->
  exists front back,
    createAsset h argv = front ++ back
    /\ procedureCalls front = 0%nat
    /\ uploadsTo Primary front = uploadsTo Mooncake front
    /\ (1 <= uploadsTo Primary front)%nat
    /\ uploadsTo Primary back = 0%nat
    /\ uploadsTo Mooncake back = 0%nat
    /\ exists attempt,
         upload_outcome h Primary attempt = Ok tt
         /\ upload_outcome h Mooncake attempt = Ok tt.
Proof.
  intros Hin.
  destruct (Nat.eq_dec (List.length argv) 8%nat) as [Hlen | Hlen];
    [| rewrite (createAsset_usage h argv Hlen) in Hin; cbn in Hin; intuition discriminate].
  destruct argv as [| node [| script [| product [| os [| arch [| type [| fileName
                  [| filePath [| extra argv]]]]]]]]]; try discriminate Hlen.
  rewrite createAsset_main, main_eq in Hin |- *.
  destruct (getPlatform product os arch type) as [platform | message];
    [| cbn in Hin; intuition discriminate].
  destruct (env h !! "VSCODE_QUALITY") as [quality |];
    [| cbn in Hin; intuition discriminate].
  destruct (env h !! "BUILD_SOURCEVERSION") as [commit' |];
    [| cbn in Hin; intuition discriminate].
  destruct (stat_size h filePath) as [size | e];
    [| cbn in Hin; intuition discriminate].
  destruct (hashes h filePath) as [[sha1hash sha256hash] | e];
    [| cbn in Hin; intuition discriminate].
  cbv zeta in Hin |- *.
  destruct (blob_exists h quality (commit' +:+ "/" +:+ fileName)) as [answer | e];
    [| cbn in Hin; intuition discriminate].
  destruct (truthy answer); [cbn in Hin; intuition discriminate |].
  destruct (publish_cases h platform (getRealType type) quality commit' fileName filePath
              sha1hash sha256hash size) as (r1 & uploaded & Hup & Hpub).
  pose proof (retry_uploads h quality (commit' +:+ "/" +:+ fileName) filePath fileName
                (retry_limit h) 0%nat) as Hcount.
  cbv zeta in Hcount. fold (retry h (uploadBoth h quality (commit' +:+ "/" +:+ fileName)
                                        filePath fileName)) in Hcount.
  rewrite Hup in Hcount. cbn [snd] in Hcount. destruct Hcount as (Hpair & Hone & Hnocall).
  destruct r1 as [[] | e].
  - destruct Hpub as (r2 & recorded & Hpub & HrecP & HrecM). rewrite Hpub. cbn [fst snd].
    exists ([ConsoleLog [LStr "Creating asset..."];
             ConsoleLog [LStr "Size:"; LNum size];
             ConsoleLog [LStr "SHA1:"; LStr sha1hash];
             ConsoleLog [LStr "SHA256:"; LStr sha256hash]]
              ++ BlobExists quality (commit' +:+ "/" +:+ fileName) (Ok answer)
              :: ConsoleLog
                   [LStr "Uploading blobs to Azure storage and Mooncake Azure storage..."]
              :: uploaded),
            (recorded ++ match r2 with
                         | Ok _ => [ConsoleLog [LStr "Asset successfully created"]; Exit 0]
                         | Throw err => [ConsoleError [LErr err]; Exit 1]
                         end).
    split; [destruct r2; cbn [app]; rewrite <- app_assoc; reflexivity |].
    rewrite !uploadsTo_app, procedureCalls_app, HrecP, HrecM.
    unfold retry in Hup. apply retry_from_ok in Hup as (attempt & t' & Hattempt).
    apply uploadBoth_ok in Hattempt.
    cbn. fold (uploadsTo Primary uploaded) (uploadsTo Mooncake uploaded)
           (procedureCalls uploaded).
    rewrite Hnocall. repeat split; try lia; try (destruct r2; reflexivity).
    exists attempt. exact Hattempt.
  - exfalso. rewrite Hpub in Hin. cbn [fst snd] in Hin.
    apply in_app_or in Hin as [Hin | Hin]; [| cbn in Hin; intuition discriminate].
    cbn in Hin.
    destruct Hin as [Hin | [Hin | [Hin | [Hin | [Hin | [Hin | Hin]]]]]];
      try discriminate Hin.
    exact (not_in_no_calls _ _ _ _ _ Hnocall Hin).
Qed.

(** X6. Every attempt uploads to both stores: the primary store and its
    mirror get the same number of uploads in every run. *)
Theorem uploads_in_pairs (h : Host) (argv : list string) :
  uploadsTo Primary (createAsset h argv) = uploadsTo Mooncake (createAsset h argv).
Proof.
  destruct (Nat.eq_dec (procedureCalls (createAsset h argv)) 0%nat) as [Hnone | Hsome].
  - destruct (Nat.eq_dec (List.length argv) 8%nat) as [Hlen | Hlen];
      [| rewrite (createAsset_usage h argv Hlen); reflexivity].
    destruct argv as [| node [| script [| product [| os [| arch [| type [| fileName
                    [| filePath [| extra argv]]]]]]]]]; try discriminate Hlen.
    rewrite createAsset_main, main_eq.
    destruct (getPlatform product os arch type) as [platform | message]; [| reflexivity].
    destruct (env h !! "VSCODE_QUALITY") as [quality |]; [| reflexivity].
    destruct (env h !! "BUILD_SOURCEVERSION") as [commit |]; [| reflexivity].
    destruct (stat_size h filePath) as [size | e]; [| reflexivity].
    destruct (hashes h filePath) as [[sha1hash sha256hash] | e]; [| reflexivity].
    cbv zeta.
    destruct (blob_exists h quality (commit +:+ "/" +:+ fileName)) as [answer | e];
      [| reflexivity].
    destruct (truthy answer); [reflexivity |].
    destruct (publish_cases h platform (getRealType type) quality commit fileName filePath
                sha1hash sha256hash size) as (r1 & uploaded & Hup & Hpub).
    pose proof (retry_uploads h quality (commit +:+ "/" +:+ fileName) filePath fileName
                  (retry_limit h) 0%nat) as Hcount.
    cbv zeta in Hcount. fold (retry h (uploadBoth h quality (commit +:+ "/" +:+ fileName)
                                          filePath fileName)) in Hcount.
    rewrite Hup in Hcount. cbn [snd] in Hcount. destruct Hcount as (Hpair & _ & _).
    destruct r1 as [[] | e].
    + destruct Hpub as (r2 & recorded & -> & HrecP & HrecM). cbn [fst snd].
      destruct r2; rewrite !uploadsTo_app; cbn;
        fold (uploadsTo Primary (uploaded ++ recorded))
             (uploadsTo Mooncake (uploaded ++ recorded));
        rewrite !uploadsTo_app, HrecP, HrecM, Hpair; reflexivity.
    + rewrite Hpub. cbn [fst snd]. rewrite !uploadsTo_app. cbn.
      fold (uploadsTo Primary uploaded) (uploadsTo Mooncake uploaded).
      rewrite Hpair. reflexivity.
  - assert (Hin : exists c p cm a,
               In (ExecuteStoredProcedure c p cm a) (createAsset h argv)).
    { unfold procedureCalls in Hsome.
      destruct (List.filter isProcedureCall (createAsset h argv)) as [| e l] eqn:Hf;
        [contradiction |].
      assert (He : In e (List.filter isProcedureCall (createAsset h argv)))
        by (rewrite Hf; left; reflexivity).
      apply filter_In in He as [He Hcall]. destruct e; try discriminate Hcall. eauto. }
    destruct Hin as (c & p & cm & a & Hin).
    destruct (recorded_run h argv c p cm a Hin)
      as (front & back & -> & _ & Hpair & _ & HbP & HbM & _).
    rewrite !uploadsTo_app, HbP, HbM, Hpair. reflexivity.
Qed.

(** X7. The record is written after the blobs: before any call of the
    stored procedure there is an upload to each store, and an attempt in
    which both uploads succeeded. *)
Theorem record_after_uploads (h : Host) (argv : list string) (pre post : list Event)
    (container procedure commit : string) (a : Asset) :
  createAsset h argv = pre ++ ExecuteStoredProcedure container procedure commit a :: post ->
  (1 <= uploadsTo Primary pre)%nat
  /\ (1 <= uploadsTo Mooncake pre)%nat
  /\ exists attempt,
       upload_outcome h Primary attempt = Ok tt
       /\ upload_outcome h Mooncake attempt = Ok tt.
Proof.
  intros Heq.
  assert (Hin : In (ExecuteStoredProcedure container procedure commit a)
                  (createAsset h argv)).
  { rewrite Heq. apply in_or_app. right. left. reflexivity. }
  destruct (recorded_run h argv container procedure commit a Hin)
    as (front & back & Hsplit & Hnocall & Hpair & Hone & _ & _ & Hattempt).
  rewrite Hsplit in Heq.
  destruct (app_split_first front back pre post _ Heq) as [rest ->];
    [apply not_in_no_calls, Hnocall |].
  rewrite !uploadsTo_app. repeat split; [lia | lia | exact Hattempt].
Qed.

Lemma record_after_uploads_witness :
  (1 <= uploadsTo Primary
          (firstn 10 (createAsset (Samples.sampleHost false) Samples.sampleArgv)))%nat
  /\ (1 <= uploadsTo Mooncake
             (firstn 10 (createAsset (Samples.sampleHost false) Samples.sampleArgv)))%nat
  /\ exists attempt,
       upload_outcome (Samples.sampleHost false) Primary attempt = Ok tt
       /\ upload_outcome (Samples.sampleHost false) Mooncake attempt = Ok tt.
Proof.
  apply (record_after_uploads (Samples.sampleHost false) Samples.sampleArgv
           (firstn 10 (createAsset (Samples.sampleHost false) Samples.sampleArgv))
           (skipn 11 (createAsset (Samples.sampleHost false) Samples.sampleArgv))
           "insider" "createAsset" "0a1b2c"
           (buildAsset "win32-x64-archive" "archive"
              "https://cdn.example/insider/0a1b2c/ads.zip" "da39a3"
              "undefined/insider/0a1b2c/ads.zip" "e3b0c4" 1024)).
  vm_compute. reflexivity.
Defined.

(** X8. A first publication without failure: when the blob is not there and
    the first attempts succeed, the run is the check, one upload to each
    store, one call of the stored procedure with the record, and the exit
    with status 0. *)
Theorem fresh_publish (h : Host)
    (node script product os arch unprocessedType fileName filePath : string)
    (platform quality commit sha1hash sha256hash : string) (size : Z)
    (answer : option bool) :
  getPlatform product os arch unprocessedType = Ok platform ->
  env h !! "VSCODE_QUALITY" = Some quality ->
  env h !! "BUILD_SOURCEVERSION" = Some commit ->
  stat_size h filePath = Ok size ->
  hashes h filePath = Ok (sha1hash, sha256hash) ->
  blob_exists h quality (commit +:+ "/" +:+ fileName) = Ok answer ->
  truthy answer = false ->
  upload_outcome h Primary 0%nat = Ok tt ->
  upload_outcome h Mooncake 0%nat = Ok tt ->
  procedure_outcome h 0%nat = Ok tt ->
  createAsset h [node; script; product; os; arch; unprocessedType; fileName; filePath]
  = [ConsoleLog [LStr "Creating asset..."];
     ConsoleLog [LStr "Size:"; LNum size];
     ConsoleLog [LStr "SHA1:"; LStr sha1hash];
     ConsoleLog [LStr "SHA256:"; LStr sha256hash];
     BlobExists quality (commit +:+ "/" +:+ fileName) (Ok answer);
     ConsoleLog [LStr "Uploading blobs to Azure storage and Mooncake Azure storage..."];
     UploadFile Primary quality (commit +:+ "/" +:+ fileName) filePath fileName;
     UploadFile Mooncake quality (commit +:+ "/" +:+ fileName) filePath fileName;
     ConsoleLog [LStr "Blobs successfully uploaded."];
     ConsoleLog
       [LStr "Asset:";
        LAsset
          (buildAsset platform (getRealType unprocessedType)
             (envText h "AZURE_CDN_URL" +:+ "/" +:+ quality +:+ "/"
              +:+ (commit +:+ "/" +:+ fileName))
             sha1hash
             (envText h "MOONCAKE_CDN_URL"
              +:+ match url_path h (envText h "AZURE_CDN_URL" +:+ "/" +:+ quality +:+ "/"
                                    +:+ (commit +:+ "/" +:+ fileName)) with
                  | Some p => p
                  | None => "null"
                  end)
             sha256hash size)];
     ExecuteStoredProcedure quality "createAsset" commit
       (buildAsset platform (getRealType unprocessedType)
          (envText h "AZURE_CDN_URL" +:+ "/" +:+ quality +:+ "/"
           +:+ (commit +:+ "/" +:+ fileName))
          sha1hash
          (envText h "MOONCAKE_CDN_URL"
           +:+ match url_path h (envText h "AZURE_CDN_URL" +:+ "/" +:+ quality +:+ "/"
                                 +:+ (commit +:+ "/" +:+ fileName)) with
               | Some p => p
               | None => "null"
               end)
          sha256hash size);
     ConsoleLog [LStr "  Done ✔️"];
     ConsoleLog [LStr "Asset successfully created"];
     Exit 0].
Proof.
  intros Hp Hq Hc Hs Hh Hb Ht Hu1 Hu2 Hproc.
  rewrite createAsset_main, main_eq, Hp, Hq, Hc, Hs, Hh. cbv zeta. rewrite Hb, Ht.
  unfold publish, retry. cbv zeta.
  rewrite (retry_from_first
             (uploadBoth h quality (commit +:+ "/" +:+ fileName) filePath fileName)
             (retry_limit h) 0%nat tt
             [UploadFile Primary quality (commit +:+ "/" +:+ fileName) filePath fileName;
              UploadFile Mooncake quality (commit +:+ "/" +:+ fileName) filePath fileName])
    by (unfold uploadBoth, uploadBlob, bind, emit, lift; cbn; rewrite Hu1, Hu2;
        reflexivity).
  cbn -[retry_from buildAsset envText].
  match goal with
  | |- context [retry_from (retry_limit h) 0%nat ?op] =>
      rewrite (retry_from_first op (retry_limit h) 0%nat tt (snd (op 0%nat)))
        by (cbn; rewrite Hproc; reflexivity)
  end.
  reflexivity.
Qed.

Lemma fresh_publish_witness :
  List.length (createAsset (Samples.sampleHost false) Samples.sampleArgv) = 14%nat
  /\ uploads (createAsset (Samples.sampleHost false) Samples.sampleArgv) = 2%nat
  /\ procedureCalls (createAsset (Samples.sampleHost false) Samples.sampleArgv) = 1%nat
  /\ exitCode (createAsset (Samples.sampleHost false) Samples.sampleArgv) = Some 0.
Proof.
  unfold Samples.sampleArgv.
  rewrite (fresh_publish (Samples.sampleHost false) "node" "createAsset.js" "client" "win32"
             "x64" "archive" "ads.zip" "/tmp/ads.zip" "win32-x64-archive" "insider"
             "0a1b2c" "da39a3" "e3b0c4" 1024 (Some false));
    repeat split; reflexivity.
Defined.

End PublisherMore.

(** ** The entries of the descriptor *)

Section ReconcileMore.
Import JsString LocFunc.
Implicit Types (l translations : list Translation) (t : Translation).

Lemma translation_eqb_eq (a b : Translation) : translation_eqb a b = true <-> a = b.
Proof.
  unfold translation_eqb. rewrite !andb_true_iff, !String.eqb_eq, bool_decide_eq_true.
  destruct a, b; cbn. split.
  - intros [[-> ->] ->]. reflexivity.
  - intros [= -> -> ->]. auto.
Qed.

Lemma removeFirst_app_notin x (kept l : list Translation) :
  ~ In x kept -> removeFirst x (kept ++ l) = kept ++ removeFirst x l.
Proof.
  induction kept as [| y kept IH]; intros Hnin; [reflexivity |].
  cbn. destruct (translation_eqb y x) eqn:Heq.
  - apply translation_eqb_eq in Heq. exfalso. apply Hnin. left. exact Heq.
  - rewrite IH; [reflexivity |]. intros Hin. apply Hnin. right. exact Hin.
Qed.

Lemma removeFirst_head x l : removeFirst x (x :: l) = l.
Proof.
  cbn. rewrite (proj2 (translation_eqb_eq x x) eq_refl). reflexivity.
Qed.

Lemma splice_loop (missing : Translation -> bool) (kept l : list Translation) :
  (forall t, In t kept -> missing t = false) ->
  fold_left (fun trs nonExt => removeFirst nonExt trs) (List.filter missing l) (kept ++ l)
  = kept ++ List.filter (fun t => negb (missing t)) l.
Proof.
  revert kept. induction l as [| x l IH]; intros kept Hkept; [reflexivity |].
  cbn [List.filter]. destruct (missing x) eqn:Hx; cbn [negb fold_left].
  - rewrite removeFirst_app_notin, removeFirst_head; [apply IH, Hkept |].
    intros Hin. rewrite (Hkept x Hin) in Hx. discriminate Hx.
  - replace (kept ++ x :: l) with ((kept ++ [x]) ++ l) by (rewrite <- app_assoc; reflexivity).
    rewrite IH.
    + rewrite <- app_assoc. reflexivity.
    + intros t Hin. apply in_app_or in Hin as [Hin | [<- | []]]; auto.
Qed.

(** X9. The pruning of the stale entries: collecting the entries whose file
    is missing and taking them out one by one with [indexOf] and [splice]
    leaves exactly the entries whose file exists, in their order. The
    folder is a relative path as [path.join] gives it, and what follows
    [./translations] in the path of an entry has no [..] segment and no
    separator at the end: these are the paths on which [join] is
    [path.join]. *)
Theorem removeNonExistant_filter (fs : FS) (translationDataFolder : string) translations :
  NodePath.normal translationDataFolder = true ->
  Forall (fun curr =>
            NodePath.follows (replace (t_path curr) "./translations" EmptyString) = true)
    translations ->
  removeNonExistant fs translationDataFolder translations
  = List.filter
      (fun curr =>
         existsSync fs
           (NodePath.join [translationDataFolder;
                           replace (t_path curr) "./translations" EmptyString]))
      translations.
Proof.
  intros _ _. unfold removeNonExistant. cbv zeta.
  pose proof (splice_loop
                (fun curr =>
                   negb (existsSync fs
                           (NodePath.join [translationDataFolder;
                                           replace (t_path curr) "./translations"
                                             EmptyString])))
                [] translations) as Hloop.
  cbn [app] in Hloop. rewrite Hloop by (intros t []).
  apply filter_ext. intros t. apply negb_involutive.
Qed.

Lemma removeNonExistant_filter_witness :
  removeNonExistant
    (<["i18n/ads-language-pack-de/translations/main.i18n.json"
       := JsonFile Samples.sampleCatalog]> Samples.sampleFs)
    "i18n/ads-language-pack-de/translations"
    (Samples.sampleTranslations ++ Samples.sampleTranslations)
  = [mkTranslation "vscode" "./translations/main.i18n.json" [];
     mkTranslation "vscode" "./translations/main.i18n.json" []].
Proof.
  rewrite (removeNonExistant_filter
             (<["i18n/ads-language-pack-de/translations/main.i18n.json"
                := JsonFile Samples.sampleCatalog]> Samples.sampleFs)
             "i18n/ads-language-pack-de/translations"
             (Samples.sampleTranslations ++ Samples.sampleTranslations)).
  - vm_compute. reflexivity.
  - reflexivity.
  - repeat constructor.
Defined.

(** X10. What the reconciliation keeps: the entries that were in the
    descriptor keep their place, their path and their other properties, and
    only their id can change; every record has an entry with its path
    afterwards; there are at most as many new entries as records, all at
    the end and each with the path of a record; and an entry whose path no
    record has is left as it is. *)
Theorem reconcile_keeps translations (translationPaths : list TranslationPath) :
  (exists added,
      List.map t_path (reconcile translations translationPaths)
      = List.map t_path translations ++ added
      /\ List.map t_others (reconcile translations translationPaths)
         = List.map t_others translations ++ List.map (fun _ => []) added
      /\ (List.length added <= List.length translationPaths)%nat
      /\ (forall p, In p added ->
                    exists tp, In tp translationPaths
                               /\ p = "./translations/" +:+ resourceName tp))
  /\ (forall tp, In tp translationPaths ->
                 In ("./translations/" +:+ resourceName tp)
                    (List.map t_path (reconcile translations translationPaths)))
  /\ (forall t, In t translations ->
                (forall tp, In tp translationPaths ->
                            t_path t <> "./translations/" +:+ resourceName tp) ->
                In t (reconcile translations translationPaths)).
Proof.
  split; [apply reconcile_shape |].
  split; [intros tp; apply reconcile_present | intros t; apply reconcile_untouched].
Qed.

Lemma reconcile_keeps_witness :
  In "./translations/extensions/notebook.i18n.json"
    (List.map t_path
       (reconcile Samples.sampleTranslations
          [mkTranslationPath "vscode.git" "extensions/git.i18n.json";
           mkTranslationPath "Microsoft.notebook" "extensions/notebook.i18n.json"]))
  /\ In (mkTranslation "vscode" "./translations/main.i18n.json" [])
       (reconcile Samples.sampleTranslations
          [mkTranslationPath "vscode.git" "extensions/git.i18n.json";
           mkTranslationPath "Microsoft.notebook" "extensions/notebook.i18n.json"]).
Proof.
  split.
  - apply (proj1 (proj2 (reconcile_keeps Samples.sampleTranslations
                           [mkTranslationPath "vscode.git" "extensions/git.i18n.json";
                            mkTranslationPath "Microsoft.notebook"
                              "extensions/notebook.i18n.json"]))
             (mkTranslationPath "Microsoft.notebook" "extensions/notebook.i18n.json")).
    right. left. reflexivity.
  - apply (proj2 (proj2 (reconcile_keeps Samples.sampleTranslations
                           [mkTranslationPath "vscode.git" "extensions/git.i18n.json";
                            mkTranslationPath "Microsoft.notebook"
                              "extensions/notebook.i18n.json"]))).
    + left. reflexivity.
    + intros tp [<- | [<- | []]]; discriminate.
Defined.

End ReconcileMore.

(** ** The stream of the catalogs *)

Section BatchMore.
Import JsString JsObject Json NodePath LocFunc.
#[local] Arguments String.append !s1 s2 : simpl nomatch.

Variables i18nPackVersion processPlatform : string.

Lemma firstRejection_split (pre : list XlfFile) (xlf : XlfFile) reason post :
  Forall (fun x => is_ok (parsed x) = true) pre ->
  parsed xlf = Throw reason ->
  firstRejection (pre ++ xlf :: post) = Some reason.
Proof.
  intros Hpre Hxlf. unfold firstRejection.
  induction Hpre as [| x pre Hx Hpre IH]; cbn [app List.find].
  - unfold is_throw. rewrite Hxlf. cbn. destruct xlf as [rel p]. cbn in Hxlf.
    rewrite Hxlf. reflexivity.
  - unfold is_throw at 1. rewrite Hx. cbn [negb]. exact IH.
Qed.

Lemma firstRejection_Some (xlfs : list XlfFile) reason :
  firstRejection xlfs = Some reason ->
  exists pre xlf post,
    xlfs = pre ++ xlf :: post
    /\ Forall (fun x => is_ok (parsed x) = true) pre
    /\ parsed xlf = Throw reason.
Proof.
  unfold firstRejection. induction xlfs as [| x xlfs IH]; cbn [List.find]; [discriminate |].
  destruct x as [rel [files | r]]; cbn.
  - intros H. destruct (IH H) as (pre & xlf & post & -> & Hpre & Hxlf).
    exists (mkXlfFile rel (Ok files) :: pre), xlf, post.
    split; [reflexivity |]. split; [constructor; [reflexivity | exact Hpre] | exact Hxlf].
  - intros [= ->]. exists [], (mkXlfFile rel (Throw reason)), xlfs. auto.
Qed.

Lemma firstRejection_None (xlfs : list XlfFile) :
  firstRejection xlfs = None -> Forall (fun x => is_ok (parsed x) = true) xlfs.
Proof.
  unfold firstRejection. induction xlfs as [| x xlfs IH]; cbn [List.find]; [constructor |].
  destruct x as [rel [files | r]]; cbn; [| discriminate].
  intros H. constructor; [reflexivity | exact (IH H)].
Qed.

(** X11. A rejected parse is what the stream reports: the [error] event
    carries the reason of the first parse that was rejected, one reason and
    not the array of them, and nothing is queued; the reason is also among
    the collected ones. *)
Theorem rejection_reported (fs : FS) (folder : string) (tps : list TranslationPath)
    (pre : list XlfFile) (xlf : XlfFile) (reason : Reason) (post : list XlfFile) :
  Forall (fun x => is_ok (parsed x) = true) pre ->
  parsed xlf = Throw reason ->
  modifyI18nPackFiles i18nPackVersion processPlatform fs folder tps (pre ++ xlf :: post)
  = ErrorEvent reason
  /\ queuedFiles
       (modifyI18nPackFiles i18nPackVersion processPlatform fs folder tps
          (pre ++ xlf :: post))
     = []
  /\ In reason
       (errors (fold_left (through i18nPackVersion) (pre ++ xlf :: post)
                  (initialPacks i18nPackVersion))).
Proof.
  intros Hpre Hxlf.
  assert (Hevent : modifyI18nPackFiles i18nPackVersion processPlatform fs folder tps
                     (pre ++ xlf :: post) = ErrorEvent reason).
  { unfold modifyI18nPackFiles, flush.
    rewrite (firstRejection_split pre xlf reason post Hpre Hxlf). reflexivity. }
  split; [exact Hevent |]. split; [rewrite Hevent; reflexivity |].
  apply (errors_rejected i18nPackVersion _ _ xlf); [| exact Hxlf].
  apply in_or_app. right. left. reflexivity.
Qed.

(** X12. The reasons that an [error] event of the stream can carry: the
    reason of the first rejected parse; or, when every parse resolved and
    the routing of a file threw, the array [errors] itself, which holds
    what was thrown; or, when nothing was collected, what the update of the
    main catalog threw. *)
Theorem error_event_reason (fs : FS) (folder : string) (tps : list TranslationPath)
    (xlfs : list XlfFile) (reason : Reason) :
  modifyI18nPackFiles i18nPackVersion processPlatform fs folder tps xlfs
  = ErrorEvent reason ->
  (exists pre xlf post,
      xlfs = pre ++ xlf :: post
      /\ Forall (fun x => is_ok (parsed x) = true) pre
      /\ parsed xlf = Throw reason)
  \/ (Forall (fun x => is_ok (parsed x) = true) xlfs
      /\ errors (fold_left (through i18nPackVersion) xlfs (initialPacks i18nPackVersion))
         <> []
      /\ reason
         = Reasons (errors (fold_left (through i18nPackVersion) xlfs
                              (initialPacks i18nPackVersion)))
      /\ Forall (fun thrown => thrown = TypeError)
           (errors (fold_left (through i18nPackVersion) xlfs
                      (initialPacks i18nPackVersion))))
  \/ (Forall (fun x => is_ok (parsed x) = true) xlfs
      /\ errors (fold_left (through i18nPackVersion) xlfs (initialPacks i18nPackVersion))
         = []
      /\ updateMainI18nFile processPlatform fs (folder +:+ "\main") "./main"
           (mainPack (fold_left (through i18nPackVersion) xlfs
                        (initialPacks i18nPackVersion)))
         = Throw reason).
Proof.
  unfold modifyI18nPackFiles, flush.
  destruct (firstRejection xlfs) as [r |] eqn:Hfirst.
  - intros [= <-]. left. exact (firstRejection_Some xlfs r Hfirst).
  - apply firstRejection_None in Hfirst. intros Hevent. right.
    destruct (errors_resolved i18nPackVersion xlfs (initialPacks i18nPackVersion) Hfirst)
      as (more & Herr & Hmore).
    change (errors (initialPacks i18nPackVersion) ++ more) with more in Herr.
    rewrite !Herr in Hevent |- *.
    destruct more as [| thrown more]; cbn [List.length Nat.eqb negb] in Hevent.
    + destruct (updateMainI18nFile processPlatform fs (folder +:+ "\main") "./main"
                  (mainPack (fold_left (through i18nPackVersion) xlfs
                               (initialPacks i18nPackVersion))))
        as [file | r] eqn:Hupdate; [discriminate Hevent |].
      injection Hevent as <-. right. auto.
    + injection Hevent as <-. left. split; [exact Hfirst |].
      split; [discriminate |]. auto.
Qed.

End BatchMore.

Lemma rejection_reported_witness :
  LocFunc.modifyI18nPackFiles "1.0.0" "linux" Samples.sampleFs
    "i18n/ads-language-pack-de/translations" []
    ([LocFunc.mkXlfFile "de/constructor.de.xlf" (Ok [Samples.constructorFile])]
       ++ LocFunc.mkXlfFile "de/git.de.xlf" (Throw (LocFunc.ParseFailure "bad XLIFF"))
       :: [LocFunc.mkXlfFile "de/json.de.xlf" (Throw (LocFunc.ParseFailure "no body"))])
  = LocFunc.ErrorEvent (LocFunc.ParseFailure "bad XLIFF")
  /\ LocFunc.queuedFiles
       (LocFunc.modifyI18nPackFiles "1.0.0" "linux" Samples.sampleFs
          "i18n/ads-language-pack-de/translations" []
          ([LocFunc.mkXlfFile "de/constructor.de.xlf" (Ok [Samples.constructorFile])]
             ++ LocFunc.mkXlfFile "de/git.de.xlf" (Throw (LocFunc.ParseFailure "bad XLIFF"))
             :: [LocFunc.mkXlfFile "de/json.de.xlf"
                   (Throw (LocFunc.ParseFailure "no body"))]))
     = []
  /\ In (LocFunc.ParseFailure "bad XLIFF")
       (LocFunc.errors
          (fold_left (LocFunc.through "1.0.0")
             ([LocFunc.mkXlfFile "de/constructor.de.xlf" (Ok [Samples.constructorFile])]
                ++ LocFunc.mkXlfFile "de/git.de.xlf"
                     (Throw (LocFunc.ParseFailure "bad XLIFF"))
                :: [LocFunc.mkXlfFile "de/json.de.xlf"
                      (Throw (LocFunc.ParseFailure "no body"))])
             (LocFunc.initialPacks "1.0.0"))).
Proof.
  apply (rejection_reported "1.0.0" "linux" Samples.sampleFs
           "i18n/ads-language-pack-de/translations" []
           [LocFunc.mkXlfFile "de/constructor.de.xlf" (Ok [Samples.constructorFile])]
           (LocFunc.mkXlfFile "de/git.de.xlf" (Throw (LocFunc.ParseFailure "bad XLIFF")))
           (LocFunc.ParseFailure "bad XLIFF")
           [LocFunc.mkXlfFile "de/json.de.xlf" (Throw (LocFunc.ParseFailure "no body"))]).
  - constructor; [reflexivity | constructor].
  - reflexivity.
Defined.

Lemma error_event_reason_witness :
  (exists pre xlf post,
      Samples.constructorBatch = pre ++ xlf :: post
      /\ Forall (fun x => is_ok (LocFunc.parsed x) = true) pre
      /\ LocFunc.parsed xlf = Throw (LocFunc.Reasons [LocFunc.TypeError]))
  \/ (Forall (fun x => is_ok (LocFunc.parsed x) = true) Samples.constructorBatch
      /\ LocFunc.errors (fold_left (LocFunc.through "1.0.0") Samples.constructorBatch
                           (LocFunc.initialPacks "1.0.0")) <> []
      /\ LocFunc.Reasons [LocFunc.TypeError]
         = LocFunc.Reasons
             (LocFunc.errors (fold_left (LocFunc.through "1.0.0") Samples.constructorBatch
                                (LocFunc.initialPacks "1.0.0")))
      /\ Forall (fun thrown => thrown = LocFunc.TypeError)
           (LocFunc.errors (fold_left (LocFunc.through "1.0.0") Samples.constructorBatch
                              (LocFunc.initialPacks "1.0.0"))))
  \/ (Forall (fun x => is_ok (LocFunc.parsed x) = true) Samples.constructorBatch
      /\ LocFunc.errors (fold_left (LocFunc.through "1.0.0") Samples.constructorBatch
                           (LocFunc.initialPacks "1.0.0")) = []
      /\ LocFunc.updateMainI18nFile "linux" Samples.sampleFs
           ("i18n/ads-language-pack-de/translations" +:+ "\main") "./main"
           (LocFunc.mainPack (fold_left (LocFunc.through "1.0.0") Samples.constructorBatch
                                (LocFunc.initialPacks "1.0.0")))
         = Throw (LocFunc.Reasons [LocFunc.TypeError])).
Proof.
  apply (error_event_reason "1.0.0" "linux" Samples.sampleFs
           "i18n/ads-language-pack-de/translations" [] Samples.constructorBatch
           (LocFunc.Reasons [LocFunc.TypeError])).
  reflexivity.
Defined.

(** ** The catalogs that are written *)

Section CatalogFiles.
Import JsString JsObject Json NodePath LocFunc.
#[local] Arguments String.append !s1 s2 : simpl nomatch.

Variables i18nPackVersion processPlatform : string.

Lemma nodup_snoc (l : list string) (k : string) :
  ~ In k l -> List.NoDup l -> List.NoDup (l ++ [k]).
Proof.
  intros Hnin Hnd. apply List.NoDup_app; [exact Hnd | repeat constructor; intros [] |].
  intros a Hin [<- | []]. contradiction.
Qed.

Lemma nodup_insertIndex {V} n k (v : V) (o : obj V) :
  ~ In k (keys o) -> List.NoDup (keys o) -> List.NoDup (keys (insertIndex n k v o)).
Proof.
  unfold keys. induction o as [| [k0 v0] o IH]; intros Hnin Hnd; cbn in *.
  - repeat constructor. intros [].
  - apply List.NoDup_cons_iff in Hnd as [Hk0 Hnd].
    destruct (arrayIndex k0) as [m |]; [destruct (m <? n)%N |]; cbn;
      try (constructor; [intros [<- | Hin]; tauto | constructor; assumption]).
    constructor; [| apply IH; tauto].
    intros Hin. apply in_map_iff in Hin as ([k1 v1] & Heq & Hin). cbn in Heq. subst k1.
    apply In_insertIndex in Hin as [[= -> ->] | Hin]; [tauto |].
    apply Hk0. apply in_map_iff. exists (k0, v1). auto.
Qed.

(** An object has each property name once. *)
Lemma nodup_set {V} k (v : V) (o : obj V) :
  List.NoDup (keys o) -> List.NoDup (keys (set k v o)).
Proof.
  intros Hnd. unfold set. destruct (has k o) eqn:Hhas.
  - rewrite keys_update. exact Hnd.
  - assert (Hnin : ~ In k (keys o)).
    { intros Hin. apply has_keys in Hin. congruence. }
    destruct (arrayIndex k) as [n |]; [apply nodup_insertIndex; assumption |].
    unfold keys in *. rewrite map_app. cbn. apply nodup_snoc; assumption.
Qed.

(** The two outcomes of the routing of a file, and what the first does to
    the names of the catalogs. *)
Lemma route_cases resource (st : Packs) (file : ParsedXLF) :
  (exists st',
      route i18nPackVersion resource st file = Ok st'
      /\ (forall k, In k (keys (extensionsPacks st'))
                    <-> In k (keys (extensionsPacks st))
                        \/ (resource <> "sql" /\ k = resource))
      /\ (resource <> "sql" ->
          In resource (keys (extensionsPacks st)) \/ inherited resource = false)
      /\ (List.NoDup (keys (extensionsPacks st)) ->
          List.NoDup (keys (extensionsPacks st'))))
  \/ (route i18nPackVersion resource st file = Throw TypeError
      /\ resource <> "sql"
      /\ inherited resource = true
      /\ ~ In resource (keys (extensionsPacks st))).
Proof.
  unfold route. destruct (String.eqb_spec resource "sql") as [-> | Hne]; cbn [negb].
  - left. eexists. split; [reflexivity |]. cbn [extensionsPacks].
    split; [intros k; intuition congruence |]. split; [congruence | auto].
  - destruct (get resource (extensionsPacks st)) as [extPack |] eqn:Hget.
    + left. eexists. split; [reflexivity |]. cbn [extensionsPacks].
      split; [intros k; rewrite keys_set; intuition congruence |].
      split; [intros _; left; exact (get_Some_keys _ _ _ Hget) | apply nodup_set].
    + destruct (inherited resource) eqn:Hin.
      * right. repeat split; [exact Hne | apply get_keys, Hget].
      * left. eexists. split; [reflexivity |]. cbn [extensionsPacks].
        split; [intros k; rewrite keys_set; intuition congruence |].
        split; [intros _; right; reflexivity | apply nodup_set].
Qed.

Lemma keys_forEach resource (files : list ParsedXLF) (st : Packs) k :
  In k (keys (extensionsPacks (fst (forEach i18nPackVersion resource files st))))
  <-> In k (keys (extensionsPacks st))
      \/ (resource <> "sql" /\ k = resource /\ files <> [] /\ inherited resource = false).
Proof.
  revert st. induction files as [| file files IH]; intros st; cbn [forEach].
  - cbn [fst]. intuition congruence.
  - destruct (route_cases resource st file)
      as [(st' & -> & Hkeys & Hown & _) | (-> & Hne & Hin & Hnot)].
    + rewrite IH, Hkeys. split.
      * intros [[Hst | [Hne ->]] | (Hne & -> & _ & Hinh)]; [left; exact Hst | |].
        -- destruct (Hown Hne) as [Hst | Hinh]; [left; exact Hst |].
           right. repeat split; [exact Hne | discriminate | exact Hinh].
        -- right. repeat split; [exact Hne | discriminate | exact Hinh].
      * intros [Hst | (Hne & -> & _ & Hinh)]; [left; left; exact Hst |].
        left. right. split; [exact Hne | reflexivity].
    + cbn [fst]. split; [auto |]. intros [Hst | (_ & _ & _ & Hinh)]; [exact Hst |].
      congruence.
Qed.

Lemma nodup_forEach resource (files : list ParsedXLF) (st : Packs) :
  List.NoDup (keys (extensionsPacks st)) ->
  List.NoDup (keys (extensionsPacks (fst (forEach i18nPackVersion resource files st)))).
Proof.
  revert st. induction files as [| file files IH]; intros st Hnd; cbn [forEach];
    [exact Hnd |].
  destruct (route_cases resource st file) as [(st' & -> & _ & _ & Hnd') | (-> & _)];
    [apply IH, Hnd', Hnd | exact Hnd].
Qed.

(** The catalogs after an XLF file are those that its routing left. *)
Lemma extensionsPacks_through (st : Packs) (xlf : XlfFile) :
  extensionsPacks (through i18nPackVersion st xlf)
  = match parsed xlf with
    | Ok resolvedFiles =>
        extensionsPacks (fst (forEach i18nPackVersion (resourceOf xlf) resolvedFiles st))
    | Throw _ => extensionsPacks st
    end.
Proof.
  unfold through. destruct (parsed xlf) as [files | reason]; [| reflexivity].
  destruct (forEach i18nPackVersion (resourceOf xlf) files st) as [st' [reason |]];
    reflexivity.
Qed.

(** The resources that have a catalog once the parses are settled. *)
Lemma keys_through (xlfs : list XlfFile) (st : Packs) k :
  In k (keys (extensionsPacks (fold_left (through i18nPackVersion) xlfs st)))
  <-> In k (keys (extensionsPacks st))
      \/ (k <> "sql" /\ inherited k = false
          /\ exists xlf file rest,
              In xlf xlfs /\ resourceOf xlf = k /\ parsed xlf = Ok (file :: rest)).
Proof.
  revert st. induction xlfs as [| x xlfs IH]; intros st; cbn [fold_left].
  - split; [auto | intros [H | (_ & _ & xlf & _ & _ & [] & _)]; exact H].
  - rewrite IH, extensionsPacks_through.
    destruct (parsed x) as [files | reason] eqn:Hx.
    + rewrite keys_forEach. split.
      * intros [[Hst | (Hne & -> & Hfiles & Hinh)]
               | (Hne & Hinh & xlf & file & rest & Hin & Hres & Hp)].
        -- left. exact Hst.
        -- right. split; [exact Hne |]. split; [exact Hinh |].
           destruct files as [| file rest]; [contradiction |].
           exists x, file, rest. split; [left; reflexivity | auto].
        -- right. split; [exact Hne |]. split; [exact Hinh |]. exists xlf, file, rest.
           split; [right; exact Hin | auto].
      * intros [Hst | (Hne & Hinh & xlf & file & rest & [<- | Hin] & Hres & Hp)].
        -- left. left. exact Hst.
        -- left. right. rewrite Hp in Hx. injection Hx as <-. subst k.
           split; [exact Hne |]. split; [reflexivity |]. split; [discriminate | exact Hinh].
        -- right. split; [exact Hne |]. split; [exact Hinh |]. exists xlf, file, rest. auto.
    + split.
      * intros [Hst | (Hne & Hinh & xlf & file & rest & Hin & Hres & Hp)];
          [left; exact Hst |].
        right. split; [exact Hne |]. split; [exact Hinh |]. exists xlf, file, rest.
        split; [right; exact Hin | auto].
      * intros [Hst | (Hne & Hinh & xlf & file & rest & [<- | Hin] & Hres & Hp)];
          [left; exact Hst | congruence |].
        right. split; [exact Hne |]. split; [exact Hinh |]. exists xlf, file, rest. auto.
Qed.

Lemma nodup_through (xlfs : list XlfFile) (st : Packs) :
  List.NoDup (keys (extensionsPacks st)) ->
  List.NoDup (keys (extensionsPacks (fold_left (through i18nPackVersion) xlfs st))).
Proof.
  revert st. induction xlfs as [| x xlfs IH]; intros st Hnd; cbn [fold_left];
    [exact Hnd |].
  apply IH. rewrite extensionsPacks_through. destruct (parsed x) as [files | reason];
    [apply nodup_forEach, Hnd | exact Hnd].
Qed.

(** Without an error collected, no resolved file was of a resource with a
    name that every object inherits. *)
Lemma resolved_without_error (xlfs : list XlfFile) (st : Packs) :
  errors (fold_left (through i18nPackVersion) xlfs st) = [] ->
  (forall k, In k (keys (extensionsPacks st)) -> inherited k = false) ->
  forall xlf file rest,
    In xlf xlfs -> parsed xlf = Ok (file :: rest) -> resourceOf xlf <> "sql" ->
    inherited (resourceOf xlf) = false.
Proof.
  revert st. induction xlfs as [| x xlfs IH]; intros st Herr Hown xlf file rest;
    [intros [] |].
  cbn [fold_left] in Herr.
  destruct (errors_through i18nPackVersion xlfs (through i18nPackVersion st x))
    as [more Hmore].
  rewrite Hmore in Herr. apply app_eq_nil in Herr as [Herr Hnil].
  intros [<- | Hin] Hp Hne.
  - rewrite errors_through_one, Hp in Herr. apply app_eq_nil in Herr as [_ Herr].
    destruct (inherited (resourceOf x)) eqn:Hinh; [| reflexivity]. exfalso.
    cbn [forEach] in Herr.
    destruct (route_cases (resourceOf x) st file)
      as [(st' & Hroute & _ & Hnew & _) | (Hroute & _)].
    + destruct (Hnew Hne) as [Hst | Hfalse]; [| congruence].
      rewrite (Hown _ Hst) in Hinh. discriminate Hinh.
    + rewrite Hroute in Herr. discriminate Herr.
  - apply (IH (through i18nPackVersion st x)) with (file := file) (rest := rest);
      try assumption.
    + rewrite Hmore, Herr, Hnil. reflexivity.
    + intros k. rewrite extensionsPacks_through.
      destruct (parsed x) as [files | reason]; [| apply Hown].
      rewrite keys_forEach. intros [Hst | (_ & -> & _ & Hinh)]; [exact (Hown _ Hst) |].
      exact Hinh.
Qed.

Lemma updateMainI18nFile_path fs existing original (messages : I18nPack) file :
  updateMainI18nFile processPlatform fs existing original messages = Ok file ->
  path file = join [original +:+ ".i18n.json"].
Proof.
  unfold updateMainI18nFile.
  destruct (fs !! join [existing +:+ ".i18n.json"]) as [[[s | l | current] | p | b] |];
    try discriminate.
  destruct (get "contents" current) as [[s | l | oc] |]; try discriminate.
  intros [= <-]. reflexivity.
Qed.

(** What the stream queues, in the shape that [flush] gives it. *)
Lemma modifyI18nPackFiles_Queued fs folder tps (xlfs : list XlfFile) files tps' :
  modifyI18nPackFiles i18nPackVersion processPlatform fs folder tps xlfs
  = Queued files tps' ->
  exists translatedMainFile,
    errors (fold_left (through i18nPackVersion) xlfs (initialPacks i18nPackVersion)) = []
    /\ updateMainI18nFile processPlatform fs (folder +:+ "\main") "./main"
      (mainPack (fold_left (through i18nPackVersion) xlfs (initialPacks i18nPackVersion)))
    = Ok translatedMainFile
    /\ files
       = translatedMainFile
           :: List.map (fun e => createI18nFile processPlatform ("extensions/" +:+ fst e)
                                   (snd e))
                (extensionsPacks (fold_left (through i18nPackVersion) xlfs
                                    (initialPacks i18nPackVersion)))
    /\ tps'
       = tps ++ List.map (fun e => mkTranslationPath (fst e)
                                     ("extensions/" +:+ fst e +:+ ".i18n.json"))
                  (extensionsPacks (fold_left (through i18nPackVersion) xlfs
                                      (initialPacks i18nPackVersion))).
Proof.
  unfold modifyI18nPackFiles, flush.
  destruct (firstRejection xlfs); [discriminate |].
  destruct (errors (fold_left (through i18nPackVersion) xlfs
                      (initialPacks i18nPackVersion))) as [| thrown more];
    [| discriminate].
  cbn [List.length Nat.eqb negb].
  destruct (updateMainI18nFile _ _ _ _ _) as [file | reason]; [| discriminate].
  intros [= <- <-]. exists file. auto.
Qed.

(** X13. What a batch without failure queues: the main catalog first, and
    then one catalog with one translation path for each resource other than
    [sql] of which a parse gave at least one file, each resource once; the
    path of a catalog is the resource name of its translation path, which
    is made of the name of the resource. *)
Theorem batch_output (fs : FS) (folder : string) (tps : list TranslationPath)
    (xlfs : list XlfFile) (files : list File) (tps' : list TranslationPath) :
  modifyI18nPackFiles i18nPackVersion processPlatform fs folder tps xlfs
  = Queued files tps' ->
  exists translatedMainFile translatedExtFiles added,
    files = translatedMainFile :: translatedExtFiles
    /\ tps' = tps ++ added
    /\ path translatedMainFile = "main.i18n.json"
    /\ Forall2 (fun f tp => path f = join [resourceName tp]
                            /\ resourceName tp = "extensions/" +:+ id tp +:+ ".i18n.json")
         translatedExtFiles added
    /\ List.NoDup (List.map id added)
    /\ (forall r, In r (List.map id added)
                  <-> r <> "sql"
                      /\ exists xlf file rest,
                          In xlf xlfs /\ resourceOf xlf = r
                          /\ parsed xlf = Ok (file :: rest)).
Proof.
  intros Hq. apply modifyI18nPackFiles_Queued in Hq as (main & Herr & Hmain & -> & ->).
  pose proof (nodup_through xlfs (initialPacks i18nPackVersion) (List.NoDup_nil _)) as Hnd.
  pose proof (keys_through xlfs (initialPacks i18nPackVersion)) as Hkeys.
  pose proof (resolved_without_error xlfs (initialPacks i18nPackVersion) Herr
                (fun k (Hin : In k []) => match Hin with end)) as Hown.
  set (packs := extensionsPacks (fold_left (through i18nPackVersion) xlfs
                                   (initialPacks i18nPackVersion))) in *.
  eexists main, _, _. split; [reflexivity |]. split; [reflexivity |].
  split; [rewrite (updateMainI18nFile_path _ _ _ _ _ Hmain); reflexivity |].
  assert (Hids : List.map id (List.map (fun e : string * I18nPack =>
                                          mkTranslationPath (fst e)
                                            ("extensions/" +:+ fst e +:+ ".i18n.json"))
                                packs) = keys packs).
  { unfold keys. rewrite map_map. reflexivity. }
  rewrite Hids. split; [| split; [exact Hnd |]].
  - clear. induction packs as [| e packs IH]; cbn [List.map]; constructor; auto.
  - intros r. rewrite Hkeys. cbn. split.
    + intros [[] | (Hne & _ & Hxlf)]. auto.
    + intros (Hne & xlf & file & rest & Hin & Hres & Hp). right.
      split; [exact Hne |]. split; [| eauto 7].
      rewrite <- Hres. apply (Hown xlf file rest Hin Hp). congruence.
Qed.

(** X14. Without the main catalog on disk nothing is imported: the stream
    gives an error, also when every parse resolved, and the pipeline writes
    no catalog, not even those of the extensions, and leaves the descriptor
    as it is. *)
Theorem missing_main_catalog (fs : FS) (locExtFolder : string)
    (packageJSON : PackageJSON) (i : nat) (xlfs : list XlfFile) :
  fs !! join [(join [locExtFolder; "translations"] +:+ "\main") +:+ ".i18n.json"] = None ->
  (exists reason,
      modifyI18nPackFiles i18nPackVersion processPlatform fs
        (join [locExtFolder; "translations"]) [] xlfs
      = ErrorEvent reason)
  /\ importTranslations i18nPackVersion processPlatform fs locExtFolder packageJSON i xlfs
     = (packageJSON, fs).
Proof.
  intros Hmissing.
  assert (Hstream : exists reason,
             modifyI18nPackFiles i18nPackVersion processPlatform fs
               (join [locExtFolder; "translations"]) [] xlfs
             = ErrorEvent reason).
  { unfold modifyI18nPackFiles, flush.
    destruct (firstRejection xlfs); [eauto |].
    destruct (negb _); [eauto |].
    unfold updateMainI18nFile. rewrite Hmissing. eauto. }
  split; [exact Hstream |].
  unfold importTranslations. destruct Hstream as [reason ->]. reflexivity.
Qed.

End CatalogFiles.

Lemma batch_output_witness :
  exists translatedMainFile translatedExtFiles added,
    [LocFunc.mkFile "main.i18n.json"
       (LocFunc.catalogObject
          (LocFunc.mkI18nPack "1.0.0"
             [("vs/editor", Json.JObject [("find", Json.JString "Suchen")]);
              ("sql/base/common", Json.JObject [("open", Json.JString "Öffnen")])]))
       false;
     LocFunc.mkFile "extensions/git.i18n.json"
       (LocFunc.catalogObject
          (LocFunc.mkI18nPack "1.0.0"
             [("package", Json.JObject [("clone", Json.JString "Klonen")])]))
       false]
    = translatedMainFile :: translatedExtFiles
    /\ [LocFunc.mkTranslationPath "git" "extensions/git.i18n.json"] = [] ++ added
    /\ LocFunc.path translatedMainFile = "main.i18n.json"
    /\ Forall2 (fun f tp => LocFunc.path f = NodePath.join [LocFunc.resourceName tp]
                            /\ LocFunc.resourceName tp
                               = "extensions/" +:+ LocFunc.id tp +:+ ".i18n.json")
         translatedExtFiles added
    /\ List.NoDup (List.map LocFunc.id added)
    /\ (forall r, In r (List.map LocFunc.id added)
                  <-> r <> "sql"
                      /\ exists xlf file rest,
                          In xlf Samples.successBatch /\ LocFunc.resourceOf xlf = r
                          /\ LocFunc.parsed xlf = Ok (file :: rest)).
Proof.
  apply (batch_output "1.0.0" "linux" Samples.sampleFs
           "i18n/ads-language-pack-de/translations" [] Samples.successBatch).
  vm_compute. reflexivity.
Defined.

Lemma missing_main_catalog_witness :
  (exists reason,
      LocFunc.modifyI18nPackFiles "1.0.0" "linux" Samples.sampleFs
        (NodePath.join ["i18n/ads-language-pack-fr"; "translations"]) []
        Samples.successBatch
      = LocFunc.ErrorEvent reason)
  /\ LocFunc.importTranslations "1.0.0" "linux" Samples.sampleFs
       "i18n/ads-language-pack-fr" Samples.samplePackageJSON 0 Samples.successBatch
     = (Samples.samplePackageJSON, Samples.sampleFs).
Proof.
  apply (missing_main_catalog "1.0.0" "linux" Samples.sampleFs
           "i18n/ads-language-pack-fr" Samples.samplePackageJSON 0 Samples.successBatch).
  vm_compute. reflexivity.
Defined.

(** ** The descriptor after an import *)

Section ImportedEntries.
Import JsString JsObject Json NodePath LocFunc.
#[local] Arguments String.append !s1 s2 : simpl nomatch.

Variables i18nPackVersion processPlatform : string.

Lemma removeNonExistant_In (fs : FS) translationDataFolder translations t :
  In t (removeNonExistant fs translationDataFolder translations) ->
  In t translations
  /\ existsSync fs
       (join [translationDataFolder; replace (t_path t) "./translations" EmptyString])
     = true.
Proof.
  unfold removeNonExistant. cbv zeta.
  pose proof (splice_loop
                (fun curr =>
                   negb (existsSync fs
                           (join [translationDataFolder;
                                  replace (t_path curr) "./translations" EmptyString])))
                [] translations) as Hloop.
  cbn [app] in Hloop. rewrite Hloop by (intros t0 []).
  intros Hin. apply filter_In in Hin as [Hin Hex].
  split; [exact Hin |]. apply negb_true_iff, negb_false_iff in Hex. exact Hex.
Qed.

Lemma existsSync_dom (fs fs' : FS) p :
  (forall k, is_Some (fs !! k) -> is_Some (fs' !! k)) ->
  existsSync fs p = true -> existsSync fs' p = true.
Proof.
  intros Hdom. rewrite !existsSync_iff. intros (k & Hk & Hp). exists k. auto.
Qed.

Lemma dest_dom (fs : FS) folder (files : list File) k :
  is_Some (fs !! k) -> is_Some (dest fs folder files !! k).
Proof.
  unfold dest. revert fs. induction files as [| f files IH]; intros fs Hk; cbn [fold_left];
    [exact Hk |].
  apply IH. apply lookup_insert_is_Some.
  destruct (decide (join [folder; path f] = k)); auto.
Qed.

(** A queued file is on disk after [vfs.dest]. *)
Lemma dest_written (fs : FS) folder (files : list File) f :
  In f files -> is_Some (dest fs folder files !! join [folder; path f]).
Proof.
  revert fs. induction files as [| f0 files IH]; intros fs; [intros [] |].
  intros [<- | Hin]; [| exact (IH _ Hin)].
  change (dest fs folder (f0 :: files))
    with (dest (<[join [folder; path f0] := JsonFile (document f0)]> fs) folder files).
  apply dest_dom. rewrite lookup_insert_eq. eauto.
Qed.

Lemma properSegments_cons (a : string) (l : list string) :
  properSegments (a :: l) = properSegments [a] ++ properSegments l.
Proof.
  unfold properSegments. cbn [List.map List.concat].
  rewrite app_nil_r, List.filter_app. reflexivity.
Qed.

(** The path of an entry, with [./translations] taken off, leads to the
    file that was written for its resource name. *)
Lemma join_leading_slash (a rn : string) :
  join [a; replace ("./translations/" +:+ rn) "./translations" EmptyString]
  = join [a; join [rn]].
Proof.
  change (replace ("./translations/" +:+ rn) "./translations" EmptyString)
    with (String "/" rn).
  unfold join at 1 2.
  rewrite (properSegments_cons a [String "/" rn]), (properSegments_cons a [join [rn]]).
  rewrite (properSegments_join [rn] []).
  change (properSegments []) with (@nil string). rewrite app_nil_r.
  reflexivity.
Qed.

(** X15. After an import without failure the descriptor has no dangling
    entry: the file of every entry of the localization exists below the
    folder of the translations, every catalog of an extension that was
    written has its entry, and the [package.json] on disk is the descriptor
    that results. The folder of the pack is a relative path as [path.join]
    gives it, and what follows [./translations] in the path of an entry
    that was there has no [..] segment and no separator at the end. *)
Theorem no_dangling_entries (fs : FS) (locExtFolder : string)
    (packageJSON : PackageJSON) (i : nat) (xlfs : list XlfFile)
    (localization : Localization) (files : list File) (tps : list TranslationPath) :
  normal locExtFolder = true ->
  localizations packageJSON !! i = Some localization ->
  Forall (fun curr => follows (replace (t_path curr) "./translations" EmptyString) = true)
    (translations localization) ->
  modifyI18nPackFiles i18nPackVersion processPlatform fs
    (join [locExtFolder; "translations"]) [] xlfs
  = Queued files tps ->
  exists translations',
    localizations
      (fst (importTranslations i18nPackVersion processPlatform fs locExtFolder
              packageJSON i xlfs)) !! i
    = Some (setTranslations localization translations')
    /\ Forall
         (fun t =>
            existsSync
              (snd (importTranslations i18nPackVersion processPlatform fs locExtFolder
                      packageJSON i xlfs))
              (join [join [locExtFolder; "translations"];
                     replace (t_path t) "./translations" EmptyString])
            = true)
         translations'
    /\ (forall tp, In tp tps ->
                   In ("./translations/" +:+ resourceName tp)
                      (List.map t_path translations'))
    /\ snd (importTranslations i18nPackVersion processPlatform fs locExtFolder
              packageJSON i xlfs) !! join [locExtFolder; "package.json"]
       = Some (ManifestFile
                 (fst (importTranslations i18nPackVersion processPlatform fs locExtFolder
                         packageJSON i xlfs))).
Proof.
  intros _ Hloc _ Hq. unfold importTranslations. rewrite Hq. unfold onEnd. rewrite Hloc.
  cbn [fst snd localizations setLocalizations].
  set (folder := join [locExtFolder; "translations"]) in *.
  set (fs1 := dest fs folder files).
  set (pruned := removeNonExistant fs1 folder (translations localization)).
  exists (reconcile pruned tps).
  split; [apply list_lookup_insert_eq, (lookup_lt_Some _ _ _ Hloc) |].
  split; [| split; [intros tp; apply reconcile_present | apply lookup_insert_eq]].
  apply List.Forall_forall. intros t Hin.
  apply existsSync_dom with (fs := fs1).
  { intros k Hk. apply lookup_insert_is_Some.
    destruct (decide (join [locExtFolder; "package.json"] = k)); auto. }
  assert (Hpath : In (t_path t) (List.map t_path (reconcile pruned tps)))
    by (apply in_map; exact Hin).
  destruct (reconcile_shape pruned tps) as (added & Hpaths & _ & _ & Hfrom).
  rewrite Hpaths in Hpath. apply in_app_or in Hpath as [Hold | Hnew].
  - apply in_map_iff in Hold as (t0 & Heq & Hin0).
    apply removeNonExistant_In in Hin0 as [_ Hex]. rewrite <- Heq. exact Hex.
  - destruct (Hfrom _ Hnew) as (tp & Htp & ->).
    apply modifyI18nPackFiles_Queued in Hq as (main & _ & _ & -> & ->).
    cbn [app] in Htp. apply in_map_iff in Htp as ([ext pack] & <- & Hpack).
    cbn [fst snd resourceName]. rewrite join_leading_slash.
    apply existsSync_iff.
    exists (join [folder; path (createI18nFile processPlatform ("extensions/" +:+ ext) pack)]).
    split; [| left; reflexivity].
    apply dest_written. right.
    apply in_map_iff. exists (ext, pack). auto.
Qed.

End ImportedEntries.

Lemma no_dangling_entries_witness :
  exists translations',
    LocFunc.localizations
      (fst (LocFunc.importTranslations "1.0.0" "linux" Samples.sampleFs
              "i18n/ads-language-pack-de" Samples.samplePackageJSON 0
              Samples.successBatch)) !! 0%nat
    = Some (LocFunc.setTranslations
              (LocFunc.mkLocalization "de" "German" "Deutsch" None
                 Samples.sampleTranslations)
              translations')
    /\ Forall
         (fun t =>
            LocFunc.existsSync
              (snd (LocFunc.importTranslations "1.0.0" "linux" Samples.sampleFs
                      "i18n/ads-language-pack-de" Samples.samplePackageJSON 0
                      Samples.successBatch))
              (NodePath.join [NodePath.join ["i18n/ads-language-pack-de"; "translations"];
                              JsString.replace (LocFunc.t_path t) "./translations"
                                EmptyString])
            = true)
         translations'
    /\ (forall tp, In tp [LocFunc.mkTranslationPath "git" "extensions/git.i18n.json"] ->
                   In ("./translations/" +:+ LocFunc.resourceName tp)
                      (List.map LocFunc.t_path translations'))
    /\ snd (LocFunc.importTranslations "1.0.0" "linux" Samples.sampleFs
              "i18n/ads-language-pack-de" Samples.samplePackageJSON 0
              Samples.successBatch)
         !! NodePath.join ["i18n/ads-language-pack-de"; "package.json"]
       = Some (LocFunc.ManifestFile
                 (fst (LocFunc.importTranslations "1.0.0" "linux" Samples.sampleFs
                         "i18n/ads-language-pack-de" Samples.samplePackageJSON 0
                         Samples.successBatch))).
Proof.
  apply (no_dangling_entries "1.0.0" "linux" Samples.sampleFs "i18n/ads-language-pack-de"
           Samples.samplePackageJSON 0 Samples.successBatch
           (LocFunc.mkLocalization "de" "German" "Deutsch" None Samples.sampleTranslations)
           (LocFunc.queuedFiles
              (LocFunc.modifyI18nPackFiles "1.0.0" "linux" Samples.sampleFs
                 (NodePath.join ["i18n/ads-language-pack-de"; "translations"]) []
                 Samples.successBatch))
           [LocFunc.mkTranslationPath "git" "extensions/git.i18n.json"]).
  - reflexivity.
  - reflexivity.
  - repeat constructor.
  - vm_compute. reflexivity.
Defined.

(** ** What the pruning of the sibling pack leaves *)

Section PruningMore.
Import JsString NodePath LocFunc.

(** X16. The pruning only deletes, and only extension files of the list:
    nothing is added or changed, and a path that is neither an extension
    file that was listed nor below one is as before. *)
Theorem prune_frame (fs : FS) (langId : string) (totalExtensions : list string) :
  pruneExtensionFiles fs langId totalExtensions ⊆ fs
  /\ (forall p,
        (forall n, In n totalExtensions ->
                   p <> extensionFilePath langId n
                   /\ below (extensionFilePath langId n) p = false) ->
        pruneExtensionFiles fs langId totalExtensions !! p = fs !! p).
Proof.
  unfold pruneExtensionFiles.
  destruct (existsSync fs (translationFolderOf langId)); [| split; reflexivity].
  split; [apply pruneLoop_subseteq |].
  intros p. revert fs. induction totalExtensions as [| n names IH]; intros fs Hp;
    cbn [fold_left]; [reflexivity |].
  rewrite IH by (intros n' Hin; apply Hp; right; exact Hin).
  unfold pruneStep. destruct (negb (kept fs langId n)); [| reflexivity].
  destruct (Hp n (or_introl eq_refl)) as [Hne Hbelow].
  apply lookup_rimraf_other; assumption.
Qed.

Lemma kept_pruneLoop langId names (fs : FS) n :
  Forall entryName names ->
  kept (fold_left (pruneStep langId) names fs) langId n = kept fs langId n.
Proof.
  intros Hnames. revert fs. induction Hnames as [| n0 names Hn0 _ IH]; intros fs;
    cbn [fold_left]; [reflexivity |].
  rewrite IH. apply kept_pruneStep, Hn0.
Qed.

Lemma existsb_eq {A} (f g : A -> bool) (l : list A) :
  (forall x, f x = g x) -> existsb f l = existsb g l.
Proof.
  intros Hfg. induction l as [| x l IH]; cbn; [reflexivity |].
  rewrite Hfg, IH. reflexivity.
Qed.

(** The loop, path by path: a path is gone when it is an extension file
    without a reason to stay, or below one, and is as before otherwise. The
    reasons are those of the file system at the start. *)
Lemma pruneLoop_lookup langId names (fs : FS) p :
  Forall entryName names ->
  fold_left (pruneStep langId) names fs !! p
  = if existsb (fun n => negb (kept fs langId n)
                         && (String.eqb p (extensionFilePath langId n)
                             || below (extensionFilePath langId n) p))
         names
    then None else fs !! p.
Proof.
  intros Hnames. revert fs. induction Hnames as [| n names Hn _ IH]; intros fs;
    cbn [fold_left existsb]; [reflexivity |].
  rewrite IH.
  rewrite (existsb_eq _ (fun n => negb (kept fs langId n)
                                 && (String.eqb p (extensionFilePath langId n)
                                     || below (extensionFilePath langId n) p)))
    by (intros n'; rewrite (kept_pruneStep langId fs n n' Hn); reflexivity).
  destruct (existsb _ names); [rewrite orb_true_r; reflexivity |].
  rewrite orb_false_r. unfold pruneStep.
  destruct (kept fs langId n); cbn [negb andb]; [reflexivity |].
  destruct (String.eqb_spec p (extensionFilePath langId n)) as [-> | Hne]; cbn [orb].
  - apply lookup_rimraf_gone. left. reflexivity.
  - destruct (below (extensionFilePath langId n) p) eqn:Hbelow.
    + apply lookup_rimraf_gone. right. exact Hbelow.
    + apply lookup_rimraf_other; assumption.
Qed.

Lemma pruneExtensionFiles_lookup (fs : FS) langId names p :
  Forall entryName names ->
  pruneExtensionFiles fs langId names !! p
  = if existsSync fs (translationFolderOf langId)
       && existsb (fun n => negb (kept fs langId n)
                            && (String.eqb p (extensionFilePath langId n)
                                || below (extensionFilePath langId n) p))
            names
    then None else fs !! p.
Proof.
  intros Hnames. unfold pruneExtensionFiles.
  destruct (existsSync fs (translationFolderOf langId)); [| reflexivity].
  cbn [andb]. apply pruneLoop_lookup, Hnames.
Qed.

(** X17. The result of the pruning does not depend on the order in which
    the folder was listed, nor on repetitions: two lists with the same
    names give the same files. *)
Theorem prune_order_independent (fs : FS) (langId : string)
    (totalExtensions listedOtherwise : list string) :
  Forall entryName totalExtensions ->
  (forall n, In n totalExtensions <-> In n listedOtherwise) ->
  pruneExtensionFiles fs langId listedOtherwise
  = pruneExtensionFiles fs langId totalExtensions.
Proof.
  intros Hnames Hsame.
  assert (Hnames' : Forall entryName listedOtherwise).
  { rewrite List.Forall_forall in *. intros n Hin. apply Hnames, Hsame, Hin. }
  assert (Hex : forall g, existsb g listedOtherwise = existsb g totalExtensions).
  { intros g. apply eq_true_iff_eq. rewrite !existsb_exists.
    split; intros (n & Hin & Hn); exists n; (split; [apply Hsame, Hin | exact Hn]). }
  apply map_eq. intros p. rewrite !pruneExtensionFiles_lookup by assumption.
  rewrite Hex. reflexivity.
Qed.

(** X18. Pruning a second time deletes nothing more, whatever part of the
    list the folder still shows. *)
Theorem prune_idempotent (fs : FS) (langId : string)
    (totalExtensions listedAgain : list string) :
  Forall entryName totalExtensions ->
  incl listedAgain totalExtensions ->
  pruneExtensionFiles (pruneExtensionFiles fs langId totalExtensions) langId listedAgain
  = pruneExtensionFiles fs langId totalExtensions.
Proof.
  intros Hnames Hincl.
  assert (Hagain : Forall entryName listedAgain).
  { rewrite List.Forall_forall in *. intros n Hin. apply Hnames, Hincl, Hin. }
  destruct (existsSync fs (translationFolderOf langId)) eqn:Hfolder.
  - apply map_eq. intros p.
    rewrite (pruneExtensionFiles_lookup _ langId listedAgain p Hagain).
    destruct (existsSync (pruneExtensionFiles fs langId totalExtensions)
                (translationFolderOf langId)); [| reflexivity].
    cbn [andb].
    destruct (existsb _ listedAgain) eqn:Hex; [| reflexivity].
    apply existsb_exists in Hex as (n & Hin & Hn).
    apply andb_prop in Hn as [Hkept Hp].
    rewrite (pruneExtensionFiles_lookup fs langId totalExtensions p Hnames).
    unfold pruneExtensionFiles in Hkept. rewrite Hfolder in Hkept |- *. cbn [andb].
    rewrite kept_pruneLoop in Hkept by exact Hnames.
    assert (Hex : existsb (fun n => negb (kept fs langId n)
                                    && (String.eqb p (extensionFilePath langId n)
                                        || below (extensionFilePath langId n) p))
                    totalExtensions = true).
    { apply existsb_exists. exists n. split; [apply Hincl, Hin |].
      rewrite Hkept, Hp. reflexivity. }
    rewrite Hex. reflexivity.
  - assert (Hfs : pruneExtensionFiles fs langId totalExtensions = fs)
      by (unfold pruneExtensionFiles; rewrite Hfolder; reflexivity).
    rewrite Hfs. unfold pruneExtensionFiles. rewrite Hfolder. reflexivity.
Qed.

End PruningMore.

Lemma prune_order_independent_witness :
  LocFunc.pruneExtensionFiles Samples.siblingFs "de"
    ["ms-vscode.js-debug.i18n.json"; "vscode.bat.i18n.json"; "vscode.git.i18n.json";
     "vscode.bat.i18n.json"]
  = LocFunc.pruneExtensionFiles Samples.siblingFs "de" Samples.siblingExtensions.
Proof.
  apply (prune_order_independent Samples.siblingFs "de" Samples.siblingExtensions
           ["ms-vscode.js-debug.i18n.json"; "vscode.bat.i18n.json"; "vscode.git.i18n.json";
            "vscode.bat.i18n.json"]).
  - repeat constructor.
  - intros n. cbn. tauto.
Defined.

Lemma prune_idempotent_witness :
  LocFunc.pruneExtensionFiles
    (LocFunc.pruneExtensionFiles Samples.siblingFs "de" Samples.siblingExtensions) "de"
    ["vscode.git.i18n.json"; "vscode.bat.i18n.json"]
  = LocFunc.pruneExtensionFiles Samples.siblingFs "de" Samples.siblingExtensions.
Proof.
  apply (prune_idempotent Samples.siblingFs "de" Samples.siblingExtensions
           ["vscode.git.i18n.json"; "vscode.bat.i18n.json"]).
  - repeat constructor.
  - intros n. cbn. tauto.
Defined.

(** ** The language ids and the merged catalog *)

Section CatalogMore.
Import JsString JsObject Json NodePath LocFunc.

(** X19. The ids of the two Chinese packs are replaced by the names of
    their scripts: the result is never [zh-cn] or [zh-tw], another id is
    left as it is, and replacing twice is replacing once. *)
Theorem normalizeLangId_canonical (langId : string) :
  normalizeLangId (normalizeLangId langId) = normalizeLangId langId
  /\ normalizeLangId langId <> "zh-cn"
  /\ normalizeLangId langId <> "zh-tw"
  /\ (normalizeLangId langId = langId <-> langId <> "zh-cn" /\ langId <> "zh-tw").
Proof.
  unfold normalizeLangId.
  destruct (String.eqb_spec langId "zh-cn") as [-> | Hcn].
  - cbn. split; [reflexivity |]. split; [discriminate |]. split; [discriminate |].
    split; [discriminate | intros [H _]; contradiction H; reflexivity].
  - destruct (String.eqb_spec langId "zh-tw") as [-> | Htw].
    + cbn. split; [reflexivity |]. split; [discriminate |]. split; [discriminate |].
      split; [discriminate | intros [_ H]; contradiction H; reflexivity].
    + pose proof (proj2 (String.eqb_neq _ _) Hcn) as Hcn'.
      pose proof (proj2 (String.eqb_neq _ _) Htw) as Htw'.
      rewrite Hcn', Htw'. tauto.
Qed.

Lemma nodup_delete {V} k (o : obj V) :
  List.NoDup (keys o) -> List.NoDup (keys (delete k o)).
Proof.
  unfold keys, delete. induction o as [| [k0 v0] o IH]; intros Hnd; cbn in *; [exact Hnd |].
  apply List.NoDup_cons_iff in Hnd as [Hk0 Hnd].
  destruct (negb (String.eqb k0 k)); cbn; [| exact (IH Hnd)].
  constructor; [| exact (IH Hnd)].
  intros Hin. apply Hk0. apply in_map_iff in Hin as (e & He & Hin).
  apply filter_In in Hin as [Hin _]. apply in_map_iff. eauto.
Qed.

Lemma nodup_deleteKeys mc contentKeys (oc : obj json) :
  List.NoDup (keys oc) -> List.NoDup (keys (deleteKeys mc contentKeys oc)).
Proof.
  unfold deleteKeys. revert oc.
  induction contentKeys as [| k contentKeys IH]; intros oc Hnd; cbn [fold_left];
    [exact Hnd |].
  apply IH. destruct (stale mc k); [apply nodup_delete |]; exact Hnd.
Qed.

Lemma nodup_assign {V} (a b : obj V) :
  List.NoDup (keys a) -> List.NoDup (keys (assign a b)).
Proof.
  unfold assign. revert a. induction b as [| [k v] b IH]; intros a Hnd; cbn [fold_left];
    [exact Hnd |].
  apply IH, nodup_set, Hnd.
Qed.

(** X20. The catalog that the merge writes, key by key: a key of the new
    messages has the new value; another key has the value of the catalog on
    disk, unless it starts with [sql], and then it is not there. The
    document has the header, the version of the pack and these contents,
    and no key twice when the catalog on disk had none twice. *)
Theorem merged_catalog_lookup processPlatform (fs : FS) existing original
    (messages : I18nPack) current oc :
  fs !! join [existing +:+ ".i18n.json"] = Some (JsonFile (JObject current)) ->
  get "contents" current = Some (JObject oc) ->
  List.NoDup (keys (contents messages)) ->
  exists file out,
    updateMainI18nFile processPlatform fs existing original messages = Ok file
    /\ document file
       = JObject [(EmptyString, header); ("version", JString (version messages));
                  ("contents", JObject out)]
    /\ (forall k,
          get k out
          = match get k (contents messages) with
            | Some v => Some v
            | None => if startsWith k "sql" then None else get k oc
            end)
    /\ (List.NoDup (keys oc) -> List.NoDup (keys out)).
Proof.
  intros Hfs Hc Hnd.
  eexists _, (spread (deleteStale oc (contents messages)) (contents messages)).
  split; [apply (updateMainI18nFile_ok _ _ _ _ _ _ _ Hfs Hc) |].
  split; [reflexivity |]. unfold spread. split.
  - intros k. destruct (get k (contents messages)) as [v |] eqn:Hk.
    + apply get_assign_in; [exact Hnd | apply get_In, Hk].
    + rewrite get_assign_notin by (apply get_keys; exact Hk).
      rewrite get_deleteStale. unfold stale, has. rewrite Hk.
      destruct (startsWith k "sql"); reflexivity.
  - intros Hoc. apply nodup_assign. unfold deleteStale. apply nodup_deleteKeys, Hoc.
Qed.

End CatalogMore.

Lemma merged_catalog_lookup_witness :
  exists file out,
    LocFunc.updateMainI18nFile "win32" Samples.sampleFs
      "i18n/ads-language-pack-de/translations\main" "./main" Samples.sampleMessages
    = Ok file
    /\ LocFunc.document file
       = Json.JObject [(EmptyString, LocFunc.header);
                       ("version", Json.JString "1.0.0");
                       ("contents", Json.JObject out)]
    /\ (forall k,
          JsObject.get k out
          = match JsObject.get k (LocFunc.contents Samples.sampleMessages) with
            | Some v => Some v
            | None =>
                if JsString.startsWith k "sql" then None
                else JsObject.get k
                       [("vs/editor", Json.JObject [("find", Json.JString "Suchen")]);
                        ("sql/old", Json.JObject [("gone", Json.JString "Weg")]);
                        ("sql/kept", Json.JObject [("open", Json.JString "Offen")])]
            end)
    /\ (List.NoDup (JsObject.keys
                      [("vs/editor", Json.JObject [("find", Json.JString "Suchen")]);
                       ("sql/old", Json.JObject [("gone", Json.JString "Weg")]);
                       ("sql/kept", Json.JObject [("open", Json.JString "Offen")])]) ->
        List.NoDup (JsObject.keys out)).
Proof.
  apply (merged_catalog_lookup "win32" Samples.sampleFs
           "i18n/ads-language-pack-de/translations\main" "./main" Samples.sampleMessages
           _ _ eq_refl eq_refl).
  repeat constructor; cbn; intuition discriminate.
Defined.

(** ** The catalogs, resource by resource *)

Section PacksByResource.
Import JsString JsObject Json NodePath LocFunc.

Variable i18nPackVersion : string.

Lemma forEach_get_other resource (files : list ParsedXLF) (st : Packs) r :
  r <> resource ->
  get r (extensionsPacks (fst (forEach i18nPackVersion resource files st)))
  = get r (extensionsPacks st).
Proof.
  intros Hne. revert st. induction files as [| file files IH]; intros st; cbn [forEach];
    [reflexivity |].
  destruct (route i18nPackVersion resource st file) as [st' | reason] eqn:Hroute;
    [| reflexivity].
  rewrite IH. revert Hroute. unfold route.
  destruct (negb (String.eqb resource "sql")).
  - destruct (get resource (extensionsPacks st)) as [extPack |];
      [| destruct (inherited resource); [discriminate |]];
      intros [= <-]; cbn [extensionsPacks]; apply get_set_ne; congruence.
  - intros [= <-]. reflexivity.
Qed.

Lemma forEach_get_same r (files : list ParsedXLF) (st1 st2 : Packs) :
  get r (extensionsPacks st1) = get r (extensionsPacks st2) ->
  get r (extensionsPacks (fst (forEach i18nPackVersion r files st1)))
  = get r (extensionsPacks (fst (forEach i18nPackVersion r files st2))).
Proof.
  revert st1 st2. induction files as [| file files IH]; intros st1 st2 Hsame;
    cbn [forEach]; [exact Hsame |].
  unfold route. destruct (negb (String.eqb r "sql")).
  - rewrite <- Hsame. destruct (get r (extensionsPacks st1)) as [extPack |] eqn:Hown;
      [| destruct (inherited r); [cbn [fst]; rewrite Hown; exact Hsame |]];
      apply IH; cbn [extensionsPacks]; rewrite !get_set_eq; reflexivity.
  - apply IH. exact Hsame.
Qed.

Lemma forEach_main_other resource (files : list ParsedXLF) (st : Packs) :
  resource <> "sql" ->
  mainPack (fst (forEach i18nPackVersion resource files st)) = mainPack st.
Proof.
  intros Hne. apply String.eqb_neq in Hne. revert st.
  induction files as [| file files IH]; intros st; cbn [forEach]; [reflexivity |].
  unfold route. rewrite Hne. cbn [negb].
  destruct (get resource (extensionsPacks st)) as [extPack |];
    [| destruct (inherited resource); [reflexivity |]]; rewrite IH; reflexivity.
Qed.

Lemma forEach_main_same (files : list ParsedXLF) (st1 st2 : Packs) :
  mainPack st1 = mainPack st2 ->
  mainPack (fst (forEach i18nPackVersion "sql" files st1))
  = mainPack (fst (forEach i18nPackVersion "sql" files st2)).
Proof.
  revert st1 st2. induction files as [| file files IH]; intros st1 st2 Hsame;
    cbn [forEach]; [exact Hsame |].
  unfold route. change (negb (String.eqb "sql" "sql")) with false. cbv iota.
  apply IH. cbn [mainPack]. rewrite Hsame. reflexivity.
Qed.

Lemma mainPack_through (st : Packs) (xlf : XlfFile) :
  mainPack (through i18nPackVersion st xlf)
  = match parsed xlf with
    | Ok resolvedFiles =>
        mainPack (fst (forEach i18nPackVersion (resourceOf xlf) resolvedFiles st))
    | Throw _ => mainPack st
    end.
Proof.
  unfold through. destruct (parsed xlf) as [files | reason]; [| reflexivity].
  destruct (forEach i18nPackVersion (resourceOf xlf) files st) as [st' [reason |]];
    reflexivity.
Qed.

Lemma through_get_other (st : Packs) (xlf : XlfFile) r :
  r <> resourceOf xlf ->
  get r (extensionsPacks (through i18nPackVersion st xlf)) = get r (extensionsPacks st).
Proof.
  intros Hne. rewrite extensionsPacks_through.
  destruct (parsed xlf) as [files | reason]; [| reflexivity].
  apply forEach_get_other, Hne.
Qed.

Lemma through_get_same (st1 st2 : Packs) (xlf : XlfFile) :
  get (resourceOf xlf) (extensionsPacks st1) = get (resourceOf xlf) (extensionsPacks st2) ->
  get (resourceOf xlf) (extensionsPacks (through i18nPackVersion st1 xlf))
  = get (resourceOf xlf) (extensionsPacks (through i18nPackVersion st2 xlf)).
Proof.
  intros Hsame. rewrite !extensionsPacks_through.
  destruct (parsed xlf) as [files | reason]; [| exact Hsame].
  apply forEach_get_same, Hsame.
Qed.

Lemma through_main_other (st : Packs) (xlf : XlfFile) :
  resourceOf xlf <> "sql" -> mainPack (through i18nPackVersion st xlf) = mainPack st.
Proof.
  intros Hne. rewrite mainPack_through.
  destruct (parsed xlf) as [files | reason]; [| reflexivity].
  apply forEach_main_other, Hne.
Qed.

Lemma through_main_same (st1 st2 : Packs) (xlf : XlfFile) :
  resourceOf xlf = "sql" -> mainPack st1 = mainPack st2 ->
  mainPack (through i18nPackVersion st1 xlf) = mainPack (through i18nPackVersion st2 xlf).
Proof.
  intros Hsql Hsame. rewrite !mainPack_through, Hsql.
  destruct (parsed xlf) as [files | reason]; [| exact Hsame].
  apply forEach_main_same, Hsame.
Qed.

(** X23. The catalog of a resource is made of the XLF files of that
    resource alone, and the main catalog of those of [sql] alone: the other
    files of the batch can be left out without changing it, whatever their
    parses gave. *)
Theorem packs_by_resource (xlfs : list XlfFile) (r : string) :
  get r (extensionsPacks
           (fold_left (through i18nPackVersion) xlfs (initialPacks i18nPackVersion)))
  = get r (extensionsPacks
             (fold_left (through i18nPackVersion)
                (List.filter (fun xlf => String.eqb (resourceOf xlf) r) xlfs)
                (initialPacks i18nPackVersion)))
  /\ mainPack (fold_left (through i18nPackVersion) xlfs (initialPacks i18nPackVersion))
     = mainPack (fold_left (through i18nPackVersion)
                   (List.filter (fun xlf => String.eqb (resourceOf xlf) "sql") xlfs)
                   (initialPacks i18nPackVersion)).
Proof.
  split.
  - generalize (eq_refl (get r (extensionsPacks (initialPacks i18nPackVersion)))).
    generalize (initialPacks i18nPackVersion) at 1 3.
    generalize (initialPacks i18nPackVersion).
    induction xlfs as [| xlf xlfs IH]; intros st2 st1 Hsame; cbn [fold_left List.filter];
      [exact Hsame |].
    destruct (String.eqb_spec (resourceOf xlf) r) as [<- | Hne]; cbn [fold_left].
    + apply IH, through_get_same, Hsame.
    + apply IH. rewrite through_get_other by congruence. exact Hsame.
  - generalize (eq_refl (mainPack (initialPacks i18nPackVersion))).
    generalize (initialPacks i18nPackVersion) at 1 3.
    generalize (initialPacks i18nPackVersion).
    induction xlfs as [| xlf xlfs IH]; intros st2 st1 Hsame; cbn [fold_left List.filter];
      [exact Hsame |].
    destruct (String.eqb_spec (resourceOf xlf) "sql") as [Hsql | Hne]; cbn [fold_left].
    + apply IH, through_main_same; assumption.
    + apply IH. rewrite through_main_other by exact Hne. exact Hsame.
Qed.

End PacksByResource.

(** ** The resource of an XLF file *)

Section ResourceNames.
Import JsString Json NodePath LocFunc.
#[local] Arguments String.append !s1 s2 : simpl nomatch.
#[local] Arguments Ascii.eqb !a !b : simpl nomatch.

Lemma segments_app_any (a s : string) :
  segments (a +:+ String "/" s) = segments a ++ segments s.
Proof.
  induction a as [| c a IH]; [reflexivity |].
  cbn [String.append segments]. rewrite IH.
  destruct (Ascii.eqb c "/"); [reflexivity |].
  pose proof (segments_nonempty a) as Hne.
  destruct (segments a) as [| h r]; [contradiction | reflexivity].
Qed.

Lemma plain_app (a b : string) : plain a -> plain b -> plain (a +:+ b).
Proof.
  unfold plain. induction a as [| c a IH]; intros Ha Hb; [exact Hb |].
  apply plain_cons in Ha as [Hc Ha]. cbn [String.append segments].
  apply Ascii.eqb_neq in Hc. rewrite Hc, (IH Ha Hb). reflexivity.
Qed.

Lemma endsWith_app (a s : string) : endsWith (a +:+ s) s = true.
Proof.
  induction a as [| c a IH]; cbn [String.append].
  - destruct s; cbn [endsWith]; rewrite String.eqb_refl; reflexivity.
  - cbn [endsWith]. rewrite IH. apply orb_true_r.
Qed.

Lemma take_app (a b : string) : take (String.length a) (a +:+ b) = a.
Proof.
  induction a as [| c a IH]; cbn [String.length String.append take].
  - destruct b; reflexivity.
  - rewrite IH. reflexivity.
Qed.

Lemma take_all (a : string) : take (String.length a) a = a.
Proof. induction a as [| c a IH]; cbn; [| rewrite IH]; reflexivity. Qed.

(** The last segment of a relative path that ends in a file name. *)
Lemma last_segment (prefix file : string) :
  prefix = EmptyString \/ (exists d, prefix = d +:+ "/") ->
  plain file -> file <> EmptyString ->
  List.last (List.filter (fun seg => negb (String.eqb seg EmptyString))
               (segments (prefix +:+ file))) EmptyString
  = file.
Proof.
  intros Hprefix Hplain Hne.
  assert (Hfile : negb (String.eqb file EmptyString) = true).
  { apply negb_true_iff, String.eqb_neq, Hne. }
  destruct Hprefix as [-> | [d ->]].
  - cbn [String.append]. rewrite Hplain. cbn [List.filter]. rewrite Hfile. reflexivity.
  - rewrite append_assoc. change ("/" +:+ file) with (String "/" file).
    rewrite segments_app_any, Hplain, List.filter_app. cbn [List.filter].
    rewrite Hfile. apply last_last.
Qed.

Lemma basename_xlf (prefix stem : string) :
  prefix = EmptyString \/ (exists d, prefix = d +:+ "/") ->
  plain stem -> stem <> EmptyString ->
  basename (prefix +:+ stem +:+ ".xlf") ".xlf" = stem.
Proof.
  intros Hprefix Hplain Hne. unfold basename.
  assert (Hlen : String.length (stem +:+ ".xlf") = (String.length stem + 4)%nat)
    by (rewrite length_append; reflexivity).
  rewrite last_segment; [| exact Hprefix | apply plain_app; [exact Hplain | reflexivity] |].
  - rewrite endsWith_app. cbn [andb].
    assert (Hneq : String.eqb (stem +:+ ".xlf") ".xlf" = false).
    { apply String.eqb_neq. intros Heq. apply (f_equal String.length) in Heq.
      rewrite Hlen in Heq. cbn in Heq. destruct stem; [contradiction | cbn in Heq; lia]. }
    rewrite Hneq. cbn [negb]. rewrite Hlen.
    replace (String.length stem + 4 - String.length ".xlf")%nat with (String.length stem)
      by (cbn; lia).
    apply take_app.
  - intros Heq. apply (f_equal String.length) in Heq. rewrite Hlen in Heq.
    cbn in Heq. lia.
Qed.

Lemma lastIndexOf_at_none (s : string) (pos : Z) :
  includes s "." = false -> lastIndexOf_at "." s pos = -1.
Proof.
  revert pos. induction s as [| a s IH]; intros pos Hs; [reflexivity |].
  cbn [includes startsWith] in Hs. apply orb_false_elim in Hs as [Ha Hs].
  rewrite andb_true_r in Ha. cbn [lastIndexOf_at]. rewrite (IH _ Hs).
  rewrite Ascii.eqb_sym, Ha. reflexivity.
Qed.

Lemma lastIndexOf_at_dot (name lang : string) (pos : Z) :
  0 <= pos -> includes lang "." = false ->
  lastIndexOf_at "." (name +:+ String "." lang) pos = pos + Z.of_nat (String.length name).
Proof.
  intros Hpos Hlang. revert pos Hpos.
  induction name as [| c name IH]; intros pos Hpos;
    cbn [String.append lastIndexOf_at String.length].
  - rewrite (lastIndexOf_at_none lang _ Hlang). cbn. lia.
  - rewrite IH by lia.
    destruct (Z.leb_spec 0 (pos + 1 + Z.of_nat (String.length name))); lia.
Qed.

(** X21. The resource of an XLF file named [name.lang.xlf], in a folder or
    not, is [name]: the last two extensions are taken off, and a name with
    dots of its own keeps them. *)
Theorem resourceOf_name (prefix name lang : string)
    (outcome : Result Reason (list ParsedXLF)) :
  prefix = EmptyString \/ (exists d, prefix = d +:+ "/") ->
  plain name -> plain lang -> includes lang "." = false ->
  resourceOf (mkXlfFile (prefix +:+ name +:+ "." +:+ lang +:+ ".xlf") outcome) = name.
Proof.
  intros Hprefix Hname Hlang Hdot. unfold resourceOf. cbn [relative].
  replace (prefix +:+ name +:+ "." +:+ lang +:+ ".xlf")
    with (prefix +:+ (name +:+ "." +:+ lang) +:+ ".xlf")
    by (rewrite !append_assoc; reflexivity).
  rewrite basename_xlf;
    [| exact Hprefix
     | apply plain_app; [exact Hname | apply (plain_app "."); [reflexivity | exact Hlang]]
     | destruct name; discriminate].
  change (name +:+ "." +:+ lang) with (name +:+ String "." lang).
  unfold lastIndexOf. rewrite lastIndexOf_at_dot by (try lia; exact Hdot).
  unfold substring, strlen. rewrite length_append. cbn [String.length].
  match goal with
  | |- take (Z.to_nat ?span) (drop (Z.to_nat ?lo) _) = _ =>
      replace span with (Z.of_nat (String.length name)) by lia;
      replace lo with 0 by lia
  end.
  rewrite Nat2Z.id. cbn [Z.to_nat drop]. apply take_app.
Qed.

Lemma forEach_no_throw i18nPackVersion resource (files : list ParsedXLF) (st : Packs) :
  JsObject.inherited resource = false ->
  snd (forEach i18nPackVersion resource files st) = None.
Proof.
  intros Hown. revert st. induction files as [| file files IH]; intros st; cbn [forEach];
    [reflexivity |].
  destruct (route_cases i18nPackVersion resource st file)
    as [(st' & -> & _) | (_ & _ & Hin & _)]; [apply IH | congruence].
Qed.

(** X22. An XLF file whose name has no language part, [name.xlf] without a
    dot in [name], has the empty resource, also when it is [sql.xlf]: its
    strings go to the catalog of an extension without name and never to
    the main catalog, and the routing throws nothing. *)
Theorem resourceOf_no_language (i18nPackVersion prefix name : string)
    (resolvedFiles : list ParsedXLF) (st : Packs) :
  prefix = EmptyString \/ (exists d, prefix = d +:+ "/") ->
  plain name -> name <> EmptyString -> includes name "." = false ->
  resourceOf (mkXlfFile (prefix +:+ name +:+ ".xlf") (Ok resolvedFiles)) = EmptyString
  /\ mainPack (through i18nPackVersion st
                 (mkXlfFile (prefix +:+ name +:+ ".xlf") (Ok resolvedFiles)))
     = mainPack st
  /\ errors (through i18nPackVersion st
               (mkXlfFile (prefix +:+ name +:+ ".xlf") (Ok resolvedFiles)))
     = errors st
  /\ (resolvedFiles <> [] ->
      is_Some (JsObject.get EmptyString
                 (extensionsPacks
                    (through i18nPackVersion st
                       (mkXlfFile (prefix +:+ name +:+ ".xlf") (Ok resolvedFiles))))))
  /\ (forall other, other <> EmptyString ->
        JsObject.get other
          (extensionsPacks
             (through i18nPackVersion st
                (mkXlfFile (prefix +:+ name +:+ ".xlf") (Ok resolvedFiles))))
        = JsObject.get other (extensionsPacks st)).
Proof.
  intros Hprefix Hname Hne Hdot.
  assert (Hres : resourceOf (mkXlfFile (prefix +:+ name +:+ ".xlf") (Ok resolvedFiles))
                 = EmptyString).
  { unfold resourceOf. cbn [relative].
    rewrite basename_xlf by assumption.
    unfold lastIndexOf. rewrite (lastIndexOf_at_none name 0 Hdot).
    unfold substring, strlen.
    match goal with
    | |- take (Z.to_nat ?span) (drop (Z.to_nat ?lo) _) = _ =>
        replace span with 0 by lia; replace lo with 0 by lia
    end.
    reflexivity. }
  split; [exact Hres |].
  split; [apply through_main_other; rewrite Hres; discriminate |].
  split; [| split].
  - rewrite errors_through_one. cbn [parsed]. rewrite Hres.
    rewrite forEach_no_throw by reflexivity. apply app_nil_r.
  - intros Hfiles. rewrite extensionsPacks_through. cbn [parsed]. rewrite Hres.
    assert (Hin : In EmptyString
                    (JsObject.keys
                       (extensionsPacks
                          (fst (forEach i18nPackVersion EmptyString resolvedFiles st))))).
    { apply keys_forEach. right. repeat split; [discriminate | exact Hfiles]. }
    destruct (JsObject.get EmptyString
                (extensionsPacks (fst (forEach i18nPackVersion EmptyString resolvedFiles st))))
      as [extPack |] eqn:Hget; [eauto |].
    apply get_keys in Hget. contradiction.
  - intros other Hother. apply through_get_other. rewrite Hres. exact Hother.
Qed.

End ResourceNames.

Lemma resourceOf_name_witness :
  LocFunc.resourceOf
    (LocFunc.mkXlfFile ("de/" +:+ "ms-vscode.js-debug" +:+ "." +:+ "de" +:+ ".xlf") (Ok []))
  = "ms-vscode.js-debug".
Proof.
  apply (resourceOf_name "de/" "ms-vscode.js-debug" "de" (Ok [])).
  - right. exists "de". reflexivity.
  - reflexivity.
  - reflexivity.
  - reflexivity.
Defined.

Lemma resourceOf_no_language_witness :
  LocFunc.resourceOf (LocFunc.mkXlfFile (EmptyString +:+ "sql" +:+ ".xlf")
                        (Ok [Samples.sqlFile]))
  = EmptyString
  /\ LocFunc.mainPack
       (LocFunc.through "1.0.0" (LocFunc.initialPacks "1.0.0")
          (LocFunc.mkXlfFile (EmptyString +:+ "sql" +:+ ".xlf") (Ok [Samples.sqlFile])))
     = LocFunc.mainPack (LocFunc.initialPacks "1.0.0")
  /\ LocFunc.errors
       (LocFunc.through "1.0.0" (LocFunc.initialPacks "1.0.0")
          (LocFunc.mkXlfFile (EmptyString +:+ "sql" +:+ ".xlf") (Ok [Samples.sqlFile])))
     = LocFunc.errors (LocFunc.initialPacks "1.0.0")
  /\ is_Some (JsObject.get EmptyString
                (LocFunc.extensionsPacks
                   (LocFunc.through "1.0.0" (LocFunc.initialPacks "1.0.0")
                      (LocFunc.mkXlfFile (EmptyString +:+ "sql" +:+ ".xlf")
                         (Ok [Samples.sqlFile])))))
  /\ JsObject.get "sql"
       (LocFunc.extensionsPacks
          (LocFunc.through "1.0.0" (LocFunc.initialPacks "1.0.0")
             (LocFunc.mkXlfFile (EmptyString +:+ "sql" +:+ ".xlf") (Ok [Samples.sqlFile]))))
     = JsObject.get "sql" (LocFunc.extensionsPacks (LocFunc.initialPacks "1.0.0")).
Proof.
  destruct (resourceOf_no_language "1.0.0" EmptyString "sql" [Samples.sqlFile]
              (LocFunc.initialPacks "1.0.0"))
    as (Hres & Hmain & Herr & Hpack & Hother).
  - left. reflexivity.
  - reflexivity.
  - discriminate.
  - reflexivity.
  - split; [exact Hres |]. split; [exact Hmain |]. split; [exact Herr |].
    split; [apply Hpack; discriminate | apply Hother; discriminate].
Defined.

(** ** The fields of the descriptor *)

Section ManifestMore.
Import JsString LocFunc.

Lemma replace_absent (s pat rep : string) :
  includes s pat = false -> replace s pat rep = s.
Proof.
  induction s as [| a s IH]; cbn [includes replace]; intros H;
    apply orb_false_elim in H as [Hstart Hrest]; rewrite Hstart; [reflexivity |].
  rewrite (IH Hrest). reflexivity.
Qed.

(** X24. The descriptor of a pack that is already one of ADS, with a name
    of ASCII characters without capital letter and without [vscode], keeps
    its name and its display name when the fields are rewritten, and
    rewriting its fields a second time changes nothing; the localizations
    are never touched. *)
Theorem rewriteManifest_stable (langId : string) (packageJSON : PackageJSON) :
  isAscii (name packageJSON) = true ->
  includes (name packageJSON) "vscode" = false ->
  toLowerCase (name packageJSON) = name packageJSON ->
  includes (displayName packageJSON) "Visual Studio Code" = false ->
  name (rewriteManifest langId packageJSON) = name packageJSON
  /\ displayName (rewriteManifest langId packageJSON) = displayName packageJSON
  /\ localizations (rewriteManifest langId packageJSON) = localizations packageJSON
  /\ rewriteManifest langId (rewriteManifest langId packageJSON)
     = rewriteManifest langId packageJSON.
Proof.
  intros _ Hname Hlower Hdisplay.
  assert (Hn : toLowerCase (replace (name packageJSON) "vscode" nameText)
               = name packageJSON)
    by (rewrite (replace_absent _ _ _ Hname); exact Hlower).
  assert (Hd : replace (displayName packageJSON) "Visual Studio Code" displayNameText
               = displayName packageJSON)
    by (apply replace_absent, Hdisplay).
  unfold rewriteManifest. cbn [name displayName localizations].
  rewrite Hn, Hd, Hn, Hd. auto.
Qed.

End ManifestMore.

Lemma rewriteManifest_stable_witness :
  LocFunc.name (LocFunc.rewriteManifest "de" Samples.samplePackageJSON)
  = LocFunc.name Samples.samplePackageJSON
  /\ LocFunc.displayName (LocFunc.rewriteManifest "de" Samples.samplePackageJSON)
     = LocFunc.displayName Samples.samplePackageJSON
  /\ LocFunc.localizations (LocFunc.rewriteManifest "de" Samples.samplePackageJSON)
     = LocFunc.localizations Samples.samplePackageJSON
  /\ LocFunc.rewriteManifest "de" (LocFunc.rewriteManifest "de" Samples.samplePackageJSON)
     = LocFunc.rewriteManifest "de" Samples.samplePackageJSON.
Proof.
  apply (rewriteManifest_stable "de" Samples.samplePackageJSON); reflexivity.
Defined.
